(** * batools.pcommands2: a shallow embedding and its verification

    The module [tools/batools/pcommands2.py] is a collection of build
    commands ("pcommands").  Every command reads [sys.argv], talks to the
    file system, runs external programs and reports failure by raising.

    The development has three layers:
    - [PyStr]: the Python string operations the commands use
      ([str.join], [str.replace], [str.strip], slicing, [textwrap.dedent],
      [textwrap.indent], [os.path.join], [pathlib.Path] normalisation);
    - [Fs] and the command monad [M]: a tree-shaped file system, the process
      state ([sys.argv], environment, working directory, standard output)
      and a trace of the side effects performed;
    - the commands themselves, one definition per Python function, and the
      theorems about them.

    Python [str] values are represented by their UTF-8 encoding (Rocq
    [string]); ordering by code point and ordering by UTF-8 bytes agree. *)

From Stdlib Require Import Ascii String QArith.Qcanon.
From stdpp Require Import base option list sorting strings gmap numbers.

Local Close Scope Qc_scope.
Local Close Scope Q_scope.
Local Open Scope string_scope.
Local Open Scope list_scope.

(** ** Python strings *)

Module PyStr.

(** The characters that cannot be written inside a Rocq string literal. *)
Definition nl : string := String (ascii_of_nat 10) EmptyString.
Definition dq : string := String (ascii_of_nat 34) EmptyString.
Definition bsl : string := String (ascii_of_nat 92) EmptyString.

Definition of_codes (l : list nat) : string :=
  fold_right (fun n s => String (ascii_of_nat n) s) EmptyString l.

(** [sep.join(ls)] *)
Definition join (sep : string) (ls : list string) : string :=
  String.concat sep ls.

(** [s.startswith(p)] and [s.endswith(p)] *)
Definition startswith (s p : string) : bool := String.prefix p s.
Definition endswith (s p : string) : bool :=
  String.prefix (String.rev p) (String.rev s).

(** [s[n:]] for [n >= 0] *)
Fixpoint slice_from (n : nat) (s : string) : string :=
  match n, s with
  | O, _ => s
  | S _, EmptyString => EmptyString
  | S k, String _ s' => slice_from k s'
  end.

(** [s.replace(old, new)]: every non-overlapping occurrence, scanning from
    the left.  [skip] counts the characters of a matched occurrence that
    are still to be dropped. *)
Fixpoint replace_go (old new : string) (skip : nat) (s : string) : string :=
  match s with
  | EmptyString => EmptyString
  | String c s' =>
      match skip with
      | S k => replace_go old new k s'
      | O =>
          if String.prefix old s
          then new +:+ replace_go old new (String.length old - 1) s'
          else String c (replace_go old new 0 s')
      end
  end.

Fixpoint intersperse_all (new s : string) : string :=
  match s with
  | EmptyString => new
  | String c s' => new +:+ String c (intersperse_all new s')
  end.

Definition replace (s old new : string) : string :=
  match old with
  | EmptyString => intersperse_all new s
  | _ => replace_go old new 0 s
  end.

(** The code points for which [str.isspace] holds, UTF-8 encoded. *)
Definition whitespace : list string :=
  map of_codes
    [ [9]; [10]; [11]; [12]; [13]; [28]; [29]; [30]; [31]; [32];
      [194; 133]; [194; 160]; [225; 154; 128];
      [226; 128; 128]; [226; 128; 129]; [226; 128; 130]; [226; 128; 131];
      [226; 128; 132]; [226; 128; 133]; [226; 128; 134]; [226; 128; 135];
      [226; 128; 136]; [226; 128; 137]; [226; 128; 138];
      [226; 128; 168]; [226; 128; 169]; [226; 128; 175];
      [226; 129; 159]; [227; 128; 128] ].

(** Drops one leading token of [toks], if [s] starts with one. *)
Fixpoint drop_token (toks : list string) (s : string) : option string :=
  match toks with
  | [] => None
  | t :: toks' =>
      if String.prefix t s then Some (slice_from (String.length t) s)
      else drop_token toks' s
  end.

Fixpoint lstrip_go (toks : list string) (fuel : nat) (s : string) : string :=
  match fuel with
  | O => s
  | S k =>
      match drop_token toks s with
      | Some r => lstrip_go toks k r
      | None => s
      end
  end.

Definition lstrip (s : string) : string :=
  lstrip_go whitespace (String.length s) s.
Definition rstrip (s : string) : string :=
  String.rev
    (lstrip_go (map String.rev whitespace) (String.length s) (String.rev s)).
(** [s.strip()] *)
Definition strip (s : string) : string := rstrip (lstrip s).

(** [bool(line.strip())]: the line holds a character that is not white. *)
Definition has_text (s : string) : bool :=
  negb (String.eqb (strip s) EmptyString).

(** [s.split(sep)] for a one-character separator. *)
Fixpoint split_go (sep : ascii) (cur : string) (s : string) : list string :=
  match s with
  | EmptyString => [String.rev cur]
  | String c s' =>
      if Ascii.eqb c sep then String.rev cur :: split_go sep EmptyString s'
      else split_go sep (String c cur) s'
  end.
Definition split (sep : ascii) (s : string) : list string :=
  split_go sep EmptyString s.

(** [s.splitlines(keepends=True)].  The line boundaries are those of
    [str.splitlines]; a carriage return followed by a line feed is one
    boundary. *)
Definition line_ends : list string :=
  map of_codes
    [ [13; 10]; [10]; [13]; [11]; [12]; [28]; [29]; [30];
      [194; 133]; [226; 128; 168]; [226; 128; 169] ].

Fixpoint line_end_at (ends : list string) (s : string) : option nat :=
  match ends with
  | [] => None
  | e :: ends' =>
      if String.prefix e s then Some (String.length e)
      else line_end_at ends' s
  end.

Fixpoint splitlines_go (cur : string) (skip : nat) (s : string)
  : list string :=
  match s with
  | EmptyString =>
      match cur with EmptyString => [] | _ => [String.rev cur] end
  | String c s' =>
      match skip with
      | S (S k) => splitlines_go (String c cur) (S k) s'
      | S O => String.rev (String c cur) :: splitlines_go EmptyString 0 s'
      | O =>
          match line_end_at line_ends s with
          | Some (S (S k)) => splitlines_go (String c cur) (S k) s'
          | Some _ => String.rev (String c cur) :: splitlines_go EmptyString 0 s'
          | None => splitlines_go (String c cur) 0 s'
          end
      end
  end.
Definition splitlines_keepends (s : string) : list string :=
  splitlines_go EmptyString 0 s.

(** [textwrap.indent(text, prefix)] with the default predicate: the
    prefix goes before every line that is not white only. *)
Definition textwrap_indent (text prefix : string) : string :=
  join EmptyString
    (map (fun line => if has_text line then prefix +:+ line else line)
       (splitlines_keepends text)).

(** [textwrap.dedent(text)].  Lines are separated by line feeds; a line
    of blanks and tabs only becomes empty; the margin is the longest
    common prefix of the indentations of the other lines, and it is
    removed from the lines that start with it. *)
Definition is_blank (c : ascii) : bool :=
  Ascii.eqb c (ascii_of_nat 32) || Ascii.eqb c (ascii_of_nat 9).

Fixpoint all_blank (s : string) : bool :=
  match s with
  | EmptyString => true
  | String c s' => is_blank c && all_blank s'
  end.

Fixpoint indent_of (s : string) : string :=
  match s with
  | EmptyString => EmptyString
  | String c s' => if is_blank c then String c (indent_of s') else EmptyString
  end.

Fixpoint common_prefix (a b : string) : string :=
  match a, b with
  | String x a', String y b' =>
      if Ascii.eqb x y then String x (common_prefix a' b') else EmptyString
  | _, _ => EmptyString
  end.

Definition dedent_margin (lines : list string) : option string :=
  fold_left
    (fun margin line =>
       if all_blank line then margin
       else match margin with
            | None => Some (indent_of line)
            | Some m => Some (common_prefix m (indent_of line))
            end)
    lines None.

Definition textwrap_dedent (text : string) : string :=
  let lines :=
    map (fun l => if all_blank l then EmptyString else l)
      (split (ascii_of_nat 10) text) in
  match dedent_margin lines with
  | Some (String c m) =>
      let margin := String c m in
      join nl
        (map (fun l => if String.prefix margin l
                       then slice_from (String.length margin) l else l)
           lines)
  | _ => join nl lines
  end.

(** [os.path.join(a, b)] on POSIX. *)
Definition os_path_join (a b : string) : string :=
  if startswith b "/" then b
  else if String.eqb a EmptyString || endswith a "/" then a +:+ b
  else a +:+ "/" +:+ b.

(** [os.path.dirname(p)] on POSIX: up to the last slash, without the
    trailing slashes unless nothing else is left. *)
Fixpoint all_slashes (s : string) : bool :=
  match s with
  | EmptyString => true
  | String c s' => Ascii.eqb c "/"%char && all_slashes s'
  end.

Fixpoint drop_until_slash (s : string) : string :=
  match s with
  | EmptyString => EmptyString
  | String c s' => if Ascii.eqb c "/"%char then s else drop_until_slash s'
  end.

Fixpoint drop_slashes (s : string) : string :=
  match s with
  | EmptyString => EmptyString
  | String c s' => if Ascii.eqb c "/"%char then drop_slashes s' else s
  end.

Definition os_path_dirname (p : string) : string :=
  let head := String.rev (drop_until_slash (String.rev p)) in
  if all_slashes head then head
  else String.rev (drop_slashes (String.rev head)).

(** [sub in s] *)
Fixpoint contains (s sub : string) : bool :=
  String.prefix sub s
  || match s with
     | EmptyString => false
     | String _ s' => contains s' sub
     end.

(** [str(pathlib.PurePosixPath(s))]: repeated slashes, [.] components and
    trailing slashes are dropped; exactly two leading slashes are kept. *)
Definition Path_str (s : string) : string :=
  let root :=
    if startswith s "///" then "/"
    else if startswith s "//" then "//"
    else if startswith s "/" then "/"
    else "" in
  let parts :=
    List.filter (fun x => negb (String.eqb x "" || String.eqb x "."))
      (split "/"%char s) in
  let body := root +:+ join "/" parts in
  if String.eqb body "" then "." else body.

End PyStr.

(** ** The generated header of [gen_monolithic_register_modules] *)

(** What the command reads of a [batools.featureset.FeatureSet]: the class
    lives in a sibling module; its three attributes are taken as data. *)
Record FeatureSet := {
  fs_name : string;
  has_python_binary_module : bool;
  name_python_binary_module : string;
}.

Module Header.
Import PyStr.

(** [featuresets = [f for f in featuresets if f.has_python_binary_module]]
    followed by
    [pymodulenames = sorted(f.name_python_binary_module for f in featuresets)]. *)
Definition pymodulenames (featuresets : list FeatureSet) : list string :=
  merge_sort String.le
    (map name_python_binary_module
       (filter (fun f => has_python_binary_module f = true) featuresets)).

Definition initname (mname : string) : string :=
  if String.eqb mname "_baplus" then "DoPyInit_" +:+ mname
  else "PyInit_" +:+ mname.

Definition extern_def_line (n : string) : string :=
  "auto " +:+ initname n +:+ "() -> PyObject*;".

Definition py_register_line (n : string) : string :=
  "PyImport_AppendInittab(" +:+ dq +:+ n +:+ dq +:+ ", &" +:+ initname n +:+ ");".

Definition extern_def_code (names : list string) : string :=
  join nl (map extern_def_line names).

Definition py_register_code (names : list string) : string :=
  join nl (map py_register_line names).

Definition forwarding_block : string :=
  nl
  +:+ "// Slight hack: because we are currently building baplus as a"
  +:+ " static module" +:+ nl
  +:+ "// and linking it in, symbols exported there (namely"
  +:+ " PyInit__baplus) do not" +:+ nl
  +:+ "// seem to be available through us when we are compiled as"
  +:+ " a dynamic" +:+ nl
  +:+ "// library. This leads to Python being unable to load baplus."
  +:+ " While I'm sure" +:+ nl
  +:+ "// there is some way to get those symbols exported, I'm worried"
  +:+ " it might be" +:+ nl
  +:+ "// a messy platform-specific affair. So instead we're just"
  +:+ " defining that" +:+ nl
  +:+ "// function here when baplus is present and forwarding it through"
  +:+ " to the" +:+ nl
  +:+ "// static library version." +:+ nl
  +:+ "extern " +:+ dq +:+ "C" +:+ dq +:+ " auto PyInit__baplus() -> PyObject* {" +:+ nl
  +:+ "  return DoPyInit__baplus();" +:+ nl
  +:+ "}" +:+ nl.

Definition init_plus_code (names : list string) : string :=
  if bool_decide ("_baplus" ∈ names) then forwarding_block else EmptyString.

Definition base_code : string :=
  join nl
    [ "";
      "        // Released under the MIT License. See LICENSE for details.";
      "";
      "        #ifndef BALLISTICA_CORE_MGEN_PYTHON_MODULES_MONOLITHIC_H_";
      "        #define BALLISTICA_CORE_MGEN_PYTHON_MODULES_MONOLITHIC_H_";
      "";
      "        // THIS CODE IS AUTOGENERATED BY META BUILD; DO NOT EDIT BY HAND.";
      "";
      "        #include " +:+ dq +:+ "ballistica/shared/ballistica.h" +:+ dq;
      "        #include " +:+ dq +:+ "ballistica/shared/python/python_sys.h" +:+ dq;
      "";
      "        extern " +:+ dq +:+ "C" +:+ dq +:+ " {";
      "        ${EXTERN_DEF_CODE}";
      "        }";
      "";
      "        namespace ballistica {";
      "";
      "        /// Register init calls for all of our built-in Python modules.";
      "        /// Should only be used in monolithic builds. In modular builds";
      "        /// binary modules get located as .so files on disk as per regular";
      "        /// Python behavior.";
      "        void MonolithicRegisterPythonModules() {";
      "          if (g_buildconfig.monolithic_build()) {";
      "        ${PY_REGISTER_CODE}";
      "          } else {";
      "            FatalError(";
      "                " +:+ dq +:+ "MonolithicRegisterPythonModules should not be called" +:+ dq;
      "                " +:+ dq +:+ " in modular builds." +:+ dq +:+ ");";
      "          }";
      "        }";
      "        ${PY_INIT_PLUS}";
      "        }  // namespace ballistica";
      "";
      "        #endif  // BALLISTICA_CORE_MGEN_PYTHON_MODULES_MONOLITHIC_H_";
      "        " ].

(** The text written to the output file. *)
Definition header_text (featuresets : list FeatureSet) : string :=
  let names := pymodulenames featuresets in
  strip
    (replace
       (replace
          (replace (textwrap_dedent base_code)
             "${EXTERN_DEF_CODE}" (extern_def_code names))
          "${PY_REGISTER_CODE}" (textwrap_indent (py_register_code names) "    "))
       "${PY_INIT_PLUS}" (init_plus_code names))
  +:+ nl.

End Header.

(** ** The file system *)

Module Fs.
Import PyStr.

(** A file system is a tree.  Regular files carry the modification time
    [os.path.getmtime] reports (a finite float, hence a rational) and
    their contents; symbolic links carry their target.  A link is followed
    when it is the last component of a path; directories are reached
    through real directory entries. *)
#[local] Unset Elimination Schemes.
Inductive node :=
| File (mtime : Qc) (data : string)
| Symlink (target : string)
| Dir (entries : list (string * node)).
#[local] Set Elimination Schemes.

(** Induction over trees: the entries of a directory satisfy the
    property. *)
Section node_induction.
Variable P : node → Prop.
Hypothesis Hfile : ∀ m d, P (File m d).
Hypothesis Hlink : ∀ t, P (Symlink t).
Hypothesis Hdir : ∀ es, Forall (fun e => P (snd e)) es → P (Dir es).

Fixpoint node_ind (n : node) : P n :=
  match n with
  | File m d => Hfile m d
  | Symlink t => Hlink t
  | Dir es =>
      Hdir es
        ((fix all (l : list (string * node)) : Forall (fun e => P (snd e)) l :=
            match l with
            | [] => Forall_nil _
            | e :: l' => Forall_cons _ e l' (node_ind (snd e)) (all l')
            end) es)
  end.
End node_induction.

(** A position: the components from the root. *)
Definition path := list string.

Fixpoint assoc {A} (k : string) (l : list (string * A)) : option A :=
  match l with
  | [] => None
  | (k', v) :: l' => if String.eqb k k' then Some v else assoc k l'
  end.

Fixpoint alter_entry {A} (k : string) (f : A → A) (l : list (string * A))
  : list (string * A) :=
  match l with
  | [] => []
  | (k', v) :: l' =>
      if String.eqb k k' then (k', f v) :: l'
      else (k', v) :: alter_entry k f l'
  end.

Definition remove_entry {A} (k : string) (l : list (string * A))
  : list (string * A) :=
  List.filter (fun e => negb (String.eqb k (fst e))) l.

Fixpoint lookup (pos : path) (n : node) : option node :=
  match pos with
  | [] => Some n
  | c :: rest =>
      match n with
      | Dir es =>
          match assoc c es with
          | Some m => lookup rest m
          | None => None
          end
      | _ => None
      end
  end.

(** Applies [f] to the node at [pos], when there is one. *)
Fixpoint modify (pos : path) (f : node → node) (n : node) : node :=
  match pos with
  | [] => f n
  | c :: rest =>
      match n with
      | Dir es => Dir (alter_entry c (modify rest f) es)
      | _ => n
      end
  end.

Definition on_entries (f : list (string * node) → list (string * node))
    (n : node) : node :=
  match n with
  | Dir es => Dir (f es)
  | _ => n
  end.

(** Removes the entry at [pos] (of any kind, with what is below it). *)
Definition remove (pos : path) (root : node) : node :=
  match pos with
  | [] => root
  | _ => modify (removelast pos) (on_entries (remove_entry (List.last pos ""))) root
  end.

(** Path strings.  Empty components and [.] are skipped, [..] goes one
    level up; a relative path starts at the working directory.  The empty
    path names nothing.  The reading is lexical, as that of
    [os.path.normpath]: [..] drops the component before it, where the
    kernel looks it up in the directory reached so far; and [lookup]
    follows no symbolic link on the way, [stat] only a final one. *)
Definition norm_step (acc : path) (c : string) : path :=
  if String.eqb c "" || String.eqb c "." then acc
  else if String.eqb c ".." then removelast acc
  else acc ++ [c].

Definition resolve (cwd : path) (p : string) : option path :=
  if String.eqb p "" then None
  else Some (fold_left norm_step (split "/"%char p)
               (if startswith p "/" then [] else cwd)).

(** [stat]: the node a position names, following a final symbolic link
    (at most 40 of them in a row, as Linux does). *)
Fixpoint stat_pos (fuel : nat) (root : node) (pos : path)
  : option (path * node) :=
  match lookup pos root with
  | Some (Symlink t) =>
      match fuel with
      | O => None
      | S k =>
          match resolve (removelast pos) t with
          | Some pos' => stat_pos k root pos'
          | None => None
          end
      end
  | Some n => Some (pos, n)
  | None => None
  end.

Definition stat (root : node) (cwd : path) (p : string)
  : option (path * node) :=
  match resolve cwd p with
  | Some pos => stat_pos 40 root pos
  | None => None
  end.

Definition lstat (root : node) (cwd : path) (p : string) : option node :=
  match resolve cwd p with
  | Some pos => lookup pos root
  | None => None
  end.

Definition is_dir_node (n : node) : bool :=
  match n with Dir _ => true | _ => false end.

Definition exists_ (root : node) (cwd : path) (p : string) : bool :=
  match stat root cwd p with Some _ => true | None => false end.

Definition isdir (root : node) (cwd : path) (p : string) : bool :=
  match stat root cwd p with Some (_, Dir _) => true | _ => false end.

Definition islink (root : node) (cwd : path) (p : string) : bool :=
  match lstat root cwd p with Some (Symlink _) => true | _ => false end.

(** [mkdir -p]: creates the missing directories down to [pos]; fails when
    something on the way, or at [pos], is not a directory. *)
Fixpoint mkdirs (pos : path) (n : node) : option node :=
  match pos with
  | [] => match n with Dir _ => Some n | _ => None end
  | c :: rest =>
      match n with
      | Dir es =>
          match assoc c es with
          | Some m =>
              match mkdirs rest m with
              | Some m' => Some (Dir (alter_entry c (fun _ => m') es))
              | None => None
              end
          | None =>
              match mkdirs rest (Dir []) with
              | Some m' => Some (Dir (es ++ [(c, m')]))
              | None => None
              end
          end
      | _ => None
      end
  end.

(** Puts node [v] under the name [k]: in place when the name exists. *)
Definition set_entry (k : string) (v : node) (es : list (string * node))
  : list (string * node) :=
  match assoc k es with
  | Some _ => alter_entry k (fun _ => v) es
  | None => es ++ [(k, v)]
  end.

(** [find <start> -depth -empty -type d -delete] on a directory: the
    directories that are empty, or that hold nothing but directories
    emptied this way, are removed bottom-up.  [prune_entries] treats the
    entries of one directory, [prune] says whether the directory itself
    goes ([None]) or what is left of it. *)
Fixpoint prune (n : node) : option node :=
  match n with
  | Dir es =>
      let es' :=
        (fix prune_entries (l : list (string * node)) : list (string * node) :=
           match l with
           | [] => []
           | (k, v) :: l' =>
               match prune v with
               | Some v' => (k, v') :: prune_entries l'
               | None => prune_entries l'
               end
           end) es in
      match es' with
      | [] => None
      | _ => Some (Dir es')
      end
  | _ => Some n
  end.

Fixpoint prune_entries (l : list (string * node)) : list (string * node) :=
  match l with
  | [] => []
  | (k, v) :: l' =>
      match prune v with
      | Some v' => (k, v') :: prune_entries l'
      | None => prune_entries l'
      end
  end.

(** The file system after [find ... -delete] started at [pos], with the
    exit status.  A start that does not exist is an error (status 1); a
    start that is not a directory matches nothing.  The root directory
    cannot be removed. *)
Definition find_delete_empty (pos : path) (root : node) : Z * node :=
  match lookup pos root with
  | None => (1%Z, root)
  | Some (Dir es) =>
      match prune (Dir es), pos with
      | Some n', _ => (0%Z, modify pos (fun _ => n') root)
      | None, [] => (1%Z, Dir [])
      | None, _ => (0%Z, remove pos root)
      end
  | Some _ => (0%Z, root)
  end.

(** [rm -rf <pos>]: removes whatever is there; removing nothing is no
    error, removing the root is refused. *)
Definition rm_rf (pos : path) (root : node) : Z * node :=
  match pos with
  | [] => (1%Z, root)
  | _ => (0%Z, remove pos root)
  end.

(** The depth of the deepest directory, the bound of a top-down walk. *)
Fixpoint height (n : node) : nat :=
  match n with
  | Dir es =>
      S ((fix max_height (l : list (string * node)) : nat :=
            match l with
            | [] => 0
            | (_, v) :: l' => Nat.max (height v) (max_height l')
            end) es)
  | _ => 0
  end.

Definition render (pos : path) : string := "/" +:+ join "/" pos.

End Fs.

(** ** The process state and the command monad *)

(** Python exceptions.  [SystemExit] derives from [BaseException] only, the
    others from [Exception]. *)
Inductive exn :=
| CleanError (msg : string)
| OSError (op : string) (path : string)
| CalledProcessError (returncode : Z) (cmd : list string)
| ValueError (what : string)
| CollaboratorError (callee : string)
| SystemExit (code : Z).

Definition is_Exception (e : exn) : bool :=
  match e with
  | SystemExit _ => false
  | _ => true
  end.

(** The side effects a command performs, in order. *)
Inductive event :=
| EvChdir (path : string)
| EvMakedirs (path : string)
| EvUnlink (path : string)
| EvWrite (path : string) (data : string)
| EvRun (args : list string) (cwd : option string)
| EvShell (cmdline : string)
| EvCall (callee : string).

Record World := {
  argv : list string;              (* sys.argv *)
  batch : bool;                    (* the dispatcher runs in batch mode *)
  environ : gmap string string;    (* os.environ *)
  cwd : Fs.path;                   (* working directory *)
  fs : Fs.node;                    (* root of the file system *)
  now : Qc;                        (* the time written files get *)
  sys_path : list string;          (* sys.path *)
  stdout : string;                 (* what was printed *)
  logged : list (string * exn);    (* logging.exception records *)
  trace : list event;              (* side effects performed so far *)
}.

Definition set_fs (f : Fs.node) (w : World) : World :=
  {| argv := argv w; batch := batch w; environ := environ w; cwd := cwd w;
     fs := f; now := now w; sys_path := sys_path w; stdout := stdout w;
     logged := logged w; trace := trace w |}.
Definition set_cwd (c : Fs.path) (w : World) : World :=
  {| argv := argv w; batch := batch w; environ := environ w; cwd := c;
     fs := fs w; now := now w; sys_path := sys_path w; stdout := stdout w;
     logged := logged w; trace := trace w |}.
Definition set_sys_path (l : list string) (w : World) : World :=
  {| argv := argv w; batch := batch w; environ := environ w; cwd := cwd w;
     fs := fs w; now := now w; sys_path := l; stdout := stdout w;
     logged := logged w; trace := trace w |}.
Definition set_stdout (s : string) (w : World) : World :=
  {| argv := argv w; batch := batch w; environ := environ w; cwd := cwd w;
     fs := fs w; now := now w; sys_path := sys_path w; stdout := s;
     logged := logged w; trace := trace w |}.
Definition set_logged (l : list (string * exn)) (w : World) : World :=
  {| argv := argv w; batch := batch w; environ := environ w; cwd := cwd w;
     fs := fs w; now := now w; sys_path := sys_path w; stdout := stdout w;
     logged := l; trace := trace w |}.
Definition set_trace (t : list event) (w : World) : World :=
  {| argv := argv w; batch := batch w; environ := environ w; cwd := cwd w;
     fs := fs w; now := now w; sys_path := sys_path w; stdout := stdout w;
     logged := logged w; trace := t |}.
Definition emit (e : event) (w : World) : World :=
  set_trace (trace w ++ [e]) w.

(** How a computation ends: with a value, with an exception, or, for the
    directory walk only, with its recursion budget used up. *)
Inductive outcome (A : Type) :=
| Ok (a : A)
| Raise (e : exn)
| OutOfFuel.
Arguments Ok {A} a.
Arguments Raise {A} e.
Arguments OutOfFuel {A}.

Definition M (A : Type) : Type := World → outcome A * World.

Definition ret {A} (a : A) : M A := fun w => (Ok a, w).
Definition bind {A B} (m : M A) (k : A → M B) : M B :=
  fun w =>
    match m w with
    | (Ok a, w') => k a w'
    | (Raise e, w') => (Raise e, w')
    | (OutOfFuel, w') => (OutOfFuel, w')
    end.
Definition raise {A} (e : exn) : M A := fun w => (Raise e, w).

#[global] Instance M_ret : MRet M := @ret.
#[global] Instance M_bind : MBind M := fun A B k m => bind m k.

(** [try: body / except Exception: handler] *)
Definition try_except {A} (body : M A) (handler : exn → M A) : M A :=
  fun w =>
    match body w with
    | (Raise e, w') =>
        if is_Exception e then handler e w' else (Raise e, w')
    | r => r
    end.

Fixpoint for_each {A} (l : list A) (body : A → M unit) : M unit :=
  match l with
  | [] => ret tt
  | x :: l' => body x ;; for_each l' body
  end.

(** Arguments handed to code outside this module. *)
Inductive pyarg :=
| AStr (s : string)
| AInt (z : Z)
| ABool (b : bool)
| ANone.

Record CompletedProcess := {
  returncode : Z;
  proc_stdout : string;
}.

(** What the commands use but this module does not define: the dispatcher
    ([efrotools.pcommand]), the sibling modules, the external programs and
    the library functions whose result is only passed on. *)
Record Env := {
  PROJROOT : string;
  batch_error : string;
  Clr_BLD : string;
  Clr_RST : string;
  get_all_for_project : string → World → outcome (list FeatureSet);
  get_current_prefab_platform : World → outcome string;
  project_centric_path : string → string → outcome string;
  test_runs_disabled : World → bool;
  (** an effectful call into a sibling module *)
  collaborator : string → list pyarg → World → outcome unit * World;
  (** an external program: [None] when it cannot be started, else its exit
      status, its output and the file system it leaves *)
  run_tool : list string → option string → World → option (Z * string * Fs.node);
  run_shell : string → World → Z * Fs.node;
  json_loads : string → option (list string);
  bytes_decode : string → option string;
  py_int : string → option Z;
  textwrap_fill : string → nat → string;
  dir_mtime : Fs.path → Qc;
}.

(** ** The primitives *)

Section Commands.
Variable E : Env.
Import PyStr.

Definition get_argv : M (list string) := fun w => (Ok (argv w), w).

Definition lift {A} (f : World → outcome A) : M A := fun w => (f w, w).

Definition of_option {A} (o : option A) (e : exn) : M A :=
  match o with
  | Some a => ret a
  | None => raise e
  end.

(** Modelled from the spec: [efrotools.pcommand.disallow_in_batch], the
    guard of the dispatcher, is not part of this module.  It raises the
    clean misuse error when the dispatcher runs in batch mode and does
    nothing otherwise. *)
Definition disallow_in_batch : M unit :=
  fun w =>
    if batch w then (Raise (CleanError (batch_error E)), w) else (Ok tt, w).

(** [print(s)] and [print(s, end='')] *)
Definition print (s : string) : M unit :=
  fun w => (Ok tt, set_stdout (stdout w +:+ s +:+ nl) w).
Definition print_end (s : string) : M unit :=
  fun w => (Ok tt, set_stdout (stdout w +:+ s) w).

(** [logging.exception(msg)] inside a handler *)
Definition logging_exception (msg : string) (e : exn) : M unit :=
  fun w => (Ok tt, set_logged (logged w ++ [(msg, e)]) w).

Definition sys_exit {A} (code : Z) : M A := raise (SystemExit code).

Definition os_environ_get (k : string) : M (option string) :=
  fun w => (Ok (environ w !! k), w).

Definition os_getcwd : M string := fun w => (Ok (Fs.render (cwd w)), w).

(** [os.path.abspath(p)]: [normpath] of [p] joined to the working
    directory.  The normalisation is lexical, and it keeps the leading
    slashes of a path that starts with exactly two. *)
Definition os_path_abspath (p : string) : M string :=
  fun w =>
    (Ok ((if startswith p "//" && negb (startswith p "///") then "/" else "")
         +:+ Fs.render (default (cwd w) (Fs.resolve (cwd w) p))), w).

Definition os_chdir (p : string) : M unit :=
  fun w =>
    match Fs.stat (fs w) (cwd w) p with
    | Some (pos, Fs.Dir _) => (Ok tt, emit (EvChdir p) (set_cwd pos w))
    | _ => (Raise (OSError "chdir" p), w)
    end.

Definition os_path_exists (p : string) : M bool :=
  fun w => (Ok (Fs.exists_ (fs w) (cwd w) p), w).
Definition os_path_isdir (p : string) : M bool :=
  fun w => (Ok (Fs.isdir (fs w) (cwd w) p), w).
Definition os_path_islink (p : string) : M bool :=
  fun w => (Ok (Fs.islink (fs w) (cwd w) p), w).

Definition os_path_getmtime (p : string) : M Qc :=
  fun w =>
    match Fs.stat (fs w) (cwd w) p with
    | Some (_, Fs.File m _) => (Ok m, w)
    | Some (pos, _) => (Ok (dir_mtime E pos), w)
    | None => (Raise (OSError "stat" p), w)
    end.

(** [os.makedirs(p, exist_ok=True)], also [Path(p).mkdir(parents=True,
    exist_ok=True)] *)
Definition os_makedirs (p : string) : M unit :=
  fun w =>
    let w1 := emit (EvMakedirs p) w in
    match Fs.resolve (cwd w) p with
    | Some pos =>
        match Fs.mkdirs pos (fs w) with
        | Some f => (Ok tt, set_fs f w1)
        | None => (Raise (OSError "mkdir" p), w1)
        end
    | None => (Raise (OSError "mkdir" p), w1)
    end.

Definition os_unlink (p : string) : M unit :=
  fun w =>
    let w1 := emit (EvUnlink p) w in
    match Fs.resolve (cwd w) p with
    | Some pos =>
        match Fs.lookup pos (fs w) with
        | Some (Fs.File _ _) | Some (Fs.Symlink _) =>
            (Ok tt, set_fs (Fs.remove pos (fs w)) w1)
        | _ => (Raise (OSError "unlink" p), w1)
        end
    | None => (Raise (OSError "unlink" p), w1)
    end.

(** [with open(p, encoding='utf-8') as f: f.read()] *)
Definition read_text (p : string) : M string :=
  fun w =>
    match Fs.stat (fs w) (cwd w) p with
    | Some (_, Fs.File _ data) => (Ok data, w)
    | _ => (Raise (OSError "open" p), w)
    end.

(** [with open(p, 'w', encoding='utf-8') as f: f.write(data)] *)
Definition write_text (p data : string) : M unit :=
  fun w =>
    let w1 := emit (EvWrite p data) w in
    let put pos :=
      match pos, Fs.lookup (removelast pos) (fs w) with
      | _ :: _, Some (Fs.Dir _) =>
          (Ok tt,
           set_fs
             (Fs.modify (removelast pos)
                (Fs.on_entries
                   (Fs.set_entry (List.last pos "") (Fs.File (now w) data)))
                (fs w)) w1)
      | _, _ => (Raise (OSError "open" p), w1)
      end in
    match Fs.resolve (cwd w) p with
    | Some pos =>
        match Fs.stat_pos 40 (fs w) pos with
        | Some (pos', Fs.File _ _) => put pos'
        | Some _ => (Raise (OSError "open" p), w1)
        | None =>
            match Fs.lookup pos (fs w) with
            | None => put pos
            | Some _ => (Raise (OSError "open" p), w1)
            end
        end
    | None => (Raise (OSError "open" p), w1)
    end.

Definition read_json (p : string) : M (list string) :=
  data ← read_text p;
  of_option (json_loads E data) (ValueError "json.loads").

(** [os.walk(top)], top-down, errors of the scan ignored, links to
    directories listed but not entered.  The generator is lazy: each
    directory is scanned when the walk reaches it, after [body] has run
    for the directories before it. *)
Definition entry_is_dir (w : World) (pos : Fs.path) (e : string * Fs.node)
  : bool :=
  match snd e with
  | Fs.Dir _ => true
  | Fs.File _ _ => false
  | Fs.Symlink t =>
      match Fs.resolve pos t with
      | Some pos' =>
          match Fs.stat_pos 39 (fs w) pos' with
          | Some (_, Fs.Dir _) => true
          | _ => false
          end
      | None => false
      end
  end.

Definition scandir (w : World) (top : string)
  : option (Fs.path * list (string * Fs.node)) :=
  match Fs.stat (fs w) (cwd w) top with
  | Some (pos, Fs.Dir es) => Some (pos, es)
  | _ => None
  end.

Fixpoint os_walk (fuel : nat) (top : string)
    (body : string → list string → list string → M unit) : M unit :=
  match fuel with
  | O => fun w => (OutOfFuel, w)
  | S k =>
      fun w =>
        match scandir w top with
        | None => (Ok tt, w)
        | Some (pos, es) =>
            let dirs := map fst (List.filter (entry_is_dir w pos) es) in
            let nondirs :=
              map fst (List.filter (fun e => negb (entry_is_dir w pos e)) es) in
            (body top dirs nondirs ;;
             for_each dirs (fun d =>
               let new_path := os_path_join top d in
               link ← os_path_islink new_path;
               if link : bool then ret tt else os_walk k new_path body)) w
        end
  end.

(** [for root, dirs, fnames in os.walk(top): body] *)
Definition for_walk (top : string)
    (body : string → list string → list string → M unit) : M unit :=
  fun w => os_walk (S (Fs.height (fs w))) top body w.

(** External programs.  What [rm -rf] and the [find] invocation of the
    orphan cleaner do to the file system is modelled; every other
    program is left to [run_tool] and [run_shell].  So is [rm -rf] with an
    operand that starts with a dash, which [rm] reads as an option. *)
Definition last_component (p : string) : string :=
  List.last (List.filter (fun x => negb (String.eqb x "")) (split "/"%char p)) "".

Definition run_program (args : list string) (cwdarg : option string)
    (w : World) : option (Z * string * Fs.node) :=
  match args with
  | ["rm"; "-rf"; p] =>
      if startswith p "-" then run_tool E args cwdarg w
      else if String.eqb (last_component p) "."
              || String.eqb (last_component p) ".."
      then Some (1%Z, "", fs w)
      else
        match Fs.resolve (cwd w) p with
        | Some pos => let '(rc, f) := Fs.rm_rf pos (fs w) in Some (rc, "", f)
        | None => Some (0%Z, "", fs w)
        end
  | _ => run_tool E args cwdarg w
  end.

Definition find_assets_cmd : string :=
  "find build/assets -depth -empty -type d -delete".

Definition run_shell_command (cmd : string) (w : World) : Z * Fs.node :=
  if String.eqb cmd find_assets_cmd then
    match Fs.resolve (cwd w) "build/assets" with
    | Some pos => Fs.find_delete_empty pos (fs w)
    | None => (1%Z, fs w)
    end
  else run_shell E cmd w.

(** [subprocess.run(args, cwd=..., check=...)] *)
Definition subprocess_run (args : list string) (cwdarg : option string)
    (check : bool) : M CompletedProcess :=
  fun w =>
    let w1 := emit (EvRun args cwdarg) w in
    match run_program args cwdarg w with
    | None => (Raise (OSError "exec" (hd "" args)), w1)
    | Some (rc, out, f) =>
        if check && negb (rc =? 0)%Z
        then (Raise (CalledProcessError rc args), set_fs f w1)
        else (Ok {| returncode := rc; proc_stdout := out |}, set_fs f w1)
    end.

(** [subprocess.run(cmd, shell=True, check=...)] *)
Definition subprocess_run_shell (cmd : string) (check : bool)
  : M CompletedProcess :=
  fun w =>
    let w1 := emit (EvShell cmd) w in
    let '(rc, f) := run_shell_command cmd w in
    if check && negb (rc =? 0)%Z
    then (Raise (CalledProcessError rc [cmd]), set_fs f w1)
    else (Ok {| returncode := rc; proc_stdout := "" |}, set_fs f w1).

(** A call into a sibling module that may do anything to the process. *)
Definition call (callee : string) (args : list pyarg) : M unit :=
  fun w => collaborator E callee args (emit (EvCall callee) w).

(** ** The commands *)

(** [gen_monolithic_register_modules] *)
Definition gen_monolithic_register_modules : M unit :=
  disallow_in_batch ;;
  args ← get_argv;
  if negb (List.length args =? 3)%nat then raise (CleanError "Expected 1 arg.")
  else
    let outpath := nth 2 args "" in
    featuresets ← lift (get_all_for_project E (PROJROOT E));
    let out := Header.header_text featuresets in
    os_makedirs (os_path_dirname outpath) ;;
    write_text outpath out.

(** [py_examine] *)
Definition py_examine : M unit :=
  disallow_in_batch ;;
  args ← get_argv;
  if negb (List.length args =? 7)%nat
  then print "ERROR: expected 7 args" ;; sys_exit 255
  else
    let filename := Path_str (nth 2 args "") in
    line ← of_option (py_int E (nth 3 args "")) (ValueError "int");
    column ← of_option (py_int E (nth 4 args "")) (ValueError "int");
    let selection :=
      if String.eqb (nth 5 args "") "" then ANone else AStr (nth 5 args "") in
    let operation := nth 6 args "" in
    os_chdir (PROJROOT E) ;;
    scriptsdir ← os_path_abspath
      (os_path_join (os_path_dirname (nth 0 args ""))
         "../src/assets/ba_data/python");
    toolsdir ← os_path_abspath
      (os_path_join (os_path_dirname (nth 0 args "")) "../tools");
    (fun w =>
       if bool_decide (scriptsdir ∈ sys_path w) then (Ok tt, w)
       else (Ok tt, set_sys_path (sys_path w ++ [scriptsdir]) w)) ;;
    (fun w =>
       if bool_decide (toolsdir ∈ sys_path w) then (Ok tt, w)
       else (Ok tt, set_sys_path (sys_path w ++ [toolsdir]) w)) ;;
    call "efrotools.py_examine"
      [AStr (PROJROOT E); AStr filename; AInt line; AInt column;
       selection; AStr operation].

(** [clean_orphaned_assets] *)
Definition remove_if_orphaned (manifest : gset string) (root fname : string)
  : M unit :=
  let fpath := os_path_join root fname in
  let fpathrel := slice_from 13 fpath in
  if bool_decide (fpathrel ∉ manifest) then
    print ("Removing orphaned asset file: " +:+ fpath) ;;
    os_unlink fpath
  else ret tt.

Definition clean_orphaned_assets : M unit :=
  disallow_in_batch ;;
  os_chdir (PROJROOT E) ;;
  pub ← read_json "src/assets/.asset_manifest_public.json";
  priv ← read_json "src/assets/.asset_manifest_private.json";
  let manifest : gset string := list_to_set pub ∪ list_to_set priv in
  for_walk "build/assets"
    (fun root _dirs fnames =>
       for_each fnames (remove_if_orphaned manifest root)) ;;
  subprocess_run_shell find_assets_cmd true ;;
  ret tt.

(** [win_ci_install_prereqs] *)
Definition lib_dbg_win32 : string := "build/prefab/lib/windows/Debug_Win32".

Definition is_needed_meta_target (target : string) : bool :=
  (startswith target "src/ballistica/" && contains target "/mgen/")
  || (startswith target "src/assets/ba_data/python/"
      && contains target "/_mgen/").

Definition win_ci_install_prereqs : M unit :=
  disallow_in_batch ;;
  let needed_targets : gset string :=
    {[ lib_dbg_win32 +:+ "/BallisticaKitGenericPlus.lib";
       lib_dbg_win32 +:+ "/BallisticaKitGenericPlus.pdb";
       "ballisticakit-windows/Generic/BallisticaKit.ico" ]} in
  meta_public ← read_json "src/meta/.meta_manifest_public.json";
  meta_private ← read_json "src/meta/.meta_manifest_private.json";
  let needed_targets :=
    needed_targets
    ∪ list_to_set (List.filter is_needed_meta_target (meta_public ++ meta_private)) in
  is_batch ← (fun w => (Ok (batch w), w));
  for_each (elements needed_targets)
    (fun target =>
       call "efrotools.efrocache.get_target" [AStr target; ABool is_batch]).

(** [win_ci_binary_build] *)
Definition win_ci_binary_build : M unit :=
  disallow_in_batch ;;
  subprocess_run
    [ "C:" +:+ bsl +:+ "Program Files (x86)" +:+ bsl
      +:+ "Microsoft Visual Studio" +:+ bsl +:+ "2019" +:+ bsl
      +:+ "Enterprise" +:+ bsl +:+ "MSBuild" +:+ bsl +:+ "Current" +:+ bsl
      +:+ "Bin" +:+ bsl +:+ "MSBuild.exe";
      "ballisticakit-windows" +:+ bsl +:+ "Generic" +:+ bsl
      +:+ "BallisticaKitGeneric.vcxproj";
      "-target:Build";
      "-property:Configuration=Debug";
      "-property:Platform=Win32";
      "-property:VisualStudioVersion=16" ] None true ;;
  ret tt.

(** [update_cmake_prefab_lib] *)
Definition prefab_target (platform buildtype mode : string) : string :=
  let suffix := if String.eqb buildtype "server" then "_server" else "_gui" in
  "build/prefab/lib/" +:+ platform +:+ suffix +:+ "/" +:+ mode
  +:+ "/libballisticaplus.a".

(** The part after the build of the target: decide, then copy. *)
Definition sync_prefab_lib (target builddir : string) : M unit :=
  let libdir := os_path_join builddir "prefablib" in
  let libpath := os_path_join libdir "libballisticaplus.a" in
  time1 ← os_path_getmtime target;
  dst_exists ← os_path_exists libpath;
  update ←
    (if dst_exists : bool then
       time2 ← os_path_getmtime libpath;
       ret (negb (bool_decide (time1 ≤ time2)%Qc))
     else ret true);
  if update : bool then
    dir_exists ← os_path_exists libdir;
    (if dir_exists : bool then ret tt else os_makedirs libdir) ;;
    subprocess_run ["cp"; target; libdir] None true ;;
    ret tt
  else ret tt.

Definition update_cmake_prefab_lib : M unit :=
  disallow_in_batch ;;
  args ← get_argv;
  if negb (List.length args =? 5)%nat then
    raise (CleanError
             "Expected 3 args (standard/server, debug/release, build-dir)")
  else
    let buildtype := nth 2 args "" in
    let mode := nth 3 args "" in
    let builddir := nth 4 args "" in
    if negb (bool_decide (buildtype ∈ ["standard"; "server"])) then
      raise (CleanError ("Invalid buildtype: " +:+ buildtype))
    else if negb (bool_decide (mode ∈ ["debug"; "release"])) then
      raise (CleanError ("Invalid mode: " +:+ mode))
    else
      platform ← lift (get_current_prefab_platform E);
      let target := prefab_target platform buildtype mode in
      subprocess_run ["make"; target] None true ;;
      sync_prefab_lib target builddir.

(** [android_archive_unstripped_libs] *)
Definition archive_abi (src dst : string) (abi : string * string) : M unit :=
  let '(abi, abishort) := abi in
  let libname := "libmain" in
  let libext := ".so" in
  let srcpath :=
    Path_str (os_path_join (os_path_join src abi) (libname +:+ libext)) in
  let dstname := libname +:+ "_" +:+ abishort +:+ libext in
  let dstpath := Path_str (os_path_join dst dstname) in
  present ← os_path_exists srcpath;
  if present : bool then
    print ("Archiving unstripped library: " +:+ Clr_BLD E +:+ dstname
           +:+ Clr_RST E) ;;
    subprocess_run ["cp"; srcpath; dstpath] None true ;;
    subprocess_run ["tar"; "-zcf"; dstname +:+ ".tgz"; dstname] (Some dst) true ;;
    subprocess_run ["rm"; dstpath] None true ;;
    ret tt
  else ret tt.

Definition android_archive_unstripped_libs : M unit :=
  disallow_in_batch ;;
  args ← get_argv;
  if negb (List.length args =? 4)%nat then
    raise (CleanError "Expected 2 args; src-dir and dst-dir")
  else
    let src := Path_str (nth 2 args "") in
    let dst := Path_str (nth 3 args "") in
    dst_exists ← os_path_exists dst;
    (if dst_exists : bool
     then subprocess_run ["rm"; "-rf"; dst] None true ;; ret tt
     else ret tt) ;;
    os_makedirs dst ;;
    src_is_dir ← os_path_isdir src;
    if negb src_is_dir then
      raise (CleanError ("Source dir not found: '" +:+ src +:+ "'"))
    else
      for_each
        [ ("armeabi-v7a", "arm"); ("arm64-v8a", "arm64"); ("x86", "x86");
          ("x86_64", "x86-64") ]
        (archive_abi src dst).

(** [spinoff_test] *)
Definition spinoff_test : M unit :=
  args ← get_argv;
  call "batools.spinoff.spinoff_test" (map AStr (drop 2 args)).

(** [spinoff_check_submodule_parent] *)
Definition spinoff_check_submodule_parent : M unit :=
  disallow_in_batch ;;
  present ← os_path_exists "tools/spinoff";
  if negb present then
    raise (CleanError "This does not appear to be a spinoff-enabled project.")
  else
    link ← os_path_islink "tools/spinoff";
    if negb link then
      raise (CleanError "This project is a spinoff parent; we require a dst.")
    else
      sub ← os_path_isdir "submodules/ballistica";
      if negb sub then
        raise (CleanError
                 ("This project is not using a submodule for its parent."
                  +:+ nl
                  +:+ "To set one up, run `tools/spinoff add-submodule-parent`"))
      else ret tt.

(** [gen_python_init_module] *)
Definition gen_python_init_module : M unit :=
  disallow_in_batch ;;
  args ← get_argv;
  if negb (List.length args =? 3)%nat then raise (CleanError "Expected an outfile arg.")
  else
    let outfilename := nth 2 args "" in
    os_makedirs (os_path_dirname outfilename) ;;
    prettypath ← lift (fun _ => project_centric_path E (PROJROOT E) outfilename);
    print ("Meta-building " +:+ Clr_BLD E +:+ prettypath +:+ Clr_RST E) ;;
    write_text outfilename
      ("# Released under the MIT License. See LICENSE for details." +:+ nl
       +:+ "#" +:+ nl).

(** [tests_warm_start] *)
Definition tests_warm_start : M unit :=
  disallow_in_batch ;;
  disabled ← (fun w => (Ok (test_runs_disabled E w), w));
  if negb disabled then
    call "batools.apprun.acquire_binary_for_python_command"
      [AStr "running tests"]
  else ret tt.

(** [wsl_build_check_win_drive] *)
Definition wsl_prefix : string := bsl +:+ bsl +:+ "wsl$".

Definition _wrap (txt : string) : string := textwrap_fill E txt 76.

Definition linux_filesystem_message : string :=
  join (nl +:+ nl)
    [ _wrap ("ERROR: This project appears to live"
             +:+ " on the Linux filesystem.");
      _wrap ("Visual Studio compiles will error here for reasons related"
             +:+ " to Linux filesystem case-sensitivity, and thus are"
             +:+ " disallowed."
             +:+ " Clone the repo to a location that maps to a native"
             +:+ " Windows drive such as '/mnt/c/ballistica'"
             +:+ " and try again.");
      _wrap ("Note that WSL2 filesystem performance"
             +:+ " is poor when accessing"
             +:+ " native Windows drives, so if Visual Studio builds are not"
             +:+ " needed it may be best to keep things"
             +:+ " on the Linux filesystem."
             +:+ " This behavior may differ under WSL1 (untested).");
      _wrap ("Set env-var WSL_BUILD_CHECK_WIN_DRIVE_IGNORE=1 to skip"
             +:+ " this check.") ].

Definition wsl_build_check_win_drive : M unit :=
  disallow_in_batch ;;
  which ← subprocess_run ["which"; "wslpath"] None false;
  if negb (returncode which =? 0)%Z then
    raise (CleanError
             "wslpath not found; you must run this from a WSL environment")
  else
    ignore ← os_environ_get "WSL_BUILD_CHECK_WIN_DRIVE_IGNORE";
    if bool_decide (ignore = Some "1") then ret tt
    else
      here ← os_getcwd;
      res ← subprocess_run ["wslpath"; "-w"; "-a"; here] None true;
      decoded ← of_option (bytes_decode E (proc_stdout res))
                  (ValueError "decode");
      let path := strip decoded in
      if negb (startswith path wsl_prefix) then ret tt
      else raise (CleanError linux_filesystem_message).

(** [wsl_path_to_win] *)
Definition sentinel : string := "wsl_to_escaped_win_path_error_occurred".

(** The loop over [sys.argv[2:]]. *)
Fixpoint wsl_parse_args (args : list string) (create escape : bool)
    (wsl_path : option string) : M (bool * bool * option string) :=
  match args with
  | [] => ret (create, escape, wsl_path)
  | arg :: rest =>
      if String.eqb arg "--create" then wsl_parse_args rest true escape wsl_path
      else if String.eqb arg "--escape" then
        wsl_parse_args rest create true wsl_path
      else
        match wsl_path with
        | Some _ => raise (CleanError "More than one path provided.")
        | None => wsl_parse_args rest create escape (Some arg)
        end
  end.

(** The body of the [try] statement; it yields what the code after the
    handler uses: [results], [wsl_path] and [escape]. *)
Definition wsl_path_to_win_guarded : M (CompletedProcess * string * bool) :=
  args ← get_argv;
  if (List.length args <? 3)%nat then raise (CleanError "Expected at least 1 path arg.")
  else
    '(create, escape, wsl_path) ← wsl_parse_args (drop 2 args) false false None;
    match wsl_path with
    | None => raise (CleanError "No path provided.")
    | Some wsl_path =>
        (if create : bool then os_makedirs wsl_path else ret tt) ;;
        present ← os_path_exists wsl_path;
        if negb present then
          raise (CleanError ("Path '" +:+ wsl_path +:+ "' does not exist."))
        else
          results ← subprocess_run ["wslpath"; "-w"; "-a"; wsl_path] None true;
          ret (results, wsl_path, escape)
    end.

Definition wsl_path_to_win : M unit :=
  disallow_in_batch ;;
  guarded ←
    try_except (r ← wsl_path_to_win_guarded; ret (Some r))
      (fun e =>
         logging_exception "wsl_to_escaped_win_path failed." e ;;
         print_end sentinel ;;
         ret None);
  match guarded with
  | None => ret tt
  | Some (results, wsl_path, escape) =>
      decoded ← of_option (bytes_decode E (proc_stdout results))
                  (ValueError "decode");
      let out := strip decoded in
      let out :=
        if endswith wsl_path "/" && negb (endswith out bsl)
        then out +:+ bsl else out in
      let out := if escape : bool then replace out bsl (bsl +:+ bsl) else out in
      print_end out
  end.

End Commands.

(** ** Notions used by the statements *)

(** The commands that call the batch guard before anything else: all of
    them but [spinoff_test]. *)
Definition guarded_commands (E : Env) : list (M unit) :=
  [ gen_monolithic_register_modules E; py_examine E; clean_orphaned_assets E;
    win_ci_install_prereqs E; win_ci_binary_build E; update_cmake_prefab_lib E;
    android_archive_unstripped_libs E; spinoff_check_submodule_parent E;
    gen_python_init_module E; tests_warm_start E; wsl_build_check_win_drive E;
    wsl_path_to_win E ].

(** The arguments of [wsl_path_to_win] that are not flags. *)
Definition is_flag (a : string) : bool :=
  String.eqb a "--create" || String.eqb a "--escape".
Definition path_args (args : list string) : list string :=
  List.filter (fun a => negb (is_flag a)) args.

(** The state the handler of [wsl_path_to_win] leaves: the exception
    logged, the sentinel printed. *)
Definition sentinel_world (e : exn) (w : World) : World :=
  set_stdout (stdout w +:+ sentinel)
    (set_logged (logged w ++ [("wsl_to_escaped_win_path failed.", e)]) w).


(** The process started with other command-line arguments. *)
Definition set_argv (a : list string) (w : World) : World :=
  {| argv := a; batch := batch w; environ := environ w; cwd := cwd w;
     fs := fs w; now := now w; sys_path := sys_path w; stdout := stdout w;
     logged := logged w; trace := trace w |}.

(** A computation that does not read [sys.argv]: with other arguments it
    ends the same way, in the same state. *)
Definition argv_blind {A} (m : M A) : Prop :=
  ∀ a w, m (set_argv a w) = (fst (m w), set_argv a (snd (m w))).

(** The code outside this module that the argument-less commands call
    does not read [sys.argv]. *)
Definition argv_blind_env (E : Env) : Prop :=
  (∀ callee args, argv_blind (collaborator E callee args))
  ∧ (∀ args c a w, run_tool E args c (set_argv a w) = run_tool E args c w)
  ∧ (∀ cmd a w, run_shell E cmd (set_argv a w) = run_shell E cmd w)
  ∧ (∀ a w, test_runs_disabled E (set_argv a w) = test_runs_disabled E w).

(** The commands that take no arguments. *)
Definition argless_commands (E : Env) : list (M unit) :=
  [ clean_orphaned_assets E; win_ci_install_prereqs E; win_ci_binary_build E;
    spinoff_check_submodule_parent E; tests_warm_start E;
    wsl_build_check_win_drive E ].

(** A path without a [..] component: it names the same place to the
    kernel, which looks [..] up in the directory reached so far, as to the
    component-by-component reading of [Fs.resolve]. *)
Definition no_dotdot (p : string) : bool :=
  forallb (fun c => negb (String.eqb c "..")) (PyStr.split "/"%char p).


(** What [os.path.getmtime] reports for a node. *)
Definition node_mtime (E : Env) (pos : Fs.path) (n : Fs.node) : Qc :=
  match n with
  | Fs.File m _ => m
  | _ => dir_mtime E pos
  end.

(** Names a directory entry can have: not empty, not [.] or [..], no
    slash. *)
Fixpoint has_char (c : ascii) (s : string) : bool :=
  match s with
  | EmptyString => false
  | String x s' => Ascii.eqb x c || has_char c s'
  end.

Definition valid_name (d : string) : bool :=
  negb (String.eqb d "") && negb (String.eqb d ".") && negb (String.eqb d "..")
  && negb (has_char "/"%char d).

(** A tree of directories and regular files whose directories hold
    distinct, valid names. *)
Fixpoint wf_tree (n : Fs.node) : bool :=
  match n with
  | Fs.File _ _ => true
  | Fs.Symlink _ => false
  | Fs.Dir es =>
      bool_decide (NoDup (map fst es))
      && (fix all (l : list (string * Fs.node)) : bool :=
            match l with
            | [] => true
            | (k, v) :: l' => valid_name k && wf_tree v && all l'
            end) es
  end.

(** The path [os.walk] started at [top] hands to the loop body for the file
    at [rel]: [os.path.join(root, fname)]. *)
Definition walk_path (top : string) (rel : Fs.path) : string :=
  fold_left PyStr.os_path_join rel top.

(** The test of [clean_orphaned_assets] on a walk path. *)
Definition orphaned (manifest : gset string) (fpath : string) : bool :=
  bool_decide (PyStr.slice_from 13 fpath ∉ manifest).

(** What the walk of [clean_orphaned_assets] makes of a tree: the function
    the stateful walk is proved to compute. *)
Fixpoint clean_tree (manifest : gset string) (top : string) (n : Fs.node)
  : Fs.node :=
  match n with
  | Fs.Dir es =>
      Fs.Dir
        ((fix go (l : list (string * Fs.node)) : list (string * Fs.node) :=
            match l with
            | [] => []
            | (k, v) :: l' =>
                match v with
                | Fs.Dir _ =>
                    (k, clean_tree manifest (PyStr.os_path_join top k) v) :: go l'
                | _ =>
                    if orphaned manifest (PyStr.os_path_join top k) then go l'
                    else (k, v) :: go l'
                end
            end) es)
  | _ => n
  end.

Fixpoint clean_entries (manifest : gset string) (top : string)
    (l : list (string * Fs.node)) : list (string * Fs.node) :=
  match l with
  | [] => []
  | (k, v) :: l' =>
      match v with
      | Fs.Dir _ =>
          (k, clean_tree manifest (PyStr.os_path_join top k) v)
          :: clean_entries manifest top l'
      | _ =>
          if orphaned manifest (PyStr.os_path_join top k)
          then clean_entries manifest top l'
          else (k, v) :: clean_entries manifest top l'
      end
  end.

(** The paths the walk unlinks, in the order of the walk: the files of a
    directory first, then its subdirectories. *)
Definition orphans_here (manifest : gset string) (top : string)
    (l : list (string * Fs.node)) : list string :=
  List.filter (orphaned manifest)
    (map (fun e => PyStr.os_path_join top (fst e))
       (List.filter (fun e => negb (Fs.is_dir_node (snd e))) l)).

Fixpoint orphans (manifest : gset string) (top : string) (n : Fs.node)
  : list string :=
  match n with
  | Fs.Dir es =>
      orphans_here manifest top es
      ++ (fix go (l : list (string * Fs.node)) : list string :=
            match l with
            | [] => []
            | (k, v) :: l' =>
                match v with
                | Fs.Dir _ => orphans manifest (PyStr.os_path_join top k) v ++ go l'
                | _ => go l'
                end
            end) es
  | _ => []
  end.

Definition orphans_below (manifest : gset string) (top : string)
    (l : list (string * Fs.node)) : list string :=
  flat_map (fun e => orphans manifest (PyStr.os_path_join top (fst e)) (snd e))
    (List.filter (fun e => Fs.is_dir_node (snd e)) l).

(** A tree without orphaned files. *)
Fixpoint tidy (manifest : gset string) (top : string) (n : Fs.node) : bool :=
  match n with
  | Fs.Dir es =>
      (fix all (l : list (string * Fs.node)) : bool :=
         match l with
         | [] => true
         | (k, v) :: l' =>
             match v with
             | Fs.Dir _ => tidy manifest (PyStr.os_path_join top k) v
             | _ => negb (orphaned manifest (PyStr.os_path_join top k))
             end && all l'
         end) es
  | _ => true
  end.

Definition tidy_entry (manifest : gset string) (top : string)
    (e : string * Fs.node) : bool :=
  match snd e with
  | Fs.Dir _ => tidy manifest (PyStr.os_path_join top (fst e)) (snd e)
  | _ => negb (orphaned manifest (PyStr.os_path_join top (fst e)))
  end.

(** Two states of one process: everything but the file system, the output
    and the trace agrees. *)
Definition same_process (w w' : World) : Prop :=
  argv w' = argv w ∧ batch w' = batch w ∧ environ w' = environ w
  ∧ cwd w' = cwd w ∧ now w' = now w ∧ sys_path w' = sys_path w
  ∧ logged w' = logged w.

(** The loop body of [clean_orphaned_assets], and the pieces of one step of
    the walk. *)
Definition walk_body (manifest : gset string) (root : string)
    (_dirs fnames : list string) : M unit :=
  for_each fnames (remove_if_orphaned manifest root).

Definition stepA (manifest : gset string) (top : string)
    (acc : list (string * Fs.node)) (f : string) : list (string * Fs.node) :=
  if orphaned manifest (PyStr.os_path_join top f) then Fs.remove_entry f acc
  else acc.

Definition stepB (manifest : gset string) (top : string)
    (acc : list (string * Fs.node)) (d : string) : list (string * Fs.node) :=
  Fs.alter_entry d (clean_tree manifest (PyStr.os_path_join top d)) acc.

Definition unlinked (top f : string) (cur : list (string * Fs.node))
    (pos : Fs.path) (w : World) : World :=
  set_fs (Fs.modify pos (fun _ => Fs.Dir (Fs.remove_entry f cur)) (fs w))
    (emit (EvUnlink (PyStr.os_path_join top f))
       (set_stdout
          (stdout w
           +:+ ("Removing orphaned asset file: " +:+ PyStr.os_path_join top f)
           +:+ PyStr.nl) w)).

Definition is_dir_entry (e : string * Fs.node) : bool :=
  Fs.is_dir_node (snd e).
Definition is_file_entry (e : string * Fs.node) : bool :=
  negb (Fs.is_dir_node (snd e)).
Definition kept (manifest : gset string) (top : string)
    (e : string * Fs.node) : bool :=
  Fs.is_dir_node (snd e)
  || negb (orphaned manifest (PyStr.os_path_join top (fst e))).

Definition descend (manifest : gset string) (k : nat) (top d : string)
  : M unit :=
  link ← os_path_islink (PyStr.os_path_join top d);
  if link : bool then ret tt
  else os_walk k (PyStr.os_path_join top d) (walk_body manifest).

(** With [k] levels of recursion the walk of a well-formed directory of
    height at most [k] ends, and leaves [clean_tree] of it. *)
Definition walk_spec (manifest : gset string) (k : nat) : Prop :=
  ∀ es top pos w,
    wf_tree (Fs.Dir es) = true → (Fs.height (Fs.Dir es) ≤ k)%nat →
    Fs.resolve (cwd w) top = Some pos →
    Fs.lookup pos (fs w) = Some (Fs.Dir es) →
    ∃ w',
      os_walk k top (walk_body manifest) w = (Ok tt, w')
      ∧ fs w' = Fs.modify pos (fun _ => clean_tree manifest top (Fs.Dir es)) (fs w)
      ∧ trace w' = trace w ++ map EvUnlink (orphans manifest top (Fs.Dir es))
      ∧ same_process w w'.

(** Where the orphan cleaner looks, below the project root. *)
Definition public_manifest : Fs.path :=
  ["src"; "assets"; ".asset_manifest_public.json"].
Definition private_manifest : Fs.path :=
  ["src"; "assets"; ".asset_manifest_private.json"].
Definition assets_dir : Fs.path := ["build"; "assets"].

(** The project root is an absolute path to a directory holding the two
    manifests, which parse to [pub] and [priv]. *)
(** The entry at [pos] is a symbolic link. *)
Definition symlink_at (pos : Fs.path) (f : Fs.node) : bool :=
  match Fs.lookup pos f with
  | Some (Fs.Symlink _) => true
  | _ => false
  end.

Definition manifests_ready (E : Env) (w : World) (root : Fs.path)
    (pub priv : list string) : Prop :=
  batch w = false
  ∧ PyStr.startswith (PROJROOT E) "/" = true
  ∧ Fs.resolve [] (PROJROOT E) = Some root
  ∧ (∃ m d, Fs.lookup (root ++ public_manifest) (fs w) = Some (Fs.File m d)
            ∧ json_loads E d = Some pub)
  ∧ (∃ m d, Fs.lookup (root ++ private_manifest) (fs w) = Some (Fs.File m d)
            ∧ json_loads E d = Some priv).

(** ... and [build/assets] is a well-formed directory with entries [es]. *)
Definition orphan_setup (E : Env) (w : World) (root : Fs.path)
    (pub priv : list string) (es : list (string * Fs.node)) : Prop :=
  manifests_ready E w root pub priv
  ∧ Fs.lookup (root ++ assets_dir) (fs w) = Some (Fs.Dir es)
  ∧ wf_tree (Fs.Dir es) = true.

(** The file system one run of the cleaner leaves. *)
Definition swept_fs (manifest : gset string) (apos : Fs.path)
    (es : list (string * Fs.node)) (root : Fs.node) : Fs.node :=
  let cleaned := clean_tree manifest "build/assets" (Fs.Dir es) in
  match Fs.prune cleaned with
  | Some n' => Fs.modify apos (fun _ => n') root
  | None => Fs.remove apos (Fs.modify apos (fun _ => cleaned) root)
  end.

(** The state after [os.chdir(PROJROOT)]. *)
Definition entered (E : Env) (root : Fs.path) (w : World) : World :=
  emit (EvChdir (PROJROOT E)) (set_cwd root w).

(** Feature sets for the example of the header: the native module name is
    the given name. *)
Definition featureset_named (n : string) : FeatureSet :=
  {| fs_name := n; has_python_binary_module := true;
     name_python_binary_module := n |}.

Definition example_featuresets : list FeatureSet :=
  [featureset_named "zeta"; featureset_named "alpha"; featureset_named "_baplus"].

(** The name of the init function of the module [n], written out. *)
Definition init_function (n : string) : string :=
  if bool_decide (n = "_baplus") then "DoPyInit__baplus" else "PyInit_" +:+ n.

(** The header for the modules [zeta], [alpha] and [_baplus], and the one
    for [zeta] and [alpha], as the Python code writes them. *)
Definition header_top : list string :=
  [ "// Released under the MIT License. See LICENSE for details.";
    "";
    "#ifndef BALLISTICA_CORE_MGEN_PYTHON_MODULES_MONOLITHIC_H_";
    "#define BALLISTICA_CORE_MGEN_PYTHON_MODULES_MONOLITHIC_H_";
    "";
    "// THIS CODE IS AUTOGENERATED BY META BUILD; DO NOT EDIT BY HAND.";
    "";
    "#include " +:+ PyStr.dq +:+ "ballistica/shared/ballistica.h" +:+ PyStr.dq;
    "#include " +:+ PyStr.dq +:+ "ballistica/shared/python/python_sys.h"
      +:+ PyStr.dq;
    "";
    "extern " +:+ PyStr.dq +:+ "C" +:+ PyStr.dq +:+ " {" ].

Definition header_middle : list string :=
  [ "}";
    "";
    "namespace ballistica {";
    "";
    "/// Register init calls for all of our built-in Python modules.";
    "/// Should only be used in monolithic builds. In modular builds";
    "/// binary modules get located as .so files on disk as per regular";
    "/// Python behavior.";
    "void MonolithicRegisterPythonModules() {";
    "  if (g_buildconfig.monolithic_build()) {" ].

Definition header_else : list string :=
  [ "  } else {";
    "    FatalError(";
    "        " +:+ PyStr.dq
      +:+ "MonolithicRegisterPythonModules should not be called" +:+ PyStr.dq;
    "        " +:+ PyStr.dq +:+ " in modular builds." +:+ PyStr.dq +:+ ");";
    "  }";
    "}" ].

Definition header_forwarding : list string :=
  [ "";
    "// Slight hack: because we are currently building baplus as a static module";
    "// and linking it in, symbols exported there (namely PyInit__baplus) do not";
    "// seem to be available through us when we are compiled as a dynamic";
    "// library. This leads to Python being unable to load baplus. While I'm sure";
    "// there is some way to get those symbols exported, I'm worried it might be";
    "// a messy platform-specific affair. So instead we're just defining that";
    "// function here when baplus is present and forwarding it through to the";
    "// static library version.";
    "extern " +:+ PyStr.dq +:+ "C" +:+ PyStr.dq
      +:+ " auto PyInit__baplus() -> PyObject* {";
    "  return DoPyInit__baplus();";
    "}" ].

Definition header_bottom : list string :=
  [ "";
    "}  // namespace ballistica";
    "";
    "#endif  // BALLISTICA_CORE_MGEN_PYTHON_MODULES_MONOLITHIC_H_" ].

Definition header_with_baplus : string :=
  PyStr.join PyStr.nl
    (header_top
     ++ [ "auto DoPyInit__baplus() -> PyObject*;";
          "auto PyInit_alpha() -> PyObject*;";
          "auto PyInit_zeta() -> PyObject*;" ]
     ++ header_middle
     ++ [ "    PyImport_AppendInittab(" +:+ PyStr.dq +:+ "_baplus" +:+ PyStr.dq
            +:+ ", &DoPyInit__baplus);";
          "    PyImport_AppendInittab(" +:+ PyStr.dq +:+ "alpha" +:+ PyStr.dq
            +:+ ", &PyInit_alpha);";
          "    PyImport_AppendInittab(" +:+ PyStr.dq +:+ "zeta" +:+ PyStr.dq
            +:+ ", &PyInit_zeta);" ]
     ++ header_else ++ header_forwarding ++ header_bottom)
  +:+ PyStr.nl.

Definition header_without_baplus : string :=
  PyStr.join PyStr.nl
    (header_top
     ++ [ "auto PyInit_alpha() -> PyObject*;";
          "auto PyInit_zeta() -> PyObject*;" ]
     ++ header_middle
     ++ [ "    PyImport_AppendInittab(" +:+ PyStr.dq +:+ "alpha" +:+ PyStr.dq
            +:+ ", &PyInit_alpha);";
          "    PyImport_AppendInittab(" +:+ PyStr.dq +:+ "zeta" +:+ PyStr.dq
            +:+ ", &PyInit_zeta);" ]
     ++ header_else ++ header_bottom)
  +:+ PyStr.nl.

(** The two lines the header has for the module [n]. *)
Definition extern_line (n : string) : string :=
  "auto " +:+ init_function n +:+ "() -> PyObject*;".

Definition register_line (n : string) : string :=
  "PyImport_AppendInittab(" +:+ PyStr.dq +:+ n +:+ PyStr.dq +:+ ", &"
  +:+ init_function n +:+ ");".

(** The text of the header between the generated parts: before the
    declarations, before the registrations, before the forwarding block,
    and after it. *)
Definition nlc : ascii := ascii_of_nat 10.
Definition tpl_top : string := PyStr.join PyStr.nl header_top +:+ PyStr.nl.
Definition tpl_middle : string :=
  PyStr.nl +:+ PyStr.join PyStr.nl header_middle +:+ PyStr.nl.
Definition tpl_else : string :=
  PyStr.nl +:+ PyStr.join PyStr.nl header_else +:+ PyStr.nl.
Definition tpl_bottom : string :=
  PyStr.join PyStr.nl header_bottom +:+ PyStr.nl.

(** Every character of [s] satisfies [p]. *)
Fixpoint all_chars (p : ascii → bool) (s : string) : bool :=
  match s with
  | EmptyString => true
  | String c s' => p c && all_chars p s'
  end.

(** A character that is neither the dollar sign of the placeholders nor a
    byte that starts a line boundary of [str.splitlines]; a name made of
    such characters (any ASCII identifier is one). *)
Definition header_safe_char (c : ascii) : bool :=
  negb (existsb (Ascii.eqb c)
          ("$"%char :: map ascii_of_nat [10; 11; 12; 13; 28; 29; 30; 194; 226])).

Definition header_safe (s : string) : bool := all_chars header_safe_char s.

(** ** Notions used by the further properties *)

(** The line [clean_orphaned_assets] prints before it unlinks [p], and the
    lines that go with the unlink events of a trace. *)
Definition notice (p : string) : string :=
  "Removing orphaned asset file: " +:+ p +:+ PyStr.nl.

Fixpoint notices (evs : list event) : string :=
  match evs with
  | [] => ""
  | EvUnlink p :: evs' => notice p +:+ notices evs'
  | _ :: evs' => notices evs'
  end.

(** A computation that prints nothing but the notices of its unlink
    events, and unlinks only paths that satisfy [ok]. *)
Definition announced (ok : string → Prop) {A} (m : M A) : Prop :=
  ∀ w, ∃ evs,
    trace (snd (m w)) = trace w ++ evs
    ∧ stdout (snd (m w)) = stdout w +:+ notices evs
    ∧ ∀ p, EvUnlink p ∈ evs → ok p.

(** Both asset manifests are read and parsed in the state [w0]. *)
Definition asset_manifests_read (E : Env) (w0 : World)
    (pub priv : list string) : Prop :=
  read_json E "src/assets/.asset_manifest_public.json" w0 = (Ok pub, w0)
  ∧ read_json E "src/assets/.asset_manifest_private.json" w0 = (Ok priv, w0).

(** What [write_text] does to the tree: the node [v] is put under the name
    [k] of the directory at [par]. *)
Definition put_file (par : Fs.path) (k : string) (v : Fs.node)
    (root : Fs.node) : Fs.node :=
  Fs.modify par (Fs.on_entries (Fs.set_entry k v)) root.

(** [if d not in sys.path: sys.path.append(d)] *)
Definition sys_path_with (d : string) (l : list string) : list string :=
  if bool_decide (d ∈ l) then l else l ++ [d].

(** The flag is among the arguments. *)
Definition has_flag (flag : string) (args : list string) : bool :=
  existsb (String.eqb flag) args.

(** Every backslash twice: what [out.replace('\\', '\\\\')] gives. *)
Fixpoint double_backslashes (s : string) : string :=
  match s with
  | EmptyString => EmptyString
  | String c s' =>
      if Ascii.eqb c (ascii_of_nat 92)
      then String c (String c (double_backslashes s'))
      else String c (double_backslashes s')
  end.

(** The side effects [android_archive_unstripped_libs] can perform for one
    ABI, and all it can perform. *)
Definition archive_step_events (src dst : string) (abi : string * string)
  : list event :=
  let dstname := "libmain_" +:+ snd abi +:+ ".so" in
  let srcpath :=
    PyStr.Path_str
      (PyStr.os_path_join (PyStr.os_path_join src (fst abi)) "libmain.so") in
  let dstpath := PyStr.Path_str (PyStr.os_path_join dst dstname) in
  [ EvRun ["cp"; srcpath; dstpath] None;
    EvRun ["tar"; "-zcf"; dstname +:+ ".tgz"; dstname] (Some dst);
    EvRun ["rm"; dstpath] None ].

Definition archive_events (src dst : string) : list event :=
  [EvRun ["rm"; "-rf"; dst] None; EvMakedirs dst]
  ++ flat_map (archive_step_events src dst)
       [ ("armeabi-v7a", "arm"); ("arm64-v8a", "arm64"); ("x86", "x86");
         ("x86_64", "x86-64") ].

(** A computation whose side effects are all among [allowed]. *)
Definition traced (allowed : list event) {A} (m : M A) : Prop :=
  ∀ w, ∃ evs, trace (snd (m w)) = trace w ++ evs ∧ evs ⊆ allowed.

(** ** A concrete project, for the examples *)

Module Demo.
Import PyStr.

(** What the demo [wslpath] prints for a directory under the Linux file
    system. *)
Definition wsl_output : string :=
  bsl +:+ bsl +:+ "wsl$" +:+ bsl +:+ "Ubuntu" +:+ bsl +:+ "proj" +:+ nl.

(** [cp <file> <dir>]: the file is copied into the directory under its
    own name, with the time of the copy. *)
Definition cp (src dst : string) (w : World) : Z * string * Fs.node :=
  match Fs.stat (fs w) (cwd w) src, Fs.stat (fs w) (cwd w) dst with
  | Some (_, Fs.File _ data), Some (pos, Fs.Dir _) =>
      (0%Z, "",
       Fs.modify pos
         (Fs.on_entries
            (Fs.set_entry (List.last (split "/"%char src) "")
               (Fs.File (now w) data)))
         (fs w))
  | _, _ => (1%Z, "", fs w)
  end.

(** [which wslpath], [wslpath -w -a <path>] and [make <target>] succeed and
    change nothing, [cp] copies; no other program is installed. *)
Definition tools (args : list string) (cwdarg : option string) (w : World)
  : option (Z * string * Fs.node) :=
  match args with
  | [a; b; c] =>
      if String.eqb a "cp" then Some (cp b c w) else None
  | [a; b] =>
      if String.eqb a "which" && String.eqb b "wslpath"
      then Some (0%Z, "/usr/bin/wslpath" +:+ nl, fs w)
      else if String.eqb a "make" then Some (0%Z, "", fs w)
      else None
  | [a; b; c; _] =>
      if String.eqb a "wslpath" && String.eqb b "-w" && String.eqb c "-a"
      then Some (0%Z, wsl_output, fs w)
      else None
  | _ => None
  end.

(** One path per line stands for a JSON array of paths. *)
Definition lines (s : string) : option (list string) :=
  Some (List.filter (fun x => negb (String.eqb x "")) (split (ascii_of_nat 10) s)).

Definition env : Env := {|
  PROJROOT := "/proj";
  batch_error := "This pcommand does not support batch mode.";
  Clr_BLD := "";
  Clr_RST := "";
  get_all_for_project := fun _ _ => Ok example_featuresets;
  get_current_prefab_platform := fun _ => Ok "linux_x86_64";
  project_centric_path := fun _ p => Ok p;
  test_runs_disabled := fun _ => false;
  collaborator := fun _ _ w => (Ok tt, w);
  run_tool := tools;
  run_shell := fun _ w => (127%Z, fs w);
  json_loads := lines;
  bytes_decode := Some;
  py_int := fun _ => None;
  textwrap_fill := fun s _ => s;
  dir_mtime := fun _ => Q2Qc (QArith_base.inject_Z 0);
|}.

Definition file (mtime : Z) (data : string) : Fs.node :=
  Fs.File (Q2Qc (QArith_base.inject_Z mtime)) data.

Definition manifests : string * Fs.node :=
  ("src",
   Fs.Dir
     [("assets",
       Fs.Dir
         [(".asset_manifest_public.json", file 1 "a/x.png");
          (".asset_manifest_private.json", file 1 "")])]).

(** The tree of the second testable property: [a/x.png] is in the
    manifest, [b/y.png] is not. *)
Definition assets : list (string * Fs.node) :=
  [("a", Fs.Dir [("x.png", file 2 "x")]);
   ("b", Fs.Dir [("y.png", file 2 "y")])].

(** A tree in which nothing is in the manifest. *)
Definition stale_assets : list (string * Fs.node) :=
  [("b", Fs.Dir [("y.png", file 2 "y")])].

Definition prefab_lib : string * Fs.node :=
  ("prefab",
   Fs.Dir
     [("lib",
       Fs.Dir
         [("linux_x86_64_gui",
           Fs.Dir [("debug", Fs.Dir [("libballisticaplus.a", file 5 "lib")])])])]).

Definition project (built out : list (string * Fs.node)) : Fs.node :=
  Fs.Dir
    [("proj",
      Fs.Dir
        [manifests;
         ("build", Fs.Dir [("assets", Fs.Dir built); prefab_lib]);
         ("out", Fs.Dir out)])].

Definition old_archive : list (string * Fs.node) := [("old.tgz", file 1 "old")].

(** A build directory whose copy of the library is as old as ([5]) or
    older than ([4]) the one under [build/prefab]. *)
Definition copied_at (mtime : Z) : list (string * Fs.node) :=
  [("prefablib", Fs.Dir [("libballisticaplus.a", file mtime "lib")])].

Definition world (args : list string) (in_batch : bool) (root : Fs.node)
  : World := {|
  argv := args;
  batch := in_batch;
  environ := ∅;
  cwd := ["proj"];
  fs := root;
  now := Q2Qc (QArith_base.inject_Z 9);
  sys_path := [];
  stdout := "";
  logged := [];
  trace := [];
|}.

Definition cleaner_world : World :=
  world ["pcommand"; "clean_orphaned_assets"] false (project assets old_archive).
Definition stale_world : World :=
  world ["pcommand"; "clean_orphaned_assets"] false
    (project stale_assets old_archive).
Definition batch_world : World :=
  world ["pcommand"; "spinoff_test"; "--all"] true (project assets old_archive).
Definition no_args_world : World :=
  world ["pcommand"; "wsl_path_to_win"] false (project assets old_archive).
Definition missing_path_world : World :=
  world ["pcommand"; "wsl_path_to_win"; "--escape"; "nowhere/"] false
    (project assets old_archive).
Definition extra_arg_world : World :=
  world ["pcommand"; "clean_orphaned_assets"; "surplus"] false
    (project assets old_archive).
Definition sync_world (out : list (string * Fs.node)) : World :=
  world ["pcommand"; "update_cmake_prefab_lib"; "standard"; "debug"; "out"]
    false (project assets out).
Definition archive_world : World :=
  world ["pcommand"; "android_archive_unstripped_libs"; "nosrc"; "out"]
    false (project assets old_archive).
Definition check_world : World :=
  world ["pcommand"; "wsl_build_check_win_drive"] false
    (project assets old_archive).

(** A project that has not been built: there is no [build/assets]. *)
Definition unbuilt_project : Fs.node :=
  Fs.Dir
    [("proj",
      Fs.Dir
        [manifests;
         ("build", Fs.Dir [prefab_lib]);
         ("out", Fs.Dir old_archive)])].

Definition unbuilt_world : World :=
  world ["pcommand"; "clean_orphaned_assets"] false unbuilt_project.

(** The generators, with the path of the file to write. *)
Definition init_world (out : string) : World :=
  world ["pcommand"; "gen_python_init_module"; out] false
    (project assets old_archive).
Definition header_world (out : string) : World :=
  world ["pcommand"; "gen_monolithic_register_modules"; out] false
    (project assets old_archive).

(** Decimal numerals, for the line and the column of [py_examine]. *)
Definition digit (c : ascii) : option Z :=
  let n := nat_of_ascii c in
  if (48 <=? n)%nat && (n <=? 57)%nat then Some (Z.of_nat (n - 48)) else None.

Fixpoint decimal (acc : Z) (s : string) : option Z :=
  match s with
  | EmptyString => Some acc
  | String c s' =>
      match digit c with
      | Some d => decimal (10 * acc + d) s'
      | None => None
      end
  end.

Definition env_with (ints : string → option Z)
    (programs : list string → option string → World
                → option (Z * string * Fs.node)) : Env := {|
  PROJROOT := PROJROOT env;
  batch_error := batch_error env;
  Clr_BLD := Clr_BLD env;
  Clr_RST := Clr_RST env;
  get_all_for_project := get_all_for_project env;
  get_current_prefab_platform := get_current_prefab_platform env;
  project_centric_path := project_centric_path env;
  test_runs_disabled := test_runs_disabled env;
  collaborator := collaborator env;
  run_tool := programs;
  run_shell := run_shell env;
  json_loads := json_loads env;
  bytes_decode := bytes_decode env;
  py_int := ints;
  textwrap_fill := textwrap_fill env;
  dir_mtime := dir_mtime env;
|}.

(** [int] reads decimal numerals. *)
Definition env_ints : Env :=
  env_with (fun s => if String.eqb s "" then None else decimal 0 s) tools.

(** Outside of WSL: [which] finds nothing. *)
Definition env_no_wslpath : Env :=
  env_with (py_int env)
    (fun args cwdarg w =>
       match args with
       | [a; _] =>
           if String.eqb a "which" then Some (1%Z, "", fs w)
           else tools args cwdarg w
       | _ => tools args cwdarg w
       end).



Definition examine_world : World :=
  world ["tools/pcommand"; "py_examine"; "src/x.py"; "3"; "7"; ""; "hover"]
    false (project assets old_archive).
Definition create_world : World :=
  world ["pcommand"; "wsl_path_to_win"; "--create"; "out/new"] false
    (project assets old_archive).
Definition escape_world : World :=
  world ["pcommand"; "wsl_path_to_win"; "--escape"; "out/"] false
    (project assets old_archive).
Definition bad_build_world : World :=
  world ["pcommand"; "update_cmake_prefab_lib"; "fancy"; "debug"; "out"]
    false (project assets old_archive).

End Demo.

(** * Lemmas *)

Import PyStr.

(** ** The monad and the batch guard *)

Lemma bind_eq {A B} (m : M A) (k : A → M B) w :
  (m ≫= k) w =
  match m w with
  | (Ok a, w') => k a w'
  | (Raise e, w') => (Raise e, w')
  | (OutOfFuel, w') => (OutOfFuel, w')
  end.
Proof. reflexivity. Qed.

Lemma bind_ok {A B} (m : M A) (k : A → M B) w a w' :
  m w = (Ok a, w') → (m ≫= k) w = k a w'.
Proof. intros H. by rewrite bind_eq, H. Qed.

Lemma bind_raise {A B} (m : M A) (k : A → M B) w e w' :
  m w = (Raise e, w') → (m ≫= k) w = (Raise e, w').
Proof. intros H. by rewrite bind_eq, H. Qed.

Lemma guard_passes E w : batch w = false → disallow_in_batch E w = (Ok tt, w).
Proof. intros H. unfold disallow_in_batch. by rewrite H. Qed.

Lemma guard_raises E w :
  batch w = true → disallow_in_batch E w = (Raise (CleanError (batch_error E)), w).
Proof. intros H. unfold disallow_in_batch. by rewrite H. Qed.

Ltac step_guard H :=
  rewrite bind_eq; first [rewrite (guard_passes _ _ H) | rewrite (guard_raises _ _ H)].

Lemma subprocess_run_tool E args c chk w rc out f :
  run_program E args c w = Some (rc, out, f) →
  subprocess_run E args c chk w =
    if chk && negb (rc =? 0)%Z
    then (Raise (CalledProcessError rc args), set_fs f (emit (EvRun args c) w))
    else (Ok {| returncode := rc; proc_stdout := out |},
          set_fs f (emit (EvRun args c) w)).
Proof. intros H. unfold subprocess_run. by rewrite H. Qed.

(** ** Directory entries *)

Lemma assoc_alter_eq {A} k (f : A → A) l :
  Fs.assoc k (Fs.alter_entry k f l) = f <$> Fs.assoc k l.
Proof.
  induction l as [|[k' v] l IH]; simpl; [done|].
  destruct (String.eqb k k') eqn:Hk; simpl; rewrite Hk; done.
Qed.

Lemma assoc_alter_ne {A} k k' (f : A → A) l :
  k ≠ k' → Fs.assoc k' (Fs.alter_entry k f l) = Fs.assoc k' l.
Proof.
  intros Hne. induction l as [|[k0 v] l IH]; simpl; [done|].
  destruct (String.eqb k k0) eqn:Hk; simpl.
  - apply String.eqb_eq in Hk as <-.
    assert (String.eqb k' k = false) as -> by (apply String.eqb_neq; congruence).
    done.
  - destruct (String.eqb k' k0); done.
Qed.

Lemma assoc_remove_eq {A} k (l : list (string * A)) :
  Fs.assoc k (Fs.remove_entry k l) = None.
Proof.
  induction l as [|[k' v] l IH]; simpl; [done|].
  destruct (String.eqb k k') eqn:Hk; simpl; [done|]. by rewrite Hk.
Qed.

Lemma assoc_remove_ne {A} k k' (l : list (string * A)) :
  k ≠ k' → Fs.assoc k' (Fs.remove_entry k l) = Fs.assoc k' l.
Proof.
  intros Hne. induction l as [|[k0 v] l IH]; simpl; [done|].
  destruct (String.eqb k k0) eqn:Hk; simpl.
  - apply String.eqb_eq in Hk as <-.
    assert (String.eqb k' k = false) as -> by (apply String.eqb_neq; congruence).
    done.
  - by rewrite IH.
Qed.

Lemma assoc_app_None {A} k (l : list (string * A)) v :
  Fs.assoc k l = None → Fs.assoc k (l ++ [(k, v)]) = Some v.
Proof.
  induction l as [|[k0 v0] l IH]; simpl.
  - by rewrite String.eqb_refl.
  - destruct (String.eqb k k0); [done|]. exact IH.
Qed.

Lemma remove_single c n :
  Fs.remove [c] n = Fs.on_entries (Fs.remove_entry c) n.
Proof. reflexivity. Qed.

Lemma remove_cons c c' rest n :
  Fs.remove (c :: c' :: rest) n =
  match n with
  | Fs.Dir es => Fs.Dir (Fs.alter_entry c (Fs.remove (c' :: rest)) es)
  | _ => n
  end.
Proof. reflexivity. Qed.

Lemma lookup_remove pos root :
  pos ≠ [] → Fs.lookup pos (Fs.remove pos root) = None.
Proof.
  revert root. induction pos as [|c [|c' rest] IH]; intros root Hne; [done| |].
  - rewrite remove_single. destruct root; simpl; try done.
    by rewrite assoc_remove_eq.
  - rewrite remove_cons. destruct root as [| |es]; simpl; try done.
    rewrite assoc_alter_eq. destruct (Fs.assoc c es); simpl; [|done].
    by apply IH.
Qed.



Lemma stat_pos_dir fuel root pos es :
  Fs.lookup pos root = Some (Fs.Dir es) →
  Fs.stat_pos fuel root pos = Some (pos, Fs.Dir es).
Proof. intros H. destruct fuel; simpl; by rewrite H. Qed.

(** ** Programs, and computations that raise no clean error *)

Lemma subprocess_run_cases E args c chk w :
  (∃ r f, subprocess_run E args c chk w = (Ok r, set_fs f (emit (EvRun args c) w)))
  ∨ (∃ rc f, subprocess_run E args c chk w =
       (Raise (CalledProcessError rc args), set_fs f (emit (EvRun args c) w)))
  ∨ subprocess_run E args c chk w =
       (Raise (OSError "exec" (hd "" args)), emit (EvRun args c) w).
Proof. unfold subprocess_run. repeat case_match; eauto 6. Qed.






(** ** Strings and the paths of the prefab library *)

Lemma string_app_cons x (a b : string) : String x a +:+ b = String x (a +:+ b).
Proof. reflexivity. Qed.

Lemma rev_app_append a b acc :
  String.rev_app (a +:+ b) acc = String.rev_app b (String.rev_app a acc).
Proof.
  revert acc. induction a as [|c a IH]; intros acc; [done|].
  rewrite string_app_cons. simpl. apply IH.
Qed.

Lemma string_app_assoc (a b c : string) : (a +:+ b) +:+ c = a +:+ (b +:+ c).
Proof.
  induction a as [|x a IH]; [done|]. rewrite !string_app_cons. by rewrite IH.
Qed.

Lemma prefab_paths builddir :
  builddir ≠ "" → endswith builddir "/" = false →
  os_path_join (os_path_join builddir "prefablib") "libballisticaplus.a"
  = builddir +:+ "/prefablib/libballisticaplus.a".
Proof.
  intros Hne Hend.
  assert (Hdir : os_path_join builddir "prefablib" = builddir +:+ "/prefablib").
  { unfold os_path_join. simpl startswith. cbv iota.
    apply String.eqb_neq in Hne. by rewrite Hne, Hend. }
  rewrite Hdir. unfold os_path_join. simpl startswith. cbv iota.
  assert (String.eqb (builddir +:+ "/prefablib") "" = false) as ->.
  { apply String.eqb_neq. by destruct builddir. }
  assert (endswith (builddir +:+ "/prefablib") "/" = false) as ->.
  { unfold endswith, String.rev. by rewrite rev_app_append. }
  cbn [orb]. by rewrite string_app_assoc.
Qed.

Lemma subprocess_run_trace E args c chk w :
  trace (snd (subprocess_run E args c chk w)) = trace w ++ [EvRun args c].
Proof.
  destruct (subprocess_run_cases E args c chk w)
    as [(r & f & ->) | [(rc & f & ->) | ->]]; done.
Qed.

Lemma mkdirs_is_dir pos root root' :
  Fs.mkdirs pos root = Some root' →
  ∃ es, Fs.lookup pos root' = Some (Fs.Dir es).
Proof.
  revert root root'. induction pos as [|c rest IH]; intros root root'; simpl.
  - destruct root; try done. intros [= <-]. eauto.
  - destruct root as [| |es]; try done.
    destruct (Fs.assoc c es) as [m|] eqn:Hc.
    + destruct (Fs.mkdirs rest m) as [m'|] eqn:Hm; [|done].
      intros [= <-]. simpl. rewrite assoc_alter_eq, Hc. simpl. eauto.
    + destruct (Fs.mkdirs rest (Fs.Dir [])) as [m'|] eqn:Hm; [|done].
      intros [= <-]. simpl. rewrite (assoc_app_None _ _ _ Hc). eauto.
Qed.

Lemma os_makedirs_is_dir p w w2 :
  os_makedirs p w = (Ok tt, w2) → Fs.isdir (fs w2) (cwd w2) p = true.
Proof.
  unfold os_makedirs.
  destruct (Fs.resolve (cwd w) p) as [pos|] eqn:Hpos; [|by intros [=]].
  destruct (Fs.mkdirs pos (fs w)) as [f|] eqn:Hmk; [|by intros [=]].
  intros [= <-]. simpl. unfold Fs.isdir, Fs.stat. rewrite Hpos.
  destruct (mkdirs_is_dir _ _ _ Hmk) as [es Hes].
  by rewrite (stat_pos_dir _ _ _ _ Hes).
Qed.

(** ** Paths: joining and resolving *)

Lemma string_app_nil_r (s : string) : s +:+ "" = s.
Proof. induction s as [|c s IH]; [done|]. by rewrite string_app_cons, IH. Qed.

Lemma rev_app_rev_app d cur acc :
  String.rev_app (String.rev_app d cur) acc = String.rev_app cur (d +:+ acc).
Proof.
  revert cur acc. induction d as [|c d IH]; intros cur acc; [done|].
  simpl. rewrite IH. by rewrite string_app_cons.
Qed.

Lemma rev_involutive s : String.rev (String.rev s) = s.
Proof. unfold String.rev. rewrite rev_app_rev_app. simpl. apply string_app_nil_r. Qed.

Lemma rev_app_spec r acc : String.rev_app r acc = String.rev r +:+ acc.
Proof.
  unfold String.rev. revert acc. induction r as [|c r IH]; intros acc; [done|].
  simpl. rewrite (IH (String c "")), IH. rewrite string_app_assoc. done.
Qed.

Lemma split_go_app sep cur a b :
  split_go sep cur (a +:+ String sep b) = split_go sep cur a ++ split_go sep "" b.
Proof.
  revert cur. induction a as [|c a IH]; intros cur.
  - simpl. by rewrite Ascii.eqb_refl.
  - rewrite string_app_cons. simpl. destruct (Ascii.eqb c sep); by rewrite IH.
Qed.

Lemma split_go_no_sep sep cur d :
  has_char sep d = false → split_go sep cur d = [String.rev (String.rev_app d cur)].
Proof.
  revert cur. induction d as [|c d IH]; intros cur; simpl; [done|].
  intros [Hc Hd]%orb_false_elim. rewrite Hc. by apply IH.
Qed.

Lemma split_no_sep sep d : has_char sep d = false → split sep d = [d].
Proof.
  intros H. unfold split. rewrite split_go_no_sep by done.
  by rewrite <- (rev_involutive d) at 2.
Qed.

Lemma norm_step_valid acc d : valid_name d = true → Fs.norm_step acc d = acc ++ [d].
Proof.
  unfold valid_name, Fs.norm_step.
  intros [[[H1 H2]%andb_prop H3]%andb_prop H4]%andb_prop.
  apply negb_true_iff in H1, H2, H3. by rewrite H1, H2, H3.
Qed.

Lemma prefix_char c x r : String.prefix (String c "") (String x r) = Ascii.eqb x c.
Proof.
  change (String.prefix (String c "") (String x r))
    with (if ascii_dec c x then String.prefix "" r else false).
  destruct (ascii_dec c x) as [->|Hne].
  - rewrite Ascii.eqb_refl. by destruct r.
  - symmetry. apply Ascii.eqb_neq. congruence.
Qed.

Lemma startswith_app a b p :
  a ≠ "" → startswith (a +:+ b) (String p "") = startswith a (String p "").
Proof.
  intros Ha. destruct a as [|c a]; [done|]. rewrite string_app_cons.
  unfold startswith. by rewrite !prefix_char.
Qed.

Lemma resolve_sep cwd a d pos :
  valid_name d = true → a ≠ "" →
  Fs.resolve cwd a = Some pos →
  Fs.resolve cwd (a +:+ "/" +:+ d) = Some (pos ++ [d]).
Proof.
  intros Hd Ha. unfold Fs.resolve.
  apply String.eqb_neq in Ha as Ha'. rewrite Ha'. intros [= <-].
  assert (String.eqb (a +:+ "/" +:+ d) "" = false) as ->.
  { apply String.eqb_neq. by destruct a. }
  rewrite (startswith_app a _ "/"%char) by done.
  unfold split. change ("/" +:+ d) with (String "/"%char d).
  rewrite split_go_app, fold_left_app.
  assert (Hnc : has_char "/"%char d = false).
  { unfold valid_name in Hd. apply andb_prop in Hd as [_ Hd].
    by apply negb_true_iff in Hd. }
  fold (split "/"%char d). rewrite (split_no_sep _ _ Hnc). simpl.
  by rewrite norm_step_valid.
Qed.

Lemma endswith_slash_inv a :
  endswith a "/" = true → ∃ t, a = t +:+ "/".
Proof.
  unfold endswith. change (String.rev "/") with "/".
  destruct (String.rev a) as [|c r] eqn:Hr; [intros [=]|].
  rewrite prefix_char. intros ->%Ascii.eqb_eq.
  exists (String.rev r). rewrite <- (rev_involutive a), Hr.
  unfold String.rev at 1. simpl. by rewrite rev_app_spec.
Qed.

Lemma valid_name_no_slash d : valid_name d = true → startswith d "/" = false.
Proof.
  unfold valid_name. intros [_ H]%andb_prop. apply negb_true_iff in H.
  destruct d as [|c d]; [done|]. simpl in H. apply orb_false_elim in H as [H _].
  unfold startswith. by rewrite prefix_char.
Qed.

Lemma nonempty_app_r (t x : string) : x ≠ "" → t +:+ x ≠ "".
Proof. intros Hx. destruct t as [|c t]; [done|]. by rewrite string_app_cons. Qed.

Lemma startswith_slash_app t x :
  startswith (t +:+ String "/"%char x) "/" = startswith (t +:+ "/") "/".
Proof.
  destruct t as [|c t].
  - unfold startswith. change ("" +:+ String "/"%char x) with (String "/"%char x).
    change ("" +:+ "/") with (String "/"%char ""). by rewrite !prefix_char.
  - unfold startswith. rewrite !string_app_cons. by rewrite !prefix_char.
Qed.

Lemma resolve_after_slash cwd t d pos :
  valid_name d = true →
  Fs.resolve cwd (t +:+ "/") = Some pos →
  Fs.resolve cwd (t +:+ "/" +:+ d) = Some (pos ++ [d]).
Proof.
  intros Hd. unfold Fs.resolve.
  assert (String.eqb (t +:+ "/") "" = false) as ->.
  { apply String.eqb_neq. by apply nonempty_app_r. }
  assert (String.eqb (t +:+ "/" +:+ d) "" = false) as ->.
  { apply String.eqb_neq. by apply nonempty_app_r. }
  intros [= <-]. f_equal.
  change ("/" +:+ d) with (String "/"%char d).
  change "/" with (String "/"%char "") at 3.
  rewrite startswith_slash_app.
  unfold split. rewrite !split_go_app, !fold_left_app.
  assert (Hnc : has_char "/"%char d = false).
  { unfold valid_name in Hd. apply andb_prop in Hd as [_ Hd].
    by apply negb_true_iff in Hd. }
  fold (split "/"%char d). rewrite (split_no_sep _ _ Hnc). simpl.
  by rewrite norm_step_valid.
Qed.

Lemma resolve_join cwd top d pos :
  valid_name d = true →
  Fs.resolve cwd top = Some pos →
  Fs.resolve cwd (os_path_join top d) = Some (pos ++ [d]).
Proof.
  intros Hd Hr. unfold os_path_join. rewrite (valid_name_no_slash _ Hd).
  assert (Htop : top ≠ "") by (intros ->; done).
  apply String.eqb_neq in Htop as Htop'. rewrite Htop'. simpl.
  destruct (endswith top "/") eqn:Hend.
  - destruct (endswith_slash_inv _ Hend) as [t ->].
    rewrite string_app_assoc. by apply resolve_after_slash.
  - by apply resolve_sep.
Qed.

(** ** Looking up and modifying trees *)

Lemma lookup_app p q n :
  Fs.lookup (p ++ q) n = Fs.lookup p n ≫= Fs.lookup q.
Proof.
  revert n. induction p as [|c p IH]; intros n; simpl; [done|].
  destruct n as [| |es]; try done. destruct (Fs.assoc c es); [apply IH|done].
Qed.

Lemma modify_app p q f n :
  Fs.modify (p ++ q) f n = Fs.modify p (Fs.modify q f) n.
Proof.
  revert n. induction p as [|c p IH]; intros n; simpl; [done|].
  destruct n as [| |es]; try done. f_equal.
  induction es as [|[k v] es IHes]; simpl; [done|].
  destruct (String.eqb c k); [by rewrite IH|by rewrite IHes].
Qed.

Lemma lookup_modify p f n :
  Fs.lookup p (Fs.modify p f n) = f <$> Fs.lookup p n.
Proof.
  revert n. induction p as [|c p IH]; intros n; simpl; [done|].
  destruct n as [| |es]; try done. simpl. rewrite assoc_alter_eq.
  destruct (Fs.assoc c es); simpl; [apply IH|done].
Qed.

Lemma alter_entry_ext {A} k (f g : A → A) l v :
  Fs.assoc k l = Some v → f v = g v → Fs.alter_entry k f l = Fs.alter_entry k g l.
Proof.
  induction l as [|[k' v'] l IH]; simpl; [done|].
  destruct (String.eqb k k'); [intros [= ->] ->; done|].
  intros H1 H2. by rewrite IH.
Qed.

Lemma alter_entry_absent {A} k (f : A → A) l :
  Fs.assoc k l = None → Fs.alter_entry k f l = l.
Proof.
  induction l as [|[k' v'] l IH]; simpl; [done|].
  destruct (String.eqb k k'); [done|]. intros H. by rewrite IH.
Qed.

Lemma modify_const p f n m :
  Fs.lookup p n = Some m → Fs.modify p f n = Fs.modify p (fun _ => f m) n.
Proof.
  revert n. induction p as [|c p IH]; intros n; simpl; [by intros [= ->]|].
  destruct n as [| |es]; try done.
  destruct (Fs.assoc c es) as [v|] eqn:Hc; [|done].
  intros Hl. f_equal. apply (alter_entry_ext _ _ _ _ v Hc). by apply IH.
Qed.

Lemma alter_alter {A} k (f g : A → A) l :
  Fs.alter_entry k g (Fs.alter_entry k f l) = Fs.alter_entry k (g ∘ f) l.
Proof.
  induction l as [|[k' v'] l IH]; simpl; [done|].
  destruct (String.eqb k k') eqn:Hk; simpl; rewrite Hk; [done|by rewrite IH].
Qed.

Lemma alter_entry_fun_ext {A} k (f g : A → A) l :
  (∀ v, f v = g v) → Fs.alter_entry k f l = Fs.alter_entry k g l.
Proof.
  intros H. induction l as [|[k' v'] l IH]; simpl; [done|].
  destruct (String.eqb k k'); [by rewrite H|by rewrite IH].
Qed.

Lemma modify_modify p f g n :
  Fs.modify p g (Fs.modify p f n) = Fs.modify p (g ∘ f) n.
Proof.
  revert n. induction p as [|c p IH]; intros n; simpl; [done|].
  destruct n as [| |es]; try done. simpl. f_equal.
  rewrite alter_alter. apply alter_entry_fun_ext. intros v. apply IH.
Qed.

Lemma remove_snoc pos f root :
  Fs.remove (pos ++ [f]) root =
  Fs.modify pos (Fs.on_entries (Fs.remove_entry f)) root.
Proof.
  unfold Fs.remove. destruct (pos ++ [f]) eqn:Hp; [by destruct pos|].
  rewrite <- Hp. by rewrite removelast_last, last_last.
Qed.

Lemma modify_dir_entries pos g root cur :
  Fs.lookup pos root = Some (Fs.Dir cur) →
  Fs.modify pos (Fs.on_entries g) root = Fs.modify pos (fun _ => Fs.Dir (g cur)) root.
Proof. intros H. by rewrite (modify_const _ _ _ _ H). Qed.

Lemma modify_child pos d g root cur sub :
  Fs.lookup pos root = Some (Fs.Dir cur) →
  Fs.assoc d cur = Some sub →
  Fs.modify (pos ++ [d]) (fun _ => g sub) root
  = Fs.modify pos (fun _ => Fs.Dir (Fs.alter_entry d g cur)) root.
Proof.
  intros Hl Hd. rewrite modify_app. rewrite (modify_const _ _ _ _ Hl).
  cbn [Fs.modify].
  by rewrite (alter_entry_ext d (fun _ => g sub) g cur sub Hd eq_refl).
Qed.

Lemma modify_again pos a b root :
  Fs.modify pos (fun _ => b) (Fs.modify pos (fun _ => a) root)
  = Fs.modify pos (fun _ => b) root.
Proof. by rewrite modify_modify. Qed.

Lemma lookup_child pos d root cur :
  Fs.lookup pos root = Some (Fs.Dir cur) →
  Fs.lookup (pos ++ [d]) root = Fs.assoc d cur.
Proof.
  intros H. rewrite lookup_app, H. simpl. by destruct (Fs.assoc d cur).
Qed.

Lemma lookup_modify_const pos v root n :
  Fs.lookup pos root = Some n →
  Fs.lookup pos (Fs.modify pos (fun _ => v) root) = Some v.
Proof. intros H. by rewrite lookup_modify, H. Qed.

(** ** The cleaned tree *)

Lemma clean_tree_dir manifest top es :
  clean_tree manifest top (Fs.Dir es) = Fs.Dir (clean_entries manifest top es).
Proof.
  simpl. f_equal. induction es as [|[k v] es IH]; [done|].
  simpl. rewrite IH. done.
Qed.

Lemma orphans_dir manifest top es :
  orphans manifest top (Fs.Dir es)
  = orphans_here manifest top es ++ orphans_below manifest top es.
Proof.
  simpl. f_equal. unfold orphans_below.
  induction es as [|[k v] es IH]; [done|].
  destruct v; simpl; by rewrite IH.
Qed.

Lemma wf_tree_dir es :
  wf_tree (Fs.Dir es) = true ↔
  NoDup (map fst es)
  ∧ Forall (fun e => valid_name (fst e) = true ∧ wf_tree (snd e) = true) es.
Proof.
  simpl. rewrite andb_true_iff, bool_decide_eq_true.
  apply and_iff_compat_l.
  induction es as [|[k v] es IH]; simpl.
  - split; [constructor|done].
  - rewrite Forall_cons_iff. simpl. rewrite <- IH.
    destruct (valid_name k), (wf_tree v); simpl; intuition discriminate.
Qed.

Lemma height_entry k v es : (k, v) ∈ es → (Fs.height v < Fs.height (Fs.Dir es))%nat.
Proof.
  simpl. intros H. apply Nat.lt_succ_r.
  induction es as [|[k' v'] es IH]; [by apply elem_of_nil in H|].
  apply elem_of_cons in H as [[= <- <-]|H]; [lia|].
  specialize (IH H). lia.
Qed.

Lemma height_dir_pos es : (0 < Fs.height (Fs.Dir es))%nat.
Proof. simpl. lia. Qed.

Lemma same_process_refl w : same_process w w.
Proof. by unfold same_process. Qed.

Lemma same_process_trans w1 w2 w3 :
  same_process w1 w2 → same_process w2 w3 → same_process w1 w3.
Proof. unfold same_process. intuition congruence. Qed.

(** ** The walk computes the cleaned tree *)

Section walk.
Variable manifest : gset string.

Lemma unlink_file top pos f v cur w :
  valid_name f = true → Fs.is_dir_node v = false →
  Fs.resolve (cwd w) top = Some pos →
  Fs.lookup pos (fs w) = Some (Fs.Dir cur) →
  Fs.assoc f cur = Some v →
  os_unlink (os_path_join top f) w =
    (Ok tt,
     set_fs (Fs.modify pos (fun _ => Fs.Dir (Fs.remove_entry f cur)) (fs w))
       (emit (EvUnlink (os_path_join top f)) w)).
Proof.
  intros Hf Hv Hr Hl Ha. unfold os_unlink.
  rewrite (resolve_join _ _ _ _ Hf Hr), (lookup_child _ _ _ _ Hl), Ha.
  rewrite remove_snoc, (modify_dir_entries _ _ _ _ Hl).
  by destruct v.
Qed.

Lemma remove_if_orphaned_step top pos f v cur w :
  valid_name f = true → Fs.is_dir_node v = false →
  Fs.resolve (cwd w) top = Some pos →
  Fs.lookup pos (fs w) = Some (Fs.Dir cur) →
  Fs.assoc f cur = Some v →
  remove_if_orphaned manifest top f w =
    (Ok tt, if orphaned manifest (os_path_join top f)
            then unlinked top f cur pos w else w).
Proof.
  intros Hf Hv Hr Hl Ha. unfold remove_if_orphaned.
  fold (orphaned manifest (os_path_join top f)).
  destruct (orphaned manifest (os_path_join top f)); [|done].
  rewrite bind_eq. unfold print. cbv beta iota.
  by rewrite (unlink_file top pos f v cur (set_stdout _ w) Hf Hv Hr Hl Ha).
Qed.

Lemma modify_same pos root n :
  Fs.lookup pos root = Some n → Fs.modify pos (fun _ => n) root = root.
Proof.
  intros Hl. rewrite <- (modify_const pos (fun n => n) _ _ Hl).
  clear. revert root. induction pos as [|c p IHp]; intros n; [done|].
  simpl. destruct n as [| |es]; try done. f_equal.
  induction es as [|[k x] es IHes]; simpl; [done|].
  destruct (String.eqb c k); [by rewrite IHp|by rewrite IHes].
Qed.

Lemma files_loop top pos (fsubs : list (string * Fs.node)) :
  ∀ cur w,
    NoDup (map fst fsubs) →
    (∀ f v, (f, v) ∈ fsubs →
       Fs.assoc f cur = Some v ∧ Fs.is_dir_node v = false ∧ valid_name f = true) →
    Fs.resolve (cwd w) top = Some pos →
    Fs.lookup pos (fs w) = Some (Fs.Dir cur) →
    ∃ w',
      for_each (map fst fsubs) (remove_if_orphaned manifest top) w = (Ok tt, w')
      ∧ fs w' = Fs.modify pos
                  (fun _ => Fs.Dir (fold_left (stepA manifest top) (map fst fsubs) cur)) (fs w)
      ∧ trace w' = trace w
                   ++ map EvUnlink
                        (List.filter (orphaned manifest)
                           (map (fun e => os_path_join top (fst e)) fsubs))
      ∧ same_process w w'.
Proof.
  induction fsubs as [|[f v] rest IH]; intros cur w Hnd Hall Hr Hl.
  - exists w. simpl. rewrite app_nil_r.
    repeat split; try done. by rewrite (modify_same _ _ _ Hl).
  - destruct (Hall f v) as (Ha & Hv & Hf); [by left|].
    apply list.NoDup_cons in Hnd as [Hnotin Hnd].
    cbn [map fst for_each fold_left]. unfold stepA at 2.
    assert (Hother : ∀ cur', (∀ k, k ≠ f → Fs.assoc k cur' = Fs.assoc k cur) →
              ∀ f' v', (f', v') ∈ rest →
                Fs.assoc f' cur' = Some v' ∧ Fs.is_dir_node v' = false
                ∧ valid_name f' = true).
    { intros cur' Hsame f' v' Hin.
      destruct (Hall f' v') as (Ha' & ? & ?); [by right|].
      rewrite Hsame; [done|]. intros ->. apply Hnotin.
      apply list_elem_of_fmap. by exists (f, v'). }
    rewrite bind_eq, (remove_if_orphaned_step top pos f v cur w Hf Hv Hr Hl Ha).
    simpl List.filter.
    destruct (orphaned manifest (os_path_join top f)) eqn:Ho.
    + destruct (IH (Fs.remove_entry f cur) (unlinked top f cur pos w))
        as (w' & Hrun & Hfs & Htr & Hsp).
      * done.
      * apply Hother. intros k Hk. by apply assoc_remove_ne.
      * done.
      * simpl. by rewrite (lookup_modify_const _ _ _ _ Hl).
      * exists w'. split; [done|]. split; [|split].
        -- rewrite Hfs. simpl. by rewrite modify_again.
        -- rewrite Htr. simpl. by rewrite <- app_assoc.
        -- eapply same_process_trans; [|exact Hsp]. done.
    + destruct (IH cur w) as (w' & Hrun & Hfs & Htr & Hsp); try done.
      * by apply Hother.
      * by exists w'.
Qed.

Lemma remove_entry_absent {A} k (l : list (string * A)) :
  k ∉ map fst l → Fs.remove_entry k l = l.
Proof.
  induction l as [|[k' v] l IH]; [done|]. simpl.
  intros Hn. apply not_elem_of_cons in Hn as [Hne Hn].
  assert (String.eqb k k' = false) as -> by (by apply String.eqb_neq).
  simpl. f_equal. by apply IH.
Qed.

Lemma remove_entry_middle {A} k (v : A) a t :
  k ∉ map fst a → k ∉ map fst t → Fs.remove_entry k (a ++ (k, v) :: t) = a ++ t.
Proof.
  intros Ha Ht. unfold Fs.remove_entry. rewrite filter_app. simpl.
  rewrite String.eqb_refl. simpl.
  fold (Fs.remove_entry k a). fold (Fs.remove_entry k t).
  by rewrite !remove_entry_absent.
Qed.

Lemma alter_entry_middle {A} k (g : A → A) (v : A) a t :
  k ∉ map fst a → Fs.alter_entry k g (a ++ (k, v) :: t) = a ++ (k, g v) :: t.
Proof.
  induction a as [|[k' v'] a IH]; simpl.
  - by rewrite String.eqb_refl.
  - intros Hn. apply not_elem_of_cons in Hn as [Hne Hn].
    assert (String.eqb k k' = false) as -> by (by apply String.eqb_neq).
    by rewrite IH.
Qed.

Lemma NoDup_names_snoc {A} (done' : list (string * A)) k (x y : A) t :
  NoDup (map fst (done' ++ (k, x) :: t)) →
  NoDup (map fst ((done' ++ [(k, y)]) ++ t)).
Proof. rewrite <- app_assoc. by rewrite !map_app. Qed.

Lemma NoDup_names_drop {A} (done' : list (string * A)) k (x : A) t :
  NoDup (map fst (done' ++ (k, x) :: t)) →
  NoDup (map fst (done' ++ t)) ∧ (k ∉ map fst done') ∧ (k ∉ map fst t).
Proof.
  rewrite !map_app. cbn [map fst].
  intros Hall. apply list.NoDup_app in Hall as (Hd & Hdis & Ht).
  apply list.NoDup_cons in Ht as [Hkt Ht].
  split; [|split; [|done]].
  - apply list.NoDup_app. split; [done|]. split; [|done].
    intros y Hy Hy'. apply (Hdis y Hy). by right.
  - intros Hin. apply (Hdis k Hin). by left.
Qed.

Lemma files_fold top todo :
  ∀ done',
    NoDup (map fst (done' ++ todo)) →
    fold_left (stepA manifest top) (map fst (List.filter is_file_entry todo)) (done' ++ todo)
    = done' ++ List.filter (kept manifest top) todo.
Proof.
  induction todo as [|[k v] t IH]; intros done' Hnd; [done|].
  destruct (NoDup_names_drop _ _ _ _ Hnd) as (Hdrop & Hkd & Hkt).
  pose proof (IH _ (NoDup_names_snoc _ _ _ v _ Hnd)) as IHkeep.
  rewrite <- !app_assoc in IHkeep. cbn [app] in IHkeep.
  cbn [List.filter]. unfold is_file_entry at 1, kept at 1. cbn [fst snd].
  destruct (Fs.is_dir_node v) eqn:Hv; cbn [negb orb]; [exact IHkeep|].
  cbn [map fst fold_left]. unfold stepA at 2.
  destruct (orphaned manifest (os_path_join top k)); cbn [negb].
  - rewrite remove_entry_middle by done. by apply IH.
  - exact IHkeep.
Qed.

Lemma dirs_fold top todo :
  ∀ done',
    NoDup (map fst (done' ++ todo)) →
    fold_left (stepB manifest top) (map fst (List.filter is_dir_entry todo))
      (done' ++ List.filter (kept manifest top) todo)
    = done' ++ clean_entries manifest top todo.
Proof.
  induction todo as [|[k v] t IH]; intros done' Hnd; [done|].
  destruct (NoDup_names_drop _ _ _ _ Hnd) as (Hdrop & Hkd & Hkt).
  assert (IHkeep : ∀ y,
    fold_left (stepB manifest top) (map fst (List.filter is_dir_entry t))
      (done' ++ (k, y) :: List.filter (kept manifest top) t)
    = done' ++ (k, y) :: clean_entries manifest top t).
  { intros y. pose proof (IH _ (NoDup_names_snoc _ _ _ y _ Hnd)) as H.
    rewrite <- !app_assoc in H. exact H. }
  cbn [List.filter clean_entries]. unfold is_dir_entry at 1, kept at 1.
  cbn [fst snd].
  destruct v as [m d|tgt|es]; cbn [Fs.is_dir_node orb].
  - destruct (orphaned manifest (os_path_join top k)); cbn [negb];
      [by apply IH|apply IHkeep].
  - destruct (orphaned manifest (os_path_join top k)); cbn [negb];
      [by apply IH|apply IHkeep].
  - cbn [map fst fold_left]. unfold stepB at 2.
    rewrite alter_entry_middle by done. apply IHkeep.
Qed.

Lemma scan_fold top es :
  NoDup (map fst es) →
  fold_left (stepB manifest top) (map fst (List.filter is_dir_entry es))
    (fold_left (stepA manifest top) (map fst (List.filter is_file_entry es)) es)
  = clean_entries manifest top es.
Proof.
  intros Hnd. pose proof (files_fold top es [] Hnd) as HA. cbn [app] in HA.
  rewrite HA. exact (dirs_fold top es [] Hnd).
Qed.

Lemma dirs_loop k top pos (dsubs : list (string * Fs.node)) :
  walk_spec manifest k →
  ∀ cur w,
    NoDup (map fst dsubs) →
    (∀ d sub, (d, sub) ∈ dsubs →
       Fs.assoc d cur = Some sub ∧ Fs.is_dir_node sub = true
       ∧ wf_tree sub = true ∧ (Fs.height sub ≤ k)%nat ∧ valid_name d = true) →
    Fs.resolve (cwd w) top = Some pos →
    Fs.lookup pos (fs w) = Some (Fs.Dir cur) →
    ∃ w',
      for_each (map fst dsubs) (descend manifest k top) w = (Ok tt, w')
      ∧ fs w' = Fs.modify pos
                  (fun _ => Fs.Dir (fold_left (stepB manifest top) (map fst dsubs) cur)) (fs w)
      ∧ trace w' = trace w
                   ++ map EvUnlink
                        (flat_map
                           (fun e => orphans manifest (os_path_join top (fst e)) (snd e))
                           dsubs)
      ∧ same_process w w'.
Proof.
  intros Hwalk. induction dsubs as [|[d sub] rest IH]; intros cur w Hnd Hall Hr Hl.
  - exists w. simpl. rewrite app_nil_r.
    repeat split; try done. by rewrite (modify_same _ _ _ Hl).
  - destruct (Hall d sub) as (Ha & Hdir & Hwf & Hh & Hd); [by left|].
    apply list.NoDup_cons in Hnd as [Hnotin Hnd].
    destruct sub as [| |es']; try done.
    cbn [map fst for_each fold_left flat_map snd]. rewrite bind_eq.
    pose proof (resolve_join _ _ _ _ Hd Hr) as Hr'.
    pose proof (lookup_child _ d _ _ Hl) as Hl'. rewrite Ha in Hl'.
    assert (Hstep : descend manifest k top d w = os_walk k (os_path_join top d) (walk_body manifest) w).
    { unfold descend. rewrite bind_eq. unfold os_path_islink, Fs.islink, Fs.lstat.
      by rewrite Hr', Hl'. }
    rewrite Hstep.
    destruct (Hwalk es' _ _ w Hwf Hh Hr' Hl') as (w1 & Hrun1 & Hfs1 & Htr1 & Hsp1).
    rewrite Hrun1.
    rewrite (modify_child pos d (clean_tree manifest (os_path_join top d))
               _ cur (Fs.Dir es') Hl Ha) in Hfs1.
    fold (stepB manifest top cur d) in Hfs1.
    destruct (IH (stepB manifest top cur d) w1) as (w' & Hrun & Hfs & Htr & Hsp).
    + done.
    + intros d' sub' Hin. destruct (Hall d' sub') as (Ha' & ? & ? & ? & ?); [by right|].
      split; [|done]. unfold stepB. rewrite assoc_alter_ne; [done|].
      intros ->. apply Hnotin. apply list_elem_of_fmap. by exists (d', sub').
    + destruct Hsp1 as (_ & _ & _ & -> & _). done.
    + rewrite Hfs1. by rewrite (lookup_modify_const _ _ _ _ Hl).
    + exists w'. split; [done|]. split; [|split].
      * rewrite Hfs, Hfs1. by rewrite modify_again.
      * rewrite Htr, Htr1. by rewrite map_app, app_assoc.
      * by eapply same_process_trans.
Qed.

Lemma In_assoc {A} k (v : A) l :
  NoDup (map fst l) → (k, v) ∈ l → Fs.assoc k l = Some v.
Proof.
  induction l as [|[k' v'] l IH]; [by intros _ ?%elem_of_nil|].
  cbn [map fst]. intros [Hn Hnd]%list.NoDup_cons [[= <- <-]|Hin]%elem_of_cons; simpl.
  - by rewrite String.eqb_refl.
  - destruct (String.eqb k k') eqn:Hk; [|by apply IH].
    apply String.eqb_eq in Hk as <-. exfalso. apply Hn.
    apply list_elem_of_fmap. by exists (k, v).
Qed.

Lemma assoc_files_fold top names cur d :
  d ∉ names → Fs.assoc d (fold_left (stepA manifest top) names cur) = Fs.assoc d cur.
Proof.
  revert cur. induction names as [|f names IH]; intros cur Hd; [done|].
  apply not_elem_of_cons in Hd as [Hne Hd]. simpl. rewrite IH by done.
  unfold stepA. destruct (orphaned manifest _); [|done].
  by apply assoc_remove_ne.
Qed.

Lemma NoDup_filter_names {A} (P : string * A → bool) l :
  NoDup (map fst l) → NoDup (map fst (List.filter P l)).
Proof.
  induction l as [|[k v] l IH]; [done|]. cbn [map fst List.filter].
  intros [Hn Hnd]%list.NoDup_cons. destruct (P (k, v)); [|by apply IH].
  cbn [map fst]. apply list.NoDup_cons. split; [|by apply IH].
  intros Hin. apply Hn. apply list_elem_of_fmap in Hin as ([k' v'] & -> & Hin).
  apply list_elem_of_In, filter_In in Hin as [Hin _].
  apply list_elem_of_fmap. exists (k', v'). split; [done|]. by apply list_elem_of_In.
Qed.

Lemma walk_ok : ∀ k, walk_spec manifest k.
Proof.
  induction k as [|k IHk]; intros es top pos w Hwf Hh Hr Hl.
  { pose proof (height_dir_pos es). lia. }
  apply wf_tree_dir in Hwf as Hwf'. destruct Hwf' as [Hnd Hents].
  rewrite Forall_forall in Hents.
  cbn [os_walk].
  assert (Hscan : scandir w top = Some (pos, es)).
  { unfold scandir, Fs.stat. by rewrite Hr, (stat_pos_dir _ _ _ _ Hl). }
  rewrite Hscan.
  assert (Hkind : ∀ e, In e es → entry_is_dir w pos e = is_dir_entry e).
  { intros [k' v] Hin. destruct (Hents _ Hin) as [_ Hv]. simpl in Hv.
    unfold entry_is_dir, is_dir_entry. by destruct v. }
  rewrite (filter_ext_in _ _ _ Hkind).
  assert (Hkind' : ∀ e, In e es → negb (entry_is_dir w pos e) = is_file_entry e).
  { intros e Hin. by rewrite Hkind. }
  rewrite (filter_ext_in _ _ _ Hkind').
  rewrite bind_eq. unfold walk_body at 1.
  destruct (files_loop top pos (List.filter is_file_entry es) es w)
    as (w1 & Hrun1 & Hfs1 & Htr1 & Hsp1); [by apply NoDup_filter_names| |done..|].
  { intros f v [Hin Hfile]%list_elem_of_In%filter_In.
    destruct (Hents _ Hin) as [Hname _].
    split; [apply In_assoc; [done|by apply list_elem_of_In]|].
    split; [|done]. unfold is_file_entry in Hfile. simpl in Hfile.
    by apply negb_true_iff. }
  rewrite Hrun1.
  set (es1 := fold_left (stepA manifest top) (map fst (List.filter is_file_entry es)) es) in *.
  fold (descend manifest k top).
  change (for_each (map fst (List.filter is_dir_entry es))
            (fun d => descend manifest k top d))
    with (for_each (map fst (List.filter is_dir_entry es)) (descend manifest k top)).
  destruct (dirs_loop k top pos (List.filter is_dir_entry es) IHk es1 w1)
    as (w2 & Hrun2 & Hfs2 & Htr2 & Hsp2); [by apply NoDup_filter_names| | | |].
  { intros d sub [Hin Hdir]%list_elem_of_In%filter_In.
    destruct (Hents _ Hin) as [Hname Hsub]. simpl in Hname, Hsub.
    unfold is_dir_entry in Hdir. simpl in Hdir.
    split; [|split; [done|split; [done|split; [|done]]]].
    - subst es1. rewrite assoc_files_fold.
      + apply In_assoc; [done|by apply list_elem_of_In].
      + intros Hf. apply list_elem_of_fmap in Hf as ([f v] & Heq & Hf).
        simpl in Heq. subst f.
        apply list_elem_of_In, filter_In in Hf as [Hf Hfile].
        unfold is_file_entry in Hfile. simpl in Hfile.
        assert (Fs.assoc d es = Some v) as Hv
          by (apply In_assoc; [done|by apply list_elem_of_In]).
        assert (Fs.assoc d es = Some sub) as Hs
          by (apply In_assoc; [done|by apply list_elem_of_In]).
        assert (v = sub) as -> by congruence.
        by rewrite Hdir in Hfile.
    - apply list_elem_of_In in Hin. pose proof (height_entry _ _ _ Hin). lia. }
  { destruct Hsp1 as (_ & _ & _ & -> & _). done. }
  { rewrite Hfs1. by rewrite (lookup_modify_const _ _ _ _ Hl). }
  exists w2. split; [done|]. split; [|split].
  - rewrite Hfs2, Hfs1, modify_again. subst es1.
    by rewrite scan_fold, clean_tree_dir.
  - rewrite Htr2, Htr1, orphans_dir, map_app, app_assoc. done.
  - by eapply same_process_trans.
Qed.

End walk.

(** ** Pruning empty directories *)

Lemma prune_dir es :
  Fs.prune (Fs.Dir es) =
  match Fs.prune_entries es with
  | [] => None
  | es' => Some (Fs.Dir es')
  end.
Proof.
  cbn [Fs.prune].
  assert (Heq : ∀ l,
    (fix prune_entries (l : list (string * Fs.node)) : list (string * Fs.node) :=
       match l with
       | [] => []
       | (k, v) :: l' =>
           match Fs.prune v with
           | Some v' => (k, v') :: prune_entries l'
           | None => prune_entries l'
           end
       end) l = Fs.prune_entries l).
  { induction l as [|[k v] l IH]; [done|]. cbn [Fs.prune_entries]. by rewrite <- IH. }
  rewrite !Heq. by destruct (Fs.prune_entries es).
Qed.

Lemma assoc_absent {A} k (l : list (string * A)) :
  k ∉ map fst l → Fs.assoc k l = None.
Proof.
  induction l as [|[k' v] l IH]; [done|]. cbn [map fst Fs.assoc].
  intros [Hne Hn]%not_elem_of_cons.
  assert (String.eqb k k' = false) as -> by (by apply String.eqb_neq).
  by apply IH.
Qed.

Lemma assoc_prune_entries k es :
  NoDup (map fst es) →
  Fs.assoc k (Fs.prune_entries es) = Fs.assoc k es ≫= Fs.prune.
Proof.
  induction es as [|[k' v] es IH]; [done|]. cbn [map fst].
  intros [Hn Hnd]%list.NoDup_cons. cbn [Fs.prune_entries Fs.assoc].
  destruct (String.eqb k k') eqn:Hk.
  - apply String.eqb_eq in Hk as <-. cbn [mbind option_bind].
    destruct (Fs.prune v) as [v'|]; cbn [Fs.assoc].
    + by rewrite String.eqb_refl.
    + rewrite IH by done. by rewrite (assoc_absent _ _ Hn).
  - destruct (Fs.prune v) as [v'|]; cbn [Fs.assoc]; [rewrite Hk|]; by apply IH.
Qed.

Lemma prune_entries_names es :
  ∀ k, k ∈ map fst (Fs.prune_entries es) → k ∈ map fst es.
Proof.
  induction es as [|[k' v] es IH]; intros k; [done|].
  cbn [Fs.prune_entries map fst]. destruct (Fs.prune v); cbn [map fst];
    rewrite ?elem_of_cons; intuition.
Qed.

Lemma clean_entries_names manifest top l :
  ∀ k, k ∈ map fst (clean_entries manifest top l) → k ∈ map fst l.
Proof.
  induction l as [|[k' v] l IH]; intros k; [done|].
  cbn [clean_entries map fst].
  destruct v; try destruct (orphaned manifest _); cbn [map fst];
    rewrite ?elem_of_cons; intuition.
Qed.

Lemma NoDup_prune_entries es :
  NoDup (map fst es) → NoDup (map fst (Fs.prune_entries es)).
Proof.
  induction es as [|[k v] es IH]; [done|]. cbn [map fst Fs.prune_entries].
  intros [Hn Hnd]%list.NoDup_cons. destruct (Fs.prune v); [|by apply IH].
  cbn [map fst]. apply list.NoDup_cons. split; [|by apply IH].
  intros Hin. by apply Hn, prune_entries_names.
Qed.

Lemma NoDup_clean_entries manifest top es :
  NoDup (map fst es) → NoDup (map fst (clean_entries manifest top es)).
Proof.
  induction es as [|[k v] es IH]; [done|]. cbn [map fst].
  intros [Hn Hnd]%list.NoDup_cons.
  assert (Hk : k ∉ map fst (clean_entries manifest top es)).
  { intros Hin. by apply Hn, (clean_entries_names manifest top). }
  cbn [clean_entries].
  destruct v; try destruct (orphaned manifest _); cbn [map fst];
    try (apply list.NoDup_cons; split; [done|]); by apply IH.
Qed.

Lemma wf_clean_tree manifest n :
  ∀ top, wf_tree n = true → wf_tree (clean_tree manifest top n) = true.
Proof.
  induction n as [m d|t|es IH] using Fs.node_ind; intros top Hwf; [done..|].
  rewrite clean_tree_dir. apply wf_tree_dir in Hwf as [Hnd Hall].
  apply wf_tree_dir. split; [by apply NoDup_clean_entries|].
  clear Hnd. induction es as [|[k v] es IHes]; [constructor|].
  apply list.Forall_cons in IH as [IHv IH].
  apply list.Forall_cons in Hall as [[Hk Hv] Hall]. simpl in IHv, Hk, Hv.
  cbn [clean_entries]. destruct v as [m d|t|es'].
  - destruct (orphaned manifest _); [by apply IHes|].
    apply list.Forall_cons. split; [done|by apply IHes].
  - discriminate Hv.
  - apply list.Forall_cons. split; [|by apply IHes].
    split; [done|]. cbn [snd]. by apply IHv.
Qed.

Lemma wf_prune n n' :
  wf_tree n = true → Fs.prune n = Some n' → wf_tree n' = true.
Proof.
  revert n'. induction n as [m d|t|es IH] using Fs.node_ind; intros n' Hwf.
  - by intros [= <-].
  - done.
  - rewrite prune_dir. intros Hp.
    assert (wf_tree (Fs.Dir (Fs.prune_entries es)) = true) as Hgoal.
    { apply wf_tree_dir in Hwf as [Hnd Hall].
      apply wf_tree_dir. split; [by apply NoDup_prune_entries|].
      clear Hnd Hp. induction es as [|[k v] es IHes]; [constructor|].
      apply list.Forall_cons in IH as [IHv IH].
      apply list.Forall_cons in Hall as [[Hk Hv] Hall]. simpl in IHv, Hk, Hv.
      cbn [Fs.prune_entries]. destruct (Fs.prune v) as [v'|] eqn:Hpv; [|by apply IHes].
      apply list.Forall_cons. split; [|by apply IHes].
      split; [done|]. by apply (IHv v'). }
    destruct (Fs.prune_entries es); [done|]. by injection Hp as <-.
Qed.

Lemma prune_keeps_file rel :
  ∀ n m d, Fs.lookup rel n = Some (Fs.File m d) →
    ∃ n', Fs.prune n = Some n' ∧ Fs.lookup rel n' = Some (Fs.File m d).
Proof.
  induction rel as [|k rest IH]; intros n m d.
  - intros [= ->]. by exists (Fs.File m d).
  - cbn [Fs.lookup]. destruct n as [| |es]; try done.
    destruct (Fs.assoc k es) as [v|] eqn:Hk; [|done]. intros Hl.
    destruct (IH v m d Hl) as (v' & Hpv & Hl').
    assert (Ha : Fs.assoc k (Fs.prune_entries es) = Some v').
    { clear Hl. induction es as [|[k' x] es IHes]; [done|].
      cbn [Fs.assoc] in Hk. cbn [Fs.prune_entries].
      destruct (String.eqb k k') eqn:Hkk.
      - injection Hk as ->. rewrite Hpv. cbn [Fs.assoc]. by rewrite Hkk.
      - destruct (Fs.prune x); cbn [Fs.assoc]; [rewrite Hkk|]; by apply IHes. }
    rewrite prune_dir. destruct (Fs.prune_entries es) as [|e es'] eqn:Hes; [done|].
    eexists. split; [done|]. cbn [Fs.lookup]. by rewrite Ha.
Qed.

Lemma prune_no_new rel :
  ∀ n n', wf_tree n = true → Fs.prune n = Some n' →
    Fs.lookup rel n = None → Fs.lookup rel n' = None.
Proof.
  induction rel as [|k rest IH]; intros n n' Hwf; [done|].
  destruct n as [m d|t|es]; [by intros [= <-]|done|].
  rewrite prune_dir. destruct (Fs.prune_entries es) as [|e es'] eqn:Hes; [done|].
  intros [= <-]. cbn [Fs.lookup]. rewrite <- Hes.
  apply wf_tree_dir in Hwf as [Hnd Hall].
  rewrite (assoc_prune_entries _ _ Hnd).
  destruct (Fs.assoc k es) as [v|] eqn:Hk; [|done]. cbn [mbind option_bind].
  destruct (Fs.prune v) as [v'|] eqn:Hpv; [|done].
  apply (IH v v'); [|done].
  rewrite Forall_forall in Hall.
  assert (Hin : In (k, v) es).
  { clear -Hk. induction es as [|[k' x] es IHes]; [done|]. cbn [Fs.assoc] in Hk.
    destruct (String.eqb k k') eqn:Hkk.
    - apply String.eqb_eq in Hkk as <-. injection Hk as ->. by left.
    - right. by apply IHes. }
  by destruct (Hall _ Hin).
Qed.

Lemma prune_idem n n' : Fs.prune n = Some n' → Fs.prune n' = Some n'.
Proof.
  revert n'. induction n as [m d|t|es IH] using Fs.node_ind; intros n'.
  - by intros [= <-].
  - by intros [= <-].
  - rewrite prune_dir.
    assert (Hidem : Fs.prune_entries (Fs.prune_entries es) = Fs.prune_entries es).
    { induction es as [|[k v] es IHes]; [done|].
      apply list.Forall_cons in IH as [IHv IH]. simpl in IHv.
      cbn [Fs.prune_entries]. destruct (Fs.prune v) as [v'|] eqn:Hpv; [|by apply IHes].
      cbn [Fs.prune_entries]. rewrite (IHv v' eq_refl). by rewrite IHes. }
    destruct (Fs.prune_entries es) as [|e es'] eqn:Hes; [done|].
    intros [= <-]. rewrite prune_dir, Hidem. done.
Qed.

Lemma tidy_dir manifest top es :
  tidy manifest top (Fs.Dir es) = true ↔ Forall (fun e => tidy_entry manifest top e = true) es.
Proof.
  cbn [tidy]. induction es as [|[k v] es IH]; [by split; [constructor|]|].
  rewrite list.Forall_cons, andb_true_iff, IH. unfold tidy_entry at 1. cbn [fst snd].
  by destruct v.
Qed.

Lemma tidy_clean_tree manifest n :
  ∀ top, tidy manifest top (clean_tree manifest top n) = true.
Proof.
  induction n as [m d|t|es IH] using Fs.node_ind; intros top; [done..|].
  rewrite clean_tree_dir. apply tidy_dir.
  induction es as [|[k v] es IHes]; [constructor|].
  apply list.Forall_cons in IH as [IHv IH]. cbn [snd] in IHv.
  cbn [clean_entries]. destruct v as [m d|t|es'].
  - destruct (orphaned manifest (os_path_join top k)) eqn:Ho; [by apply IHes|].
    apply list.Forall_cons. split; [|by apply IHes].
    unfold tidy_entry. cbn [fst snd]. by rewrite Ho.
  - destruct (orphaned manifest (os_path_join top k)) eqn:Ho; [by apply IHes|].
    apply list.Forall_cons. split; [|by apply IHes].
    unfold tidy_entry. cbn [fst snd]. by rewrite Ho.
  - apply list.Forall_cons. split; [|by apply IHes].
    unfold tidy_entry. cbn [fst snd]. rewrite clean_tree_dir.
    specialize (IHv (os_path_join top k)). by rewrite clean_tree_dir in IHv.
Qed.

Lemma tidy_prune manifest n :
  ∀ top n', tidy manifest top n = true → Fs.prune n = Some n' →
    tidy manifest top n' = true.
Proof.
  induction n as [m d|t|es IH] using Fs.node_ind; intros top n' Ht.
  - by intros [= <-].
  - by intros [= <-].
  - rewrite prune_dir. intros Hp.
    assert (tidy manifest top (Fs.Dir (Fs.prune_entries es)) = true) as Hgoal.
    { apply tidy_dir in Ht. apply tidy_dir. clear Hp.
      induction es as [|[k v] es IHes]; [constructor|].
      apply list.Forall_cons in IH as [IHv IH]. cbn [snd] in IHv.
      apply list.Forall_cons in Ht as [Hv Ht].
      cbn [Fs.prune_entries]. destruct (Fs.prune v) as [v'|] eqn:Hpv; [|by apply IHes].
      apply list.Forall_cons. split; [|by apply IHes].
      unfold tidy_entry in *. cbn [fst snd] in *.
      destruct v as [m d|t|es'].
      - by injection Hpv as <-.
      - by injection Hpv as <-.
      - pose proof (IHv (os_path_join top k) v' Hv eq_refl) as Hv'.
        rewrite prune_dir in Hpv. destruct (Fs.prune_entries es'); [done|].
        by injection Hpv as <-. }
    destruct (Fs.prune_entries es); [done|]. by injection Hp as <-.
Qed.

Lemma tidy_fixed manifest n :
  ∀ top, tidy manifest top n = true →
    clean_tree manifest top n = n ∧ orphans manifest top n = [].
Proof.
  induction n as [m d|t|es IH] using Fs.node_ind; intros top Ht; [done..|].
  rewrite clean_tree_dir, orphans_dir. apply tidy_dir in Ht.
  assert (clean_entries manifest top es = es
          ∧ orphans_here manifest top es = []
          ∧ orphans_below manifest top es = []) as (-> & -> & ->); [|done].
  induction es as [|[k v] es IHes]; [done|].
  apply list.Forall_cons in IH as [IHv IH]. cbn [snd] in IHv.
  apply list.Forall_cons in Ht as [Hv Ht].
  destruct (IHes IH Ht) as (Hc & Hh & Hb).
  unfold tidy_entry in Hv. cbn [fst snd] in Hv.
  unfold orphans_here, orphans_below in *.
  cbn [clean_entries List.filter map flat_map fst snd].
  destruct v as [m d|t|es'].
  - apply negb_true_iff in Hv. cbn [Fs.is_dir_node negb map List.filter fst].
    rewrite Hv, Hc, Hh, Hb. done.
  - apply negb_true_iff in Hv. cbn [Fs.is_dir_node negb map List.filter fst].
    rewrite Hv, Hc, Hh, Hb. done.
  - destruct (IHv _ Hv) as [Hcv Hov].
    cbn [Fs.is_dir_node negb flat_map fst snd]. rewrite Hcv, Hov, Hc, Hh, Hb. done.
Qed.

Lemma assoc_clean_entries manifest top k es :
  NoDup (map fst es) →
  Fs.assoc k (clean_entries manifest top es) =
  match Fs.assoc k es with
  | Some (Fs.Dir x) => Some (clean_tree manifest (os_path_join top k) (Fs.Dir x))
  | Some v => if orphaned manifest (os_path_join top k) then None else Some v
  | None => None
  end.
Proof.
  induction es as [|[k' v] es IH]; [done|]. cbn [map fst].
  intros [Hn Hnd]%list.NoDup_cons. cbn [clean_entries Fs.assoc].
  assert (Habs : k = k' → Fs.assoc k (clean_entries manifest top es) = None).
  { intros ->. apply assoc_absent. intros Hin.
    by apply Hn, (clean_entries_names manifest top). }
  destruct (String.eqb k k') eqn:Hk.
  - apply String.eqb_eq in Hk as Hk'. subst k'.
    destruct v; try destruct (orphaned manifest (os_path_join top k));
      cbn [Fs.assoc]; rewrite ?Hk; auto.
  - destruct v; try destruct (orphaned manifest (os_path_join top k'));
      cbn [Fs.assoc]; rewrite ?Hk; by apply IH.
Qed.

Lemma assoc_In {A} k (v : A) l : Fs.assoc k l = Some v → In (k, v) l.
Proof.
  induction l as [|[k' x] l IH]; [done|]. cbn [Fs.assoc].
  destruct (String.eqb k k') eqn:Hkk.
  - apply String.eqb_eq in Hkk as <-. intros [= ->]. by left.
  - right. by apply IH.
Qed.

Lemma clean_lookup_file manifest rel :
  ∀ n top m d,
    wf_tree n = true → rel ≠ [] →
    Fs.lookup rel n = Some (Fs.File m d) →
    Fs.lookup rel (clean_tree manifest top n) =
      if orphaned manifest (walk_path top rel) then None else Some (Fs.File m d).
Proof.
  induction rel as [|k rest IH]; intros n top m d Hwf Hne; [done|].
  destruct n as [| |es]; try done. cbn [Fs.lookup].
  destruct (Fs.assoc k es) as [v|] eqn:Hk; [|done]. intros Hl.
  apply wf_tree_dir in Hwf as [Hnd Hall]. rewrite Forall_forall in Hall.
  destruct (Hall _ (assoc_In _ _ _ Hk)) as [_ Hwfv]. cbn [snd] in Hwfv.
  rewrite clean_tree_dir. cbn [Fs.lookup].
  rewrite (assoc_clean_entries _ _ _ _ Hnd), Hk.
  destruct rest as [|k' rest'].
  - cbn [Fs.lookup] in Hl. injection Hl as ->. unfold walk_path. cbn [fold_left].
    by destruct (orphaned manifest (os_path_join top k)).
  - destruct v as [| |es']; try done.
    unfold walk_path. cbn [fold_left].
    apply (IH (Fs.Dir es') (os_path_join top k) m d); done.
Qed.

Lemma orphans_all_orphaned manifest n :
  ∀ top p, p ∈ orphans manifest top n → orphaned manifest p = true.
Proof.
  induction n as [m d|t|es IH] using Fs.node_ind; intros top p;
    [by intros ?%elem_of_nil..|].
  rewrite orphans_dir, elem_of_app. intros [Hin|Hin].
  - unfold orphans_here in Hin. by apply list_elem_of_In, filter_In in Hin as [_ ?].
  - unfold orphans_below in Hin. apply list_elem_of_In, in_flat_map in Hin as ([k v] & Hin & Hp).
    apply filter_In in Hin as [Hin _]. rewrite Forall_forall in IH.
    apply (IH _ Hin (os_path_join top k)). by apply list_elem_of_In.
Qed.

Lemma orphans_complete manifest rel :
  ∀ n top m d,
    Fs.lookup rel n = Some (Fs.File m d) → rel ≠ [] →
    orphaned manifest (walk_path top rel) = true →
    walk_path top rel ∈ orphans manifest top n.
Proof.
  induction rel as [|k rest IH]; intros n top m d Hl Hne Ho; [done|].
  destruct n as [| |es]; try done. cbn [Fs.lookup] in Hl.
  destruct (Fs.assoc k es) as [v|] eqn:Hk; [|done].
  apply assoc_In in Hk. rewrite orphans_dir, elem_of_app.
  destruct rest as [|k' rest'].
  - cbn [Fs.lookup] in Hl. injection Hl as ->. left.
    unfold orphans_here. apply list_elem_of_In, filter_In. split; [|done].
    apply in_map_iff. exists (k, Fs.File m d). split; [done|].
    by apply filter_In.
  - destruct v as [| |es']; try done. right.
    unfold orphans_below. apply list_elem_of_In, in_flat_map.
    exists (k, Fs.Dir es'). split; [by apply filter_In|].
    apply list_elem_of_In. cbn [fst snd].
    unfold walk_path in *. cbn [fold_left] in *.
    by apply (IH (Fs.Dir es') (os_path_join top k) m d).
Qed.

(** ** The run of the cleaner *)

Lemma resolve_absolute cwd p :
  startswith p "/" = true → Fs.resolve cwd p = Fs.resolve [] p.
Proof. intros H. unfold Fs.resolve. by rewrite H. Qed.

Lemma resolve_public root :
  Fs.resolve root "src/assets/.asset_manifest_public.json" = Some (root ++ public_manifest).
Proof.
  change (Some (((root ++ ["src"]) ++ ["assets"]) ++ [".asset_manifest_public.json"])
          = Some (root ++ public_manifest)).
  by rewrite <- !app_assoc.
Qed.

Lemma resolve_private root :
  Fs.resolve root "src/assets/.asset_manifest_private.json" = Some (root ++ private_manifest).
Proof.
  change (Some (((root ++ ["src"]) ++ ["assets"]) ++ [".asset_manifest_private.json"])
          = Some (root ++ private_manifest)).
  by rewrite <- !app_assoc.
Qed.

Lemma resolve_assets root :
  Fs.resolve root "build/assets" = Some (root ++ assets_dir).
Proof.
  change (Some ((root ++ ["build"]) ++ ["assets"]) = Some (root ++ assets_dir)).
  by rewrite <- !app_assoc.
Qed.

Lemma stat_pos_file fuel root pos m d :
  Fs.lookup pos root = Some (Fs.File m d) →
  Fs.stat_pos fuel root pos = Some (pos, Fs.File m d).
Proof. intros H. destruct fuel; simpl; by rewrite H. Qed.

Lemma lookup_height pos :
  ∀ root n, Fs.lookup pos root = Some n → (Fs.height n ≤ Fs.height root)%nat.
Proof.
  induction pos as [|c pos IH]; intros root n; [by intros [= ->]|].
  cbn [Fs.lookup]. destruct root as [| |es]; try done.
  destruct (Fs.assoc c es) as [v|] eqn:Hc; [|done]. intros Hl.
  specialize (IH _ _ Hl). apply assoc_In, list_elem_of_In in Hc.
  pose proof (height_entry _ _ _ Hc). lia.
Qed.

Lemma lookup_prefix_dir p q root n :
  q ≠ [] → Fs.lookup (p ++ q) root = Some n →
  ∃ es, Fs.lookup p root = Some (Fs.Dir es).
Proof.
  intros Hq. rewrite lookup_app. destruct (Fs.lookup p root) as [[| |es]|]; try done.
  - by destruct q.
  - by destruct q.
  - eauto.
Qed.

Lemma lookup_modify_diverge p c q c' q' f root :
  c ≠ c' →
  Fs.lookup (p ++ c :: q) (Fs.modify (p ++ c' :: q') f root)
  = Fs.lookup (p ++ c :: q) root.
Proof.
  intros Hne. rewrite modify_app, !lookup_app, lookup_modify.
  destruct (Fs.lookup p root) as [n|]; [|done]. cbn [fmap option_fmap option_map mbind option_bind].
  destruct n as [| |es]; try done. cbn [Fs.modify Fs.lookup].
  by rewrite assoc_alter_ne by done.
Qed.

Lemma lookup_modify_above p c q f root es :
  Fs.lookup p root = Some (Fs.Dir es) →
  ∃ es', Fs.lookup p (Fs.modify (p ++ c :: q) f root) = Some (Fs.Dir es').
Proof.
  intros Hl. rewrite modify_app, lookup_modify, Hl. cbn. eauto.
Qed.

Lemma lookup_below_removed pos rel root :
  pos ≠ [] → Fs.lookup (pos ++ rel) (Fs.remove pos root) = None.
Proof. intros Hne. by rewrite lookup_app, lookup_remove. Qed.

Lemma assets_dir_nonempty (root : Fs.path) : root ++ assets_dir ≠ [].
Proof. by destruct root. Qed.

Lemma clean_start E w root pub priv :
  manifests_ready E w root pub priv →
  clean_orphaned_assets E w =
    (for_walk "build/assets"
       (walk_body (list_to_set pub ∪ list_to_set priv)) ;;
     subprocess_run_shell E find_assets_cmd true ;;
     ret tt) (entered E root w).
Proof.
  intros (Hb & Habs & Hroot & (m1 & d1 & Hpub & Hj1) & (m2 & d2 & Hpriv & Hj2)).
  destruct (lookup_prefix_dir root public_manifest _ _ ltac:(done) Hpub)
    as [top_es Hrootdir].
  set (wa := entered E root w).
  assert (Hchdir : os_chdir (PROJROOT E) w = (Ok tt, wa)).
  { unfold os_chdir, Fs.stat.
    by rewrite (resolve_absolute _ _ Habs), Hroot, (stat_pos_dir _ _ _ _ Hrootdir). }
  assert (Hrj1 : read_json E "src/assets/.asset_manifest_public.json" wa = (Ok pub, wa)).
  { unfold read_json. rewrite bind_eq. unfold read_text, Fs.stat.
    change (cwd wa) with root. change (fs wa) with (fs w).
    by rewrite resolve_public, (stat_pos_file _ _ _ _ _ Hpub), Hj1. }
  assert (Hrj2 : read_json E "src/assets/.asset_manifest_private.json" wa = (Ok priv, wa)).
  { unfold read_json. rewrite bind_eq. unfold read_text, Fs.stat.
    change (cwd wa) with root. change (fs wa) with (fs w).
    by rewrite resolve_private, (stat_pos_file _ _ _ _ _ Hpriv), Hj2. }
  unfold clean_orphaned_assets. step_guard Hb.
  rewrite (bind_ok _ _ _ _ _ Hchdir).
  by rewrite (bind_ok _ _ _ _ _ Hrj1), (bind_ok _ _ _ _ _ Hrj2).
Qed.

Lemma clean_run E w root pub priv es :
  orphan_setup E w root pub priv es →
  let manifest : gset string := list_to_set pub ∪ list_to_set priv in
  ∃ w1,
    clean_orphaned_assets E w = (Ok tt, w1)
    ∧ fs w1 = swept_fs manifest (root ++ assets_dir) es (fs w)
    ∧ trace w1 =
        trace w
        ++ EvChdir (PROJROOT E)
           :: map EvUnlink (orphans manifest "build/assets" (Fs.Dir es))
        ++ [EvShell find_assets_cmd]
    ∧ batch w1 = false ∧ cwd w1 = root.
Proof.
  intros (Hready & Hassets & Hwf) manifest.
  rewrite (clean_start E w root pub priv Hready). fold manifest.
  destruct Hready as (Hb & _).
  set (wa := entered E root w).
  destruct (walk_ok manifest (S (Fs.height (fs wa))) es "build/assets"
              (root ++ assets_dir) wa) as (wb & Hrun & Hfs & Htr & Hsp).
  { done. }
  { pose proof (lookup_height _ _ _ Hassets). change (fs wa) with (fs w). lia. }
  { apply resolve_assets. }
  { exact Hassets. }
  destruct Hsp as (_ & Hbatch & _ & Hcwd & _).
  change (fs wa) with (fs w) in Hfs.
  change (trace wa) with (trace w ++ [EvChdir (PROJROOT E)]) in Htr.
  change (batch wa) with (batch w) in Hbatch. change (cwd wa) with root in Hcwd.
  set (cleaned := clean_tree manifest "build/assets" (Fs.Dir es)) in *.
  assert (Hcleaned : Fs.lookup (root ++ assets_dir) (fs wb) = Some cleaned).
  { rewrite Hfs. by rewrite (lookup_modify_const _ _ _ _ Hassets). }
  exists (set_fs (swept_fs manifest (root ++ assets_dir) es (fs w))
            (emit (EvShell find_assets_cmd) wb)).
  split; [|split; [done|split; [|split]]].
  - rewrite (bind_ok _ _ wa tt wb); [|exact Hrun].
    rewrite bind_eq. unfold subprocess_run_shell, run_shell_command.
    rewrite String.eqb_refl, Hcwd.
    rewrite resolve_assets. unfold Fs.find_delete_empty. rewrite Hcleaned.
    unfold swept_fs. fold cleaned. rewrite <- Hfs.
    subst cleaned. rewrite clean_tree_dir in *.
    destruct (Fs.prune (Fs.Dir (clean_entries manifest "build/assets" es))) as [n'|].
    + cbn. rewrite Hfs. by rewrite modify_again.
    + pose proof (assets_dir_nonempty root).
      destruct (root ++ assets_dir) eqn:Hp; [done|]. cbn. done.
  - cbn. rewrite Htr. by rewrite <- !app_assoc.
  - cbn. by rewrite Hbatch.
  - cbn. by rewrite Hcwd.
Qed.

Lemma valid_name_inv k :
  valid_name k = true → k ≠ "" ∧ has_char "/"%char k = false.
Proof.
  unfold valid_name. intros Hk. apply andb_prop in Hk as [Hk Hslash].
  apply andb_prop in Hk as [Hk _]. apply andb_prop in Hk as [Hk _].
  apply negb_true_iff in Hk, Hslash. by apply String.eqb_neq in Hk.
Qed.

Lemma app_eq_snoc a k t c :
  a +:+ k = t +:+ String c "" → k = "" ∨ ∃ k', k = k' +:+ String c "".
Proof.
  revert t. induction a as [|x a IH]; intros t.
  - change ("" +:+ k) with k. intros ->. right. by exists t.
  - rewrite string_app_cons. destruct t as [|y t].
    + change ("" +:+ String c "") with (String c "").
      intros [= _ H]. left. destruct a; [by destruct k|]. by rewrite string_app_cons in H.
    + rewrite string_app_cons. intros [= _ H]. by apply (IH t).
Qed.

Lemma has_char_snoc c k : has_char c (k +:+ String c "") = true.
Proof.
  induction k as [|x k IH].
  - change ("" +:+ String c "") with (String c ""). cbn [has_char].
    by rewrite Ascii.eqb_refl.
  - rewrite string_app_cons. cbn [has_char]. by rewrite IH, orb_true_r.
Qed.

Lemma endswith_after_name top k :
  valid_name k = true → endswith (top +:+ "/" +:+ k) "/" = false.
Proof.
  intros [Hne Hslash]%valid_name_inv.
  destruct (endswith (top +:+ "/" +:+ k) "/") eqn:He; [exfalso|done].
  destruct (endswith_slash_inv _ He) as [t Ht].
  rewrite <- string_app_assoc in Ht.
  destruct (app_eq_snoc _ _ _ _ Ht) as [->|[k' ->]]; [done|].
  by rewrite has_char_snoc in Hslash.
Qed.

Lemma os_path_join_valid top k :
  top ≠ "" → endswith top "/" = false → valid_name k = true →
  os_path_join top k = top +:+ "/" +:+ k.
Proof.
  intros Htop Hend Hk. unfold os_path_join.
  rewrite (valid_name_no_slash _ Hk), Hend.
  apply String.eqb_neq in Htop. by rewrite Htop.
Qed.

Lemma walk_path_join rel :
  ∀ top, top ≠ "" → endswith top "/" = false →
    Forall (fun k => valid_name k = true) rel → rel ≠ [] →
    walk_path top rel = top +:+ "/" +:+ join "/" rel.
Proof.
  induction rel as [|k rest IH]; intros top Htop Hend Hall Hne; [done|].
  apply list.Forall_cons in Hall as [Hk Hall].
  unfold walk_path. cbn [fold_left]. rewrite (os_path_join_valid _ _ Htop Hend Hk).
  destruct rest as [|k' rest']; [done|].
  fold (walk_path (top +:+ "/" +:+ k) (k' :: rest')).
  rewrite IH; [| |by apply endswith_after_name|done|done].
  - unfold join. cbn [String.concat]. by rewrite !string_app_assoc.
  - by destruct top.
Qed.

Lemma lookup_valid_names rel :
  ∀ n x, wf_tree n = true → Fs.lookup rel n = Some x →
    Forall (fun k => valid_name k = true) rel.
Proof.
  induction rel as [|k rest IH]; intros n x Hwf; [constructor|].
  destruct n as [| |es]; try done. cbn [Fs.lookup].
  destruct (Fs.assoc k es) as [v|] eqn:Hk; [|done]. intros Hl.
  apply wf_tree_dir in Hwf as [_ Hall]. rewrite Forall_forall in Hall.
  destruct (Hall _ (assoc_In _ _ _ Hk)) as [Hname Hv].
  apply list.Forall_cons. split; [done|]. by apply (IH v x).
Qed.

Lemma stripped_walk_path rel n x :
  wf_tree n = true → Fs.lookup rel n = Some x → rel ≠ [] →
  slice_from 13 (walk_path "build/assets" rel) = join "/" rel.
Proof.
  intros Hwf Hl Hne.
  rewrite walk_path_join; [done|done|done|by eapply lookup_valid_names|done].
Qed.

(** ** A second run of the cleaner *)

Lemma prune_dir_is_dir es n' : Fs.prune (Fs.Dir es) = Some n' → ∃ es', n' = Fs.Dir es'.
Proof.
  rewrite prune_dir. destruct (Fs.prune_entries es); [done|]. intros [= <-]. eauto.
Qed.

Lemma lookup_manifest_kept root (man : Fs.path) f fs0 c q :
  man = c :: q → c ≠ "build" →
  Fs.lookup (root ++ man) (Fs.modify (root ++ assets_dir) f fs0)
  = Fs.lookup (root ++ man) fs0.
Proof. intros -> Hne. by apply lookup_modify_diverge. Qed.

Lemma remove_assets root fs0 :
  Fs.remove (root ++ assets_dir) fs0
  = Fs.modify (root ++ ["build"]) (Fs.on_entries (Fs.remove_entry "assets")) fs0.
Proof.
  unfold assets_dir. change ["build"; "assets"] with (["build"] ++ ["assets"]).
  rewrite app_assoc. apply remove_snoc.
Qed.

Lemma manifests_ready_kept E w w1 root pub priv f :
  manifests_ready E w root pub priv →
  batch w1 = false →
  (fs w1 = Fs.modify (root ++ assets_dir) f (fs w)
   ∨ fs w1 = Fs.remove (root ++ assets_dir) (Fs.modify (root ++ assets_dir) f (fs w))) →
  manifests_ready E w1 root pub priv.
Proof.
  intros (Hb & Habs & Hroot & (m1 & d1 & Hpub & Hj1) & (m2 & d2 & Hpriv & Hj2)) Hb1 Hfs.
  assert (Hkeep : ∀ c q, c ≠ "build" →
            Fs.lookup (root ++ c :: q) (fs w1) = Fs.lookup (root ++ c :: q) (fs w)).
  { intros c q Hc. destruct Hfs as [-> | ->].
    - by apply lookup_modify_diverge.
    - rewrite remove_assets. change (root ++ ["build"]) with (root ++ "build" :: []).
      rewrite lookup_modify_diverge by done. by apply lookup_modify_diverge. }
  split; [done|]. split; [done|]. split; [done|]. split.
  - exists m1, d1. split; [|done]. unfold public_manifest in *. by rewrite Hkeep.
  - exists m2, d2. split; [|done]. unfold private_manifest in *. by rewrite Hkeep.
Qed.

Lemma prune_entries_some es :
  Fs.prune_entries es ≠ [] →
  ∃ k v v', (k, v) ∈ es ∧ Fs.prune v = Some v'.
Proof.
  induction es as [|[k v] es IH]; [done|]. cbn [Fs.prune_entries].
  destruct (Fs.prune v) as [v'|] eqn:Hv.
  - intros _. exists k, v, v'. split; [by left|done].
  - intros Hne. destruct (IH Hne) as (k0 & v0 & v0' & Hin & Hp).
    exists k0, v0, v0'. split; [by right|done].
Qed.

Lemma prune_some_file n :
  wf_tree n = true → ∀ n', Fs.prune n = Some n' →
  ∃ rel m d, Fs.lookup rel n = Some (Fs.File m d).
Proof.
  induction n as [m d|t|es IH] using Fs.node_ind; intros Hwf n' Hp.
  - by exists [], m, d.
  - discriminate Hwf.
  - rewrite prune_dir in Hp. apply wf_tree_dir in Hwf as [Hnd Hall].
    destruct (prune_entries_some es) as (k & v & v' & Hin & Hv).
    { by destruct (Fs.prune_entries es). }
    rewrite Forall_forall in IH, Hall.
    pose proof (proj1 (list_elem_of_In _ _) Hin) as Hin'.
    destruct (Hall _ Hin') as [_ Hwfv]. cbn [snd] in Hwfv.
    destruct (IH _ Hin' Hwfv v' Hv) as (rel & m & d & Hl).
    exists (k :: rel), m, d. cbn [Fs.lookup].
    by rewrite (In_assoc _ _ _ Hnd Hin).
Qed.

Lemma clean_file_inv manifest rel :
  ∀ n top m d,
    wf_tree n = true → rel ≠ [] →
    Fs.lookup rel (clean_tree manifest top n) = Some (Fs.File m d) →
    Fs.lookup rel n = Some (Fs.File m d)
    ∧ orphaned manifest (walk_path top rel) = false.
Proof.
  induction rel as [|k rest IH]; intros n top m d Hwf Hne; [done|].
  destruct n as [| |es]; try done.
  apply wf_tree_dir in Hwf as [Hnd Hall]. rewrite Forall_forall in Hall.
  rewrite clean_tree_dir. cbn [Fs.lookup].
  rewrite (assoc_clean_entries _ _ _ _ Hnd).
  destruct (Fs.assoc k es) as [v|] eqn:Hk; [|done].
  destruct (Hall _ (assoc_In _ _ _ Hk)) as [_ Hwfv]. cbn [snd] in Hwfv.
  unfold walk_path. cbn [fold_left].
  destruct v as [m' d'|t|es'].
  - destruct (orphaned manifest (os_path_join top k)) eqn:Ho; [done|].
    destruct rest; [|done]. cbn [Fs.lookup fold_left]. by intros [= -> ->].
  - discriminate Hwfv.
  - intros Hl. destruct rest as [|k' rest']; [done|].
    by apply (IH (Fs.Dir es') (os_path_join top k) m d).
Qed.

Lemma prune_clean_kept manifest es :
  wf_tree (Fs.Dir es) = true →
  (is_Some (Fs.prune (clean_tree manifest "build/assets" (Fs.Dir es))) ↔
   ∃ rel m d, Fs.lookup rel (Fs.Dir es) = Some (Fs.File m d)
              ∧ slice_from 13 (walk_path "build/assets" rel) ∈ manifest).
Proof.
  intros Hwf. split.
  - intros [n' Hp].
    destruct (prune_some_file _ (wf_clean_tree manifest _ "build/assets" Hwf) _ Hp)
      as (rel & m & d & Hl).
    assert (Hne : rel ≠ []).
    { intros ->. by rewrite clean_tree_dir in Hl. }
    destruct (clean_file_inv _ _ _ _ _ _ Hwf Hne Hl) as [Hl' Ho].
    exists rel, m, d. split; [done|].
    unfold orphaned in Ho. apply bool_decide_eq_false in Ho.
    by apply dec_stable.
  - intros (rel & m & d & Hl & Hin).
    assert (Hne : rel ≠ []) by (by intros ->).
    pose proof (clean_lookup_file manifest rel _ "build/assets" m d Hwf Hne Hl) as Hc.
    unfold orphaned in Hc. rewrite bool_decide_eq_false_2 in Hc by auto.
    destruct (prune_keeps_file _ _ _ _ Hc) as (n' & Hp & _). by exists n'.
Qed.

(** ** Arguments of the path translation *)

Lemma guarded_commands_refuse_batch E w c :
  batch w = true → c ∈ guarded_commands E →
  c w = (Raise (CleanError (batch_error E)), w).
Proof.
  intros Hb Hc. unfold guarded_commands in Hc.
  repeat (apply elem_of_cons in Hc as [-> | Hc]);
    [ .. | by apply elem_of_nil in Hc ];
    match goal with |- ?c _ _ = _ => unfold c end; by step_guard Hb.
Qed.

Lemma wsl_parse_many args c e p w :
  (2 ≤ List.length (path_args args) + (match p : option string with Some _ => 1 | None => 0 end))%nat →
  wsl_parse_args args c e p w =
    (Raise (CleanError "More than one path provided."), w).
Proof.
  revert c e p. induction args as [|a args IH]; intros c e p Hn.
  - destruct p; simpl in Hn; lia.
  - simpl. simpl in Hn. unfold is_flag in Hn.
    destruct (String.eqb a "--create") eqn:Hc; simpl in Hn.
    { apply IH. exact Hn. }
    destruct (String.eqb a "--escape") eqn:He; simpl in Hn.
    { apply IH. exact Hn. }
    destruct p as [x|]; [reflexivity|].
    apply IH. simpl. lia.
Qed.

Lemma wsl_parse_none args c e w :
  path_args args = [] →
  ∃ c' e', wsl_parse_args args c e None w = (Ok (c', e', None), w).
Proof.
  revert c e. induction args as [|a args IH]; intros c e Hn.
  - by exists c, e.
  - simpl. simpl in Hn. unfold is_flag in Hn.
    destruct (String.eqb a "--create") eqn:Hc; simpl in Hn.
    { by apply IH. }
    destruct (String.eqb a "--escape") eqn:He; simpl in Hn.
    { by apply IH. }
    discriminate Hn.
Qed.

Lemma wsl_guarded_wrong_count E w :
  List.length (path_args (drop 2 (argv w))) ≠ 1 →
  ∃ msg, wsl_path_to_win_guarded E w = (Raise (CleanError msg), w).
Proof.
  intros Hn. unfold wsl_path_to_win_guarded.
  rewrite bind_eq. unfold get_argv.
  destruct (List.length (argv w) <? 3)%nat eqn:Hlen; [by eexists|].
  rewrite bind_eq.
  destruct (path_args (drop 2 (argv w))) as [|x [|y l]] eqn:Hp.
  - destruct (wsl_parse_none (drop 2 (argv w)) false false w Hp)
      as (c' & e' & ->). by eexists.
  - by simpl in Hn.
  - rewrite wsl_parse_many; [by eexists|]. rewrite Hp. simpl. lia.
Qed.

Lemma wsl_path_to_win_caught E w w1 e :
  batch w = false →
  wsl_path_to_win_guarded E w = (Raise e, w1) →
  is_Exception e = true →
  wsl_path_to_win E w = (Ok tt, sentinel_world e w1).
Proof.
  intros Hb Hg He. unfold wsl_path_to_win. step_guard Hb.
  rewrite bind_eq. unfold try_except. rewrite bind_eq, Hg, He. reflexivity.
Qed.

Lemma wsl_parse_cases args c e p w :
  (∃ v, wsl_parse_args args c e p w = (Ok v, w))
  ∨ wsl_parse_args args c e p w =
      (Raise (CleanError "More than one path provided."), w).
Proof.
  revert c e p. induction args as [|a args IH]; intros c e p; simpl.
  - left. by eexists.
  - repeat case_match; auto.
Qed.

Lemma os_makedirs_cases p w :
  (∃ f, os_makedirs p w = (Ok tt, set_fs f (emit (EvMakedirs p) w)))
  ∨ os_makedirs p w = (Raise (OSError "mkdir" p), emit (EvMakedirs p) w).
Proof. unfold os_makedirs. repeat case_match; eauto. Qed.

Lemma wsl_guarded_raises E w w1 e :
  wsl_path_to_win_guarded E w = (Raise e, w1) →
  is_Exception e = true ∧ stdout w1 = stdout w ∧ logged w1 = logged w.
Proof.
  unfold wsl_path_to_win_guarded. rewrite bind_eq. unfold get_argv.
  case_match; [unfold raise; intros [= <- <-]; done|].
  rewrite bind_eq.
  destruct (wsl_parse_cases (drop 2 (argv w)) false false None w)
    as [[v Hv] | Hv]; rewrite Hv; [|intros [= <- <-]; done].
  destruct v as [[cr es] [p|]]; [|unfold raise; intros [= <- <-]; done].
  rewrite bind_eq.
  assert (∀ w2, stdout w2 = stdout w → logged w2 = logged w →
    (present ← os_path_exists p;
     if negb present
     then raise (CleanError ("Path '" +:+ p +:+ "' does not exist."))
     else results ← subprocess_run E ["wslpath"; "-w"; "-a"; p] None true;
          ret (results, p, es)) w2 = (Raise e, w1) →
    is_Exception e = true ∧ stdout w1 = stdout w ∧ logged w1 = logged w) as Hrest.
  { intros w2 Hs Hl. rewrite bind_eq. unfold os_path_exists.
    case_match; simpl; [unfold raise; intros [= <- <-]; simpl; done|].
    rewrite bind_eq.
    destruct (subprocess_run_cases E ["wslpath"; "-w"; "-a"; p] None true w2)
      as [(r & f & ->) | [(rc & f & ->) | ->]]; unfold ret;
      intros [= <- <-]; done. }
  destruct cr.
  - destruct (os_makedirs_cases p w) as [[f ->] | ->].
    + apply Hrest; done.
    + intros [= <- <-]; done.
  - apply Hrest; done.
Qed.

(** ** The sorted module names *)

Lemma pymodulenames_sorted featuresets :
  Sorted String.le (Header.pymodulenames featuresets).
Proof. unfold Header.pymodulenames. apply Sorted_merge_sort; apply _. Qed.

Lemma pymodulenames_perm featuresets :
  Header.pymodulenames featuresets ≡ₚ
  map name_python_binary_module
    (filter (fun f => has_python_binary_module f = true) featuresets).
Proof. unfold Header.pymodulenames. apply merge_sort_Permutation. Qed.

(** * The properties of the specification *)

(** ** C1: the order of the module names *)

(** C1, as the code has it: the names of the feature sets that provide a
    binary module are sorted with Python's [sorted], that is by code point,
    and both the forward declarations and the registration calls are made
    from that one sorted list.  For the feature sets [zeta], [alpha] and
    [_baplus] the order is [_baplus], [alpha], [zeta]: the underscore (code
    point 95) comes before the lower-case letters. *)
Theorem C1_names_sorted_in_both_blocks :
  (∀ featuresets : list FeatureSet,
     ∃ names : list string,
       Sorted String.le names
       ∧ names ≡ₚ map name_python_binary_module
                    (filter (fun f => has_python_binary_module f = true) featuresets)
       ∧ Header.header_text featuresets =
           strip
             (replace
                (replace
                   (replace (textwrap_dedent Header.base_code)
                      "${EXTERN_DEF_CODE}"
                      (join nl (map Header.extern_def_line names)))
                   "${PY_REGISTER_CODE}"
                   (textwrap_indent (join nl (map Header.py_register_line names)) "    "))
                "${PY_INIT_PLUS}" (Header.init_plus_code names))
           +:+ nl)
  ∧ Header.pymodulenames example_featuresets = ["_baplus"; "alpha"; "zeta"]
  ∧ Header.extern_def_code (Header.pymodulenames example_featuresets) =
      "auto DoPyInit__baplus() -> PyObject*;" +:+ nl
      +:+ "auto PyInit_alpha() -> PyObject*;" +:+ nl
      +:+ "auto PyInit_zeta() -> PyObject*;"
  ∧ Header.py_register_code (Header.pymodulenames example_featuresets) =
      "PyImport_AppendInittab(" +:+ dq +:+ "_baplus" +:+ dq +:+ ", &DoPyInit__baplus);" +:+ nl
      +:+ "PyImport_AppendInittab(" +:+ dq +:+ "alpha" +:+ dq +:+ ", &PyInit_alpha);" +:+ nl
      +:+ "PyImport_AppendInittab(" +:+ dq +:+ "zeta" +:+ dq +:+ ", &PyInit_zeta);".
Proof.
  split; [|repeat split; vm_compute; reflexivity].
  intros featuresets. exists (Header.pymodulenames featuresets).
  split; [apply pymodulenames_sorted|].
  split; [apply pymodulenames_perm|]. reflexivity.
Qed.

(** C1, the order given in the specification: [alpha], [zeta], [_baplus]
    is not the order of the generated header, in neither block, and it is
    not sorted. *)
Lemma C1_claimed_order_refuted :
  Header.pymodulenames example_featuresets <> ["alpha"; "zeta"; "_baplus"]
  ∧ Header.extern_def_code (Header.pymodulenames example_featuresets)
    <> Header.extern_def_code ["alpha"; "zeta"; "_baplus"]
  ∧ Header.py_register_code (Header.pymodulenames example_featuresets)
    <> Header.py_register_code ["alpha"; "zeta"; "_baplus"]
  ∧ ¬ Sorted String.le ["alpha"; "zeta"; "_baplus"].
Proof.
  repeat split; try (vm_compute; intros H; discriminate H).
  intros H. inversion H as [|? ? H1 H2]; subst.
  inversion H1 as [|? ? H3 H4]; subst.
  inversion H4 as [|? ? H5]; subst.
  vm_compute in H5. destruct H5.
Qed.

(** ** C2: the batch guard *)

(** C2: under batch dispatch [spinoff_test] does not raise: it hands the
    arguments to [batools.spinoff.spinoff_test] as it does outside of batch
    dispatch.  Each of the other twelve commands raises the clean error of
    the guard and leaves the state as it found it. *)
Theorem C2_spinoff_test_runs_under_batch (E : Env) (w : World) :
  batch w = true →
  spinoff_test E w =
    collaborator E "batools.spinoff.spinoff_test" (map AStr (drop 2 (argv w)))
      (emit (EvCall "batools.spinoff.spinoff_test") w)
  ∧ ∀ c, c ∈ guarded_commands E → c w = (Raise (CleanError (batch_error E)), w).
Proof.
  intros Hb. split; [reflexivity|].
  intros c Hc. by apply guarded_commands_refuse_batch.
Qed.

Lemma C2_spinoff_test_runs_under_batch_witness :
  batch Demo.batch_world = true
  ∧ spinoff_test Demo.env Demo.batch_world =
      (Ok tt, emit (EvCall "batools.spinoff.spinoff_test") Demo.batch_world)
  ∧ clean_orphaned_assets Demo.env Demo.batch_world =
      (Raise (CleanError (batch_error Demo.env)), Demo.batch_world).
Proof.
  destruct (C2_spinoff_test_runs_under_batch Demo.env Demo.batch_world eq_refl)
    as [Hrun Hguard].
  split; [reflexivity|]. split; [exact Hrun|].
  apply Hguard. unfold guarded_commands.
  do 2 (apply elem_of_cons; right). apply elem_of_cons. by left.
Defined.

(** ** C3: the argument count *)

(** The commands that take no arguments run the same whatever
    [sys.argv] holds. *)

Lemma blind_ret {A} (x : A) : argv_blind (ret x).
Proof. done. Qed.

Lemma blind_raise {A} e : argv_blind (@raise A e).
Proof. done. Qed.

Lemma blind_bind {A B} (m : M A) (k : A → M B) :
  argv_blind m → (∀ x, argv_blind (k x)) → argv_blind (m ≫= k).
Proof.
  intros Hm Hk a w. rewrite !bind_eq, Hm.
  destruct (m w) as [[x| |] w1]; cbn [fst snd]; [apply Hk|done..].
Qed.

Lemma blind_for_each {A} (l : list A) (body : A → M unit) :
  (∀ x, argv_blind (body x)) → argv_blind (for_each l body).
Proof.
  intros Hb. induction l as [|x l IH]; cbn [for_each]; [done|].
  apply blind_bind; [apply Hb|by intros _].
Qed.

Lemma blind_state_read {A} (f : World → A) :
  (∀ a w, f (set_argv a w) = f w) → argv_blind (fun w => (Ok (f w), w)).
Proof. intros H a w. cbn. by rewrite H. Qed.

Lemma blind_guard E : argv_blind (disallow_in_batch E).
Proof. intros a w. unfold disallow_in_batch. cbn. by destruct (batch w). Qed.

Lemma blind_print s : argv_blind (print s).
Proof. done. Qed.

Lemma blind_chdir p : argv_blind (os_chdir p).
Proof.
  intros a w. unfold os_chdir. cbn [fs cwd set_argv].
  by destruct (Fs.stat _ _ _) as [[pos [| |]]|].
Qed.

Lemma blind_read_text p : argv_blind (read_text p).
Proof.
  intros a w. unfold read_text. cbn [fs cwd set_argv].
  by destruct (Fs.stat _ _ _) as [[pos [| |]]|].
Qed.

Lemma blind_of_option {A} (o : option A) e : argv_blind (of_option o e).
Proof. by destruct o. Qed.

Lemma blind_read_json E p : argv_blind (read_json E p).
Proof.
  apply blind_bind; [apply blind_read_text|]. intros d. apply blind_of_option.
Qed.

Lemma blind_unlink p : argv_blind (os_unlink p).
Proof.
  intros a w. unfold os_unlink. cbn [fs cwd set_argv].
  destruct (Fs.resolve _ _) as [pos|]; [|done].
  by destruct (Fs.lookup _ _) as [[| |]|].
Qed.

Lemma blind_call E callee args :
  argv_blind_env E → argv_blind (call E callee args).
Proof.
  intros (Hc & _) a w. unfold call.
  exact (Hc callee args a (emit (EvCall callee) w)).
Qed.

Lemma blind_subprocess_run E args c chk :
  argv_blind_env E → argv_blind (subprocess_run E args c chk).
Proof.
  intros (_ & Ht & _) a w. unfold subprocess_run.
  assert (Hp : run_program E args c (set_argv a w) = run_program E args c w).
  { unfold run_program. cbn [cwd fs set_argv].
    repeat case_match; try done; apply Ht. }
  rewrite Hp. destruct (run_program E args c w) as [[[rc out] f]|]; [|done].
  by destruct (chk && negb (rc =? 0)%Z).
Qed.

Lemma blind_subprocess_run_shell E cmd chk :
  argv_blind_env E → argv_blind (subprocess_run_shell E cmd chk).
Proof.
  intros (_ & _ & Hs & _) a w. unfold subprocess_run_shell.
  assert (Hp : run_shell_command E cmd (set_argv a w) = run_shell_command E cmd w).
  { unfold run_shell_command. destruct (String.eqb cmd find_assets_cmd); [done|].
    apply Hs. }
  rewrite Hp. destruct (run_shell_command E cmd w) as [rc f].
  by destruct (chk && negb (rc =? 0)%Z).
Qed.

Lemma blind_os_walk k body :
  (∀ r d f, argv_blind (body r d f)) → ∀ top, argv_blind (os_walk k top body).
Proof.
  intros Hb. induction k as [|k IH]; intros top a w; cbn [os_walk]; [done|].
  change (scandir (set_argv a w) top) with (scandir w top).
  destruct (scandir w top) as [[pos es]|]; [|done].
  change (entry_is_dir (set_argv a w) pos) with (entry_is_dir w pos).
  refine (blind_bind _ _ _ _ a w); [apply Hb|].
  intros _. apply blind_for_each. intros d.
  apply blind_bind; [by apply blind_state_read|].
  intros []; [apply blind_ret|apply IH].
Qed.

Lemma blind_for_walk top body :
  (∀ r d f, argv_blind (body r d f)) → argv_blind (for_walk top body).
Proof. intros Hb a w. unfold for_walk. by apply blind_os_walk. Qed.

Lemma blind_clean_orphaned_assets E :
  argv_blind_env E → argv_blind (clean_orphaned_assets E).
Proof.
  intros HE. unfold clean_orphaned_assets.
  apply blind_bind; [apply blind_guard|]. intros _.
  apply blind_bind; [apply blind_chdir|]. intros _.
  apply blind_bind; [apply blind_read_json|]. intros pub.
  apply blind_bind; [apply blind_read_json|]. intros priv.
  apply blind_bind.
  - apply blind_for_walk. intros r d f. apply blind_for_each. intros x.
    unfold remove_if_orphaned. case_match; [|apply blind_ret].
    apply blind_bind; [apply blind_print|]. intros _. apply blind_unlink.
  - intros _. apply blind_bind; [by apply blind_subprocess_run_shell|].
    intros _. apply blind_ret.
Qed.

Lemma blind_win_ci_install_prereqs E :
  argv_blind_env E → argv_blind (win_ci_install_prereqs E).
Proof.
  intros HE. unfold win_ci_install_prereqs.
  apply blind_bind; [apply blind_guard|]. intros _.
  apply blind_bind; [apply blind_read_json|]. intros pub.
  apply blind_bind; [apply blind_read_json|]. intros priv.
  apply blind_bind; [by apply blind_state_read|]. intros b.
  apply blind_for_each. intros t. by apply blind_call.
Qed.

Lemma blind_win_ci_binary_build E :
  argv_blind_env E → argv_blind (win_ci_binary_build E).
Proof.
  intros HE. unfold win_ci_binary_build.
  apply blind_bind; [apply blind_guard|]. intros _.
  apply blind_bind; [by apply blind_subprocess_run|]. intros _. apply blind_ret.
Qed.

Lemma blind_spinoff_check_submodule_parent E :
  argv_blind (spinoff_check_submodule_parent E).
Proof.
  unfold spinoff_check_submodule_parent.
  apply blind_bind; [apply blind_guard|]. intros _.
  apply blind_bind; [by apply blind_state_read|].
  intros []; cbn [negb]; [|apply blind_raise].
  apply blind_bind; [by apply blind_state_read|].
  intros []; cbn [negb]; [|apply blind_raise].
  apply blind_bind; [by apply blind_state_read|].
  intros []; cbn [negb]; [apply blind_ret|apply blind_raise].
Qed.

Lemma blind_tests_warm_start E :
  argv_blind_env E → argv_blind (tests_warm_start E).
Proof.
  intros HE. unfold tests_warm_start.
  apply blind_bind; [apply blind_guard|]. intros _.
  apply blind_bind; [apply blind_state_read, HE|].
  intros []; cbn [negb]; [apply blind_ret|by apply blind_call].
Qed.

Lemma blind_wsl_build_check_win_drive E :
  argv_blind_env E → argv_blind (wsl_build_check_win_drive E).
Proof.
  intros HE. unfold wsl_build_check_win_drive.
  apply blind_bind; [apply blind_guard|]. intros _.
  apply blind_bind; [by apply blind_subprocess_run|]. intros which.
  case_match; [apply blind_raise|].
  apply blind_bind; [by apply blind_state_read|]. intros ign.
  case_match; [apply blind_ret|].
  apply blind_bind; [by apply blind_state_read|]. intros here.
  apply blind_bind; [by apply blind_subprocess_run|]. intros res.
  apply blind_bind; [apply blind_of_option|]. intros dec.
  case_match; [apply blind_ret|apply blind_raise].
Qed.

Lemma blind_argless_commands E m :
  argv_blind_env E → m ∈ argless_commands E → argv_blind m.
Proof.
  intros HE Hm. unfold argless_commands in Hm.
  repeat (apply elem_of_cons in Hm as [->|Hm]);
    [by apply blind_clean_orphaned_assets
    |by apply blind_win_ci_install_prereqs
    |by apply blind_win_ci_binary_build
    |by apply blind_spinoff_check_submodule_parent
    |by apply blind_tests_warm_start
    |by apply blind_wsl_build_check_win_drive
    |by apply elem_of_nil in Hm].
Qed.

Lemma demo_env_blind : argv_blind_env Demo.env.
Proof.
  split; [done|]. split; [|done].
  intros args c a w. unfold Demo.env, run_tool, Demo.tools.
  repeat case_match; reflexivity.
Qed.

(** C3, as the code has it: outside of batch dispatch, the four commands
    that count their arguments raise a clean error before anything else has
    happened when the count is wrong; [py_examine] prints a line and exits
    with status 255; [wsl_path_to_win], given no path or several, logs the
    clean error, prints the sentinel and returns normally.  The six
    commands that take no arguments do not look at [sys.argv]: as long as
    the code they call outside this module does not either, they end the
    same way and in the same state with any other argument list.
    [spinoff_test] hands on whatever follows the command name. *)
Theorem C3_wrong_arg_count_rejected_first (E : Env) (w : World) :
  batch w = false →
  (List.length (argv w) ≠ 3 →
     gen_monolithic_register_modules E w =
       (Raise (CleanError "Expected 1 arg."), w))
  ∧ (List.length (argv w) ≠ 5 →
     update_cmake_prefab_lib E w =
       (Raise (CleanError
                 "Expected 3 args (standard/server, debug/release, build-dir)"), w))
  ∧ (List.length (argv w) ≠ 4 →
     android_archive_unstripped_libs E w =
       (Raise (CleanError "Expected 2 args; src-dir and dst-dir"), w))
  ∧ (List.length (argv w) ≠ 3 →
     gen_python_init_module E w =
       (Raise (CleanError "Expected an outfile arg."), w))
  ∧ (List.length (argv w) ≠ 7 →
     py_examine E w =
       (Raise (SystemExit 255),
        set_stdout (stdout w +:+ "ERROR: expected 7 args" +:+ nl) w))
  ∧ (List.length (path_args (drop 2 (argv w))) ≠ 1 →
     ∃ msg, wsl_path_to_win E w = (Ok tt, sentinel_world (CleanError msg) w))
  ∧ (argv_blind_env E →
     ∀ m : M unit, m ∈ argless_commands E →
       ∀ a : list string,
         m (set_argv a w) = (fst (m w), set_argv a (snd (m w))))
  ∧ spinoff_test E w =
      collaborator E "batools.spinoff.spinoff_test"
        (map AStr (drop 2 (argv w)))
        (emit (EvCall "batools.spinoff.spinoff_test") w).
Proof.
  intros Hb.
  do 6 (split; [intros Hn;
    try (match goal with |- ?c _ _ = _ => unfold c end;
         step_guard Hb; rewrite bind_eq; unfold get_argv;
         apply Nat.eqb_neq in Hn; rewrite Hn; reflexivity)|]).
  - destruct (wsl_guarded_wrong_count E w Hn) as [msg Hg].
    exists msg. by apply wsl_path_to_win_caught.
  - split; [|reflexivity].
    intros HE m Hm a. by apply (blind_argless_commands E m HE Hm).
Qed.

Lemma C3_wrong_arg_count_rejected_first_witness :
  batch Demo.no_args_world = false
  ∧ gen_monolithic_register_modules Demo.env Demo.no_args_world =
      (Raise (CleanError "Expected 1 arg."), Demo.no_args_world)
  ∧ android_archive_unstripped_libs Demo.env Demo.no_args_world =
      (Raise (CleanError "Expected 2 args; src-dir and dst-dir"),
       Demo.no_args_world)
  ∧ fst (py_examine Demo.env Demo.no_args_world) = Raise (SystemExit 255)
  ∧ (∃ msg, wsl_path_to_win Demo.env Demo.no_args_world =
              (Ok tt, sentinel_world (CleanError msg) Demo.no_args_world))
  ∧ argv_blind_env Demo.env
  ∧ clean_orphaned_assets Demo.env
      (set_argv ["pcommand"; "clean_orphaned_assets"; "surplus"]
         Demo.no_args_world) =
      (fst (clean_orphaned_assets Demo.env Demo.no_args_world),
       set_argv ["pcommand"; "clean_orphaned_assets"; "surplus"]
         (snd (clean_orphaned_assets Demo.env Demo.no_args_world))).
Proof.
  destruct (C3_wrong_arg_count_rejected_first Demo.env Demo.no_args_world eq_refl)
    as (Hgen & _ & Harchive & _ & Hexamine & Hwsl & Hblind & _).
  split; [reflexivity|].
  split; [apply Hgen; vm_compute; lia|].
  split; [apply Harchive; vm_compute; lia|].
  split; [rewrite Hexamine; [reflexivity|vm_compute; lia]|].
  split; [apply Hwsl; vm_compute; lia|].
  split; [exact demo_env_blind|].
  apply (Hblind demo_env_blind). apply elem_of_cons. by left.
Defined.

(** C3, against the specification: with no path argument [wsl_path_to_win] returns
    normally, the sentinel on standard output; [py_examine] exits with
    status 255, which is no clean error; and [clean_orphaned_assets], which
    takes no argument, runs and deletes the orphaned file when it is given
    one. *)
Lemma C3_miscounted_arguments_not_always_rejected :
  wsl_path_to_win Demo.env Demo.no_args_world =
    (Ok tt,
     sentinel_world (CleanError "Expected at least 1 path arg.")
       Demo.no_args_world)
  ∧ stdout (snd (wsl_path_to_win Demo.env Demo.no_args_world)) =
      "wsl_to_escaped_win_path_error_occurred"
  ∧ fst (py_examine Demo.env Demo.no_args_world) = Raise (SystemExit 255)
  ∧ List.length (argv Demo.extra_arg_world) = 3
  ∧ fst (clean_orphaned_assets Demo.env Demo.extra_arg_world) = Ok tt
  ∧ trace (snd (clean_orphaned_assets Demo.env Demo.extra_arg_world)) =
      [EvChdir "/proj"; EvUnlink "build/assets/b/y.png";
       EvShell "find build/assets -depth -empty -type d -delete"].
Proof. repeat split; vm_compute; reflexivity. Qed.

(** ** C4: the init functions and the forwarding block *)

(** The header, part by part: the template is filled in three
    replacements, stripped, and ended with one line feed. *)

Lemma string_length_rev_app s acc :
  String.length (String.rev_app s acc) = String.length s + String.length acc.
Proof.
  revert acc. induction s as [|c s IH]; intros acc; [done|].
  cbn [String.rev_app String.length]. rewrite IH. cbn [String.length]. lia.
Qed.

Lemma all_chars_app p a b :
  all_chars p (a +:+ b) = all_chars p a && all_chars p b.
Proof.
  induction a as [|c a IH]; [done|]. rewrite string_app_cons.
  cbn [all_chars]. by rewrite IH, andb_assoc.
Qed.

Lemma header_safe_no_dollar s : header_safe s = true → has_char "$" s = false.
Proof.
  induction s as [|c s IH]; [done|]. cbn [header_safe all_chars has_char].
  intros [Hc Hs]%andb_prop. rewrite (IH Hs), orb_false_r.
  unfold header_safe_char in Hc. cbn [existsb] in Hc.
  apply negb_true_iff, orb_false_elim in Hc as [Hc _]. exact Hc.
Qed.

Lemma replace_go_pass c old new X S :
  has_char c X = false →
  replace_go (String c old) new 0 (X +:+ S) =
    X +:+ replace_go (String c old) new 0 S.
Proof.
  induction X as [|x X IH]; [done|]. cbn [has_char].
  intros [Hx HX]%orb_false_elim. rewrite string_app_cons.
  cbn [replace_go].
  change (String.prefix (String c old) (String x (X +:+ S)))
    with (if ascii_dec c x then String.prefix old (X +:+ S) else false).
  destruct (ascii_dec c x) as [->|_]; [by rewrite Ascii.eqb_refl in Hx|].
  by rewrite (IH HX).
Qed.

(** The dedented template, cut at the three placeholders. *)

Lemma dedented_template :
  textwrap_dedent Header.base_code =
    String nlc tpl_top +:+ "${EXTERN_DEF_CODE}" +:+ tpl_middle
    +:+ "${PY_REGISTER_CODE}" +:+ tpl_else +:+ "${PY_INIT_PLUS}" +:+ tpl_bottom.
Proof. vm_compute. reflexivity. Qed.

Lemma fill_extern X :
  replace_go "${EXTERN_DEF_CODE}" X 0
    ("${EXTERN_DEF_CODE}" +:+ tpl_middle +:+ "${PY_REGISTER_CODE}" +:+ tpl_else
     +:+ "${PY_INIT_PLUS}" +:+ tpl_bottom) =
  X +:+ tpl_middle +:+ "${PY_REGISTER_CODE}" +:+ tpl_else
  +:+ "${PY_INIT_PLUS}" +:+ tpl_bottom.
Proof. vm_compute. reflexivity. Qed.

Lemma fill_register Y :
  replace_go "${PY_REGISTER_CODE}" Y 0
    ("${PY_REGISTER_CODE}" +:+ tpl_else +:+ "${PY_INIT_PLUS}" +:+ tpl_bottom) =
  Y +:+ tpl_else +:+ "${PY_INIT_PLUS}" +:+ tpl_bottom.
Proof. vm_compute. reflexivity. Qed.

Lemma fill_init_plus Z :
  replace_go "${PY_INIT_PLUS}" Z 0 ("${PY_INIT_PLUS}" +:+ tpl_bottom) =
  Z +:+ tpl_bottom.
Proof. vm_compute. reflexivity. Qed.

Lemma template_parts_no_dollar :
  has_char "$" (String nlc tpl_top) = false
  ∧ has_char "$" tpl_middle = false
  ∧ has_char "$" tpl_else = false.
Proof. repeat split; vm_compute; reflexivity. Qed.

Lemma fill_frame (t m e b p1 p2 p3 o1 o2 o3 X Y Z : string) :
  p1 = String "$" o1 → p2 = String "$" o2 → p3 = String "$" o3 →
  has_char "$" t = false → has_char "$" m = false → has_char "$" e = false →
  has_char "$" X = false → has_char "$" Y = false →
  replace_go p1 X 0 (p1 +:+ m +:+ p2 +:+ e +:+ p3 +:+ b) =
    X +:+ m +:+ p2 +:+ e +:+ p3 +:+ b →
  replace_go p2 Y 0 (p2 +:+ e +:+ p3 +:+ b) = Y +:+ e +:+ p3 +:+ b →
  replace_go p3 Z 0 (p3 +:+ b) = Z +:+ b →
  replace_go p3 Z 0
    (replace_go p2 Y 0
       (replace_go p1 X 0 (t +:+ p1 +:+ m +:+ p2 +:+ e +:+ p3 +:+ b))) =
  t +:+ X +:+ m +:+ Y +:+ e +:+ Z +:+ b.
Proof.
  intros H1 H2 H3 Ht Hm He HX HY F1 F2 F3.
  assert (P : ∀ p o new A S, p = String "$" o → has_char "$" A = false →
            replace_go p new 0 (A +:+ S) = A +:+ replace_go p new 0 S).
  { intros p o new A S ->. apply replace_go_pass. }
  rewrite (P p1 o1 X t _ H1 Ht), F1.
  rewrite (P p2 o2 Y t _ H2 Ht), (P p2 o2 Y X _ H2 HX), (P p2 o2 Y m _ H2 Hm), F2.
  rewrite (P p3 o3 Z t _ H3 Ht), (P p3 o3 Z X _ H3 HX), (P p3 o3 Z m _ H3 Hm),
    (P p3 o3 Z Y _ H3 HY), (P p3 o3 Z e _ H3 He), F3.
  reflexivity.
Qed.

Lemma fill_template X Y Z :
  has_char "$" X = false → has_char "$" Y = false →
  replace
    (replace
       (replace (textwrap_dedent Header.base_code) "${EXTERN_DEF_CODE}" X)
       "${PY_REGISTER_CODE}" Y)
    "${PY_INIT_PLUS}" Z =
  String nlc tpl_top +:+ X +:+ tpl_middle +:+ Y +:+ tpl_else +:+ Z
  +:+ tpl_bottom.
Proof.
  intros HX HY. destruct template_parts_no_dollar as (Ht & Hm & He).
  rewrite dedented_template.
  exact (fill_frame (String nlc tpl_top) tpl_middle tpl_else tpl_bottom
           "${EXTERN_DEF_CODE}" "${PY_REGISTER_CODE}" "${PY_INIT_PLUS}"
           _ _ _ X Y Z eq_refl eq_refl eq_refl Ht Hm He HX HY
           (fill_extern X) (fill_register Y) (fill_init_plus Z)).
Qed.

Lemma drop_token_nl r : drop_token whitespace (String nlc r) = Some r.
Proof. by destruct r. Qed.

Lemma drop_token_slash r : drop_token whitespace (String "/" r) = None.
Proof. reflexivity. Qed.

Lemma lstrip_nl_slash r : lstrip (String nlc (String "/" r)) = String "/" r.
Proof.
  unfold lstrip. cbn [String.length lstrip_go].
  rewrite drop_token_nl. by rewrite drop_token_slash.
Qed.

Lemma drop_rev_token_nl r :
  drop_token (map String.rev whitespace) (String nlc r) = Some r.
Proof. by destruct r. Qed.

Lemma drop_rev_token_underscore r :
  drop_token (map String.rev whitespace) (String "_" r) = None.
Proof. reflexivity. Qed.

Lemma rstrip_underscore_nl Q : rstrip (Q +:+ String "_" nl) = Q +:+ "_".
Proof.
  unfold rstrip.
  assert (Hrev : String.rev (Q +:+ String "_" nl)
                 = String nlc (String "_" (String.rev Q))).
  { unfold String.rev. rewrite rev_app_append. cbn [String.rev_app].
    by rewrite (rev_app_spec Q), !string_app_nil_r. }
  rewrite Hrev.
  assert (Hlen : ∃ k, String.length (Q +:+ String "_" nl) = S k).
  { destruct (String.length _) as [|k] eqn:Hl; [|by exists k].
    apply (f_equal String.length) in Hrev. unfold String.rev in Hrev at 1.
    rewrite string_length_rev_app, Hl in Hrev. discriminate Hrev. }
  destruct Hlen as [k ->]. cbn [lstrip_go]. rewrite drop_rev_token_nl.
  assert (lstrip_go (map String.rev whitespace) k (String "_" (String.rev Q))
          = String "_" (String.rev Q)) as ->.
  { destruct k; [done|]. cbn [lstrip_go]. by rewrite drop_rev_token_underscore. }
  unfold String.rev at 1. cbn [String.rev_app].
  rewrite rev_app_spec. by rewrite rev_involutive.
Qed.

Lemma strip_filled top a R b W :
  top = String "/" a → R = b +:+ String "_" nl →
  strip (String nlc top +:+ W +:+ R) +:+ nl = top +:+ W +:+ R.
Proof.
  intros -> ->. unfold strip. rewrite !string_app_cons, lstrip_nl_slash.
  rewrite <- string_app_cons.
  rewrite <- !string_app_assoc. rewrite rstrip_underscore_nl.
  rewrite !string_app_assoc. reflexivity.
Qed.

(** *** [textwrap.indent] on lines without line boundaries *)

Lemma line_end_safe c s :
  header_safe_char c = true → line_end_at line_ends (String c s) = None.
Proof.
  intros H. destruct c as [b0 b1 b2 b3 b4 b5 b6 b7].
  destruct b0, b1, b2, b3, b4, b5, b6, b7;
    first [discriminate H | reflexivity].
Qed.

Lemma splitlines_go_safe l :
  header_safe l = true →
  ∀ cur rest,
    splitlines_go cur 0 (l +:+ rest) =
      splitlines_go (String.rev_app l cur) 0 rest.
Proof.
  induction l as [|c l IH]; [done|]. cbn [header_safe all_chars].
  intros [Hc Hl]%andb_prop cur rest. rewrite string_app_cons.
  cbn [splitlines_go String.rev_app].
  rewrite (line_end_safe _ _ Hc). by apply IH.
Qed.

Lemma splitlines_go_nl cur rest :
  splitlines_go cur 0 (String nlc rest) =
    String.rev (String nlc cur) :: splitlines_go "" 0 rest.
Proof. by destruct rest. Qed.

Lemma join_cons_cons sep (a b : string) l :
  join sep (a :: b :: l) = a +:+ sep +:+ join sep (b :: l).
Proof. reflexivity. Qed.

Lemma concat_empty_cons x xs : join "" (x :: xs) = x +:+ join "" xs.
Proof.
  destruct xs as [|y xs]; [|reflexivity].
  cbn. by rewrite string_app_nil_r.
Qed.

Lemma has_char_slice c t :
  has_char c t = false →
  ∀ y, String.prefix t y = true →
    has_char c (slice_from (String.length t) y) = has_char c y.
Proof.
  induction t as [|x t IH]; intros Ht y; [done|].
  cbn [has_char] in Ht. apply orb_false_elim in Ht as [Hx Ht].
  destruct y as [|z y]; [done|].
  change (String.prefix (String x t) (String z y))
    with (if ascii_dec x z then String.prefix t y else false).
  destruct (ascii_dec x z) as [<-|]; [|done].
  intros Hp. cbn [String.length slice_from has_char].
  by rewrite Hx, (IH Ht y Hp).
Qed.

Lemma drop_token_keeps c toks :
  Forall (fun t => has_char c t = false) toks →
  ∀ y r, drop_token toks y = Some r → has_char c r = has_char c y.
Proof.
  induction 1 as [|t toks Ht _ IH]; intros y r; [done|].
  cbn [drop_token]. destruct (String.prefix t y) eqn:Hp; [|apply IH].
  intros [= <-]. by apply has_char_slice.
Qed.

Lemma lstrip_go_keeps c toks :
  Forall (fun t => has_char c t = false) toks →
  ∀ fuel y, has_char c (lstrip_go toks fuel y) = has_char c y.
Proof.
  intros Htoks. induction fuel as [|fuel IH]; intros y; [done|].
  cbn [lstrip_go]. destruct (drop_token toks y) as [r|] eqn:Hd; [|done].
  by rewrite IH, (drop_token_keeps c toks Htoks y r Hd).
Qed.

Lemma has_text_letter s : has_text (String "P" s) = true.
Proof.
  unfold has_text, strip.
  assert (lstrip (String "P" s) = String "P" s) as ->.
  { unfold lstrip. by cbn [String.length lstrip_go]. }
  unfold rstrip.
  set (y := lstrip_go _ _ _).
  assert (Hy : has_char "P" y = true).
  { unfold y. rewrite lstrip_go_keeps.
    - unfold String.rev. cbn [String.rev_app].
      rewrite rev_app_spec.
      clear. induction (String.rev s) as [|x r IH]; [done|].
      rewrite string_app_cons. cbn [has_char]. by rewrite IH, orb_true_r.
    - unfold whitespace. cbn [map].
      repeat (apply list.Forall_cons; split; [reflexivity|]).
      apply Forall_nil. }
  destruct (String.eqb_spec (String.rev y) "") as [He|]; [|done].
  apply (f_equal String.rev) in He. rewrite rev_involutive in He.
  by rewrite He in Hy.
Qed.

Lemma splitlines_one l :
  header_safe l = true → l ≠ "" → splitlines_go "" 0 l = [l].
Proof.
  intros Hsafe Hne. rewrite <- (string_app_nil_r l) at 1.
  rewrite (splitlines_go_safe _ Hsafe). cbn [splitlines_go].
  destruct (String.rev_app l "") as [|a r] eqn:Hr.
  - apply (f_equal String.length) in Hr.
    rewrite string_length_rev_app in Hr. destruct l; [done|]. cbn in Hr. lia.
  - rewrite <- Hr. change (String.rev_app l "") with (String.rev l).
    by rewrite rev_involutive.
Qed.

Lemma splitlines_more l rest :
  header_safe l = true →
  splitlines_go "" 0 (l +:+ nl +:+ rest) =
    (l +:+ nl) :: splitlines_go "" 0 rest.
Proof.
  intros Hsafe. rewrite (splitlines_go_safe _ Hsafe).
  change (nl +:+ rest) with (String nlc rest). rewrite splitlines_go_nl.
  f_equal. unfold String.rev. cbn [String.rev_app].
  rewrite rev_app_rev_app. reflexivity.
Qed.

Lemma indent_lines pfx (lines : list string) :
  Forall (fun l => header_safe l = true ∧ ∃ s, l = String "P" s) lines →
  textwrap_indent (join nl lines) pfx = join nl (map (fun l => pfx +:+ l) lines).
Proof.
  unfold textwrap_indent, splitlines_keepends.
  induction 1 as [|l lines [Hsafe [s ->]] Hrest IH]; [done|].
  destruct lines as [|l2 lines].
  - change (join nl [String "P" s]) with (String "P" s).
    rewrite (splitlines_one _ Hsafe) by done. cbn [map].
    rewrite has_text_letter. reflexivity.
  - rewrite join_cons_cons, (splitlines_more _ _ Hsafe). cbn [map].
    rewrite concat_empty_cons, IH. rewrite string_app_cons, has_text_letter.
    cbn [map]. rewrite join_cons_cons.
    change (String "P" (s +:+ nl)) with (String "P" s +:+ nl).
    by rewrite !string_app_assoc.
Qed.

Lemma strip_filled_parts top a R b X m Y e Z :
  top = String "/" a → R = b +:+ String "_" nl →
  strip (String nlc top +:+ X +:+ m +:+ Y +:+ e +:+ Z +:+ R) +:+ nl =
    top +:+ X +:+ m +:+ Y +:+ e +:+ Z +:+ R.
Proof.
  intros Ht HR.
  pose proof (strip_filled top a R b (X +:+ m +:+ Y +:+ e +:+ Z) Ht HR) as H.
  by rewrite !string_app_assoc in H.
Qed.

Lemma has_char_app c a b :
  has_char c (a +:+ b) = has_char c a || has_char c b.
Proof.
  induction a as [|x a IH]; [done|]. rewrite string_app_cons.
  cbn [has_char]. by rewrite IH, orb_assoc.
Qed.

Lemma has_char_join c sep lines :
  has_char c sep = false → Forall (fun l => has_char c l = false) lines →
  has_char c (join sep lines) = false.
Proof.
  intros Hsep. induction 1 as [|l lines Hl _ IH]; [done|].
  destruct lines as [|l2 lines]; [done|].
  rewrite join_cons_cons, !has_char_app, Hl, Hsep. exact IH.
Qed.

Lemma init_function_initname n : Header.initname n = init_function n.
Proof.
  unfold Header.initname, init_function.
  destruct (String.eqb_spec n "_baplus") as [-> | Hn]; [done|].
  by rewrite bool_decide_eq_false_2.
Qed.

Lemma init_function_safe n :
  header_safe n = true → header_safe (init_function n) = true.
Proof.
  intros Hn. unfold init_function. case_bool_decide; [reflexivity|].
  unfold header_safe in *. by rewrite all_chars_app, Hn.
Qed.

Lemma extern_line_safe n :
  header_safe n = true → header_safe (extern_line n) = true.
Proof.
  intros Hn. pose proof (init_function_safe n Hn) as Hi.
  unfold extern_line, header_safe in *.
  by rewrite !all_chars_app, Hi.
Qed.

Lemma register_line_safe n :
  header_safe n = true → header_safe (register_line n) = true.
Proof.
  intros Hn. pose proof (init_function_safe n Hn) as Hi.
  unfold register_line, header_safe in *.
  by rewrite !all_chars_app, Hi, Hn.
Qed.

Lemma header_text_explicit (featuresets : list FeatureSet) :
  let kept :=
    map name_python_binary_module
      (filter (fun f => has_python_binary_module f = true) featuresets) in
  let names := Header.pymodulenames featuresets in
  Forall (fun n => header_safe n = true) kept →
  Header.header_text featuresets =
    tpl_top
    +:+ join nl (map extern_line names)
    +:+ tpl_middle
    +:+ join nl (map (fun n => "    " +:+ register_line n) names)
    +:+ tpl_else
    +:+ (if bool_decide ("_baplus" ∈ kept) then Header.forwarding_block else "")
    +:+ tpl_bottom.
Proof.
  intros kept names Hkept.
  assert (Hnames : Forall (fun n => header_safe n = true) names).
  { unfold names. by rewrite (pymodulenames_perm featuresets). }
  assert (HX : Header.extern_def_code names = join nl (map extern_line names)).
  { unfold Header.extern_def_code. f_equal. apply map_ext. intros n.
    unfold Header.extern_def_line, extern_line. by rewrite init_function_initname. }
  assert (HY : textwrap_indent (Header.py_register_code names) "    " =
               join nl (map (fun n => "    " +:+ register_line n) names)).
  { unfold Header.py_register_code.
    rewrite (map_ext Header.py_register_line register_line).
    2: { intros n. unfold Header.py_register_line, register_line.
         by rewrite init_function_initname. }
    rewrite indent_lines.
    - by rewrite map_map.
    - apply Forall_map. revert Hnames. apply List.Forall_impl.
      intros n Hn. cbn beta. split; [by apply register_line_safe|].
      by eexists. }
  assert (HZ : Header.init_plus_code names =
               if bool_decide ("_baplus" ∈ kept) then Header.forwarding_block
               else "").
  { unfold Header.init_plus_code.
    assert (Hiff : "_baplus" ∈ names ↔ "_baplus" ∈ kept).
    { unfold names, kept. by rewrite (pymodulenames_perm featuresets). }
    by rewrite (bool_decide_ext _ _ Hiff). }
  unfold Header.header_text. fold names. rewrite HX, HY, HZ.
  set (X := join nl (map extern_line names)).
  set (Y := join nl (map _ names)).
  set (Z := if bool_decide _ then _ else _).
  assert (HXd : has_char "$" X = false).
  { apply has_char_join; [done|]. apply Forall_map.
    revert Hnames. apply List.Forall_impl. intros n Hn. cbn beta.
    by apply header_safe_no_dollar, extern_line_safe. }
  assert (HYd : has_char "$" Y = false).
  { apply has_char_join; [done|]. apply Forall_map.
    revert Hnames. apply List.Forall_impl. intros n Hn. cbn beta.
    rewrite has_char_app. apply orb_false_intro; [done|].
    by apply header_safe_no_dollar, register_line_safe. }
  clearbody X Y Z.
  etrans.
  { apply (f_equal (fun t => strip t +:+ nl)). exact (fill_template X Y Z HXd HYd). }
  cbv beta.
  apply (strip_filled_parts tpl_top (slice_from 1 tpl_top) tpl_bottom
           (String.rev (slice_from 2 (String.rev tpl_bottom)))).
  - vm_compute. reflexivity.
  - vm_compute. reflexivity.
Qed.

(** C4: the init function of a module [n] is [PyInit_<n>], but
    [DoPyInit__baplus] for [_baplus], and the two lines generated for [n]
    name it; the text put in place of [${PY_INIT_PLUS}] is the forwarding
    block when [_baplus] is among the kept names and empty otherwise; the
    block ends with the definition of [PyInit__baplus] that returns
    [DoPyInit__baplus()].  The whole header is written out for two lists
    of modules, and, for every list whose names hold no dollar sign and
    no line boundary, as the fixed text with the declarations, the
    registrations and the forwarding block (or nothing) in their places. *)
Theorem C4_init_names_and_forwarding_block :
  (∀ n : string,
     Header.initname n =
       if bool_decide (n = "_baplus") then "DoPyInit__baplus"
       else "PyInit_" +:+ n)
  ∧ (∀ featuresets : list FeatureSet,
       let kept :=
         map name_python_binary_module
           (filter (fun f => has_python_binary_module f = true) featuresets) in
       let names := Header.pymodulenames featuresets in
       Header.header_text featuresets =
         strip
           (replace
              (replace
                 (replace (textwrap_dedent Header.base_code)
                    "${EXTERN_DEF_CODE}" (Header.extern_def_code names))
                 "${PY_REGISTER_CODE}"
                 (textwrap_indent (Header.py_register_code names) "    "))
              "${PY_INIT_PLUS}"
              (if bool_decide ("_baplus" ∈ kept) then Header.forwarding_block
               else ""))
         +:+ nl)
  ∧ endswith Header.forwarding_block
      ("extern " +:+ dq +:+ "C" +:+ dq +:+ " auto PyInit__baplus() -> PyObject* {"
       +:+ nl +:+ "  return DoPyInit__baplus();" +:+ nl +:+ "}" +:+ nl) = true
  ∧ contains (Header.header_text example_featuresets)
      "auto PyInit__baplus()" = true
  ∧ contains
      (Header.header_text [featureset_named "zeta"; featureset_named "alpha"])
      "PyInit__baplus" = false
  ∧ (∀ n : string,
       Header.extern_def_line n =
         "auto " +:+ init_function n +:+ "() -> PyObject*;"
       ∧ Header.py_register_line n =
           "PyImport_AppendInittab(" +:+ dq +:+ n +:+ dq +:+ ", &"
           +:+ init_function n +:+ ");")
  ∧ Header.header_text example_featuresets = header_with_baplus
  ∧ Header.header_text [featureset_named "zeta"; featureset_named "alpha"] =
      header_without_baplus
  ∧ (∀ featuresets : list FeatureSet,
       let kept :=
         map name_python_binary_module
           (filter (fun f => has_python_binary_module f = true) featuresets) in
       let names := Header.pymodulenames featuresets in
       Forall (fun n => header_safe n = true) kept →
       Header.header_text featuresets =
         tpl_top
         +:+ join nl (map extern_line names)
         +:+ tpl_middle
         +:+ join nl (map (fun n => "    " +:+ register_line n) names)
         +:+ tpl_else
         +:+ (if bool_decide ("_baplus" ∈ kept) then Header.forwarding_block
              else "")
         +:+ tpl_bottom).
Proof.
  pose proof init_function_initname as Hinit.
  split; [exact Hinit|]. split.
  { intros featuresets kept names. unfold Header.header_text.
    fold names. unfold Header.init_plus_code.
    assert (Hiff : "_baplus" ∈ names ↔ "_baplus" ∈ kept).
    { unfold names, kept. by rewrite (pymodulenames_perm featuresets). }
    by rewrite (bool_decide_ext _ _ Hiff). }
  split; [vm_compute; reflexivity|].
  split; [vm_compute; reflexivity|].
  split; [vm_compute; reflexivity|].
  split.
  { intros n. unfold Header.extern_def_line, Header.py_register_line.
    by rewrite Hinit. }
  split; [vm_compute; reflexivity|].
  split; [vm_compute; reflexivity|].
  exact header_text_explicit.
Qed.

Lemma C4_init_names_and_forwarding_block_witness :
  Forall (fun n => header_safe n = true) ["zeta"; "alpha"; "_baplus"]
  ∧ Header.pymodulenames example_featuresets = ["_baplus"; "alpha"; "zeta"]
  ∧ Header.header_text example_featuresets =
      tpl_top
      +:+ join nl [extern_line "_baplus"; extern_line "alpha"; extern_line "zeta"]
      +:+ tpl_middle
      +:+ join nl
            [ "    " +:+ register_line "_baplus";
              "    " +:+ register_line "alpha";
              "    " +:+ register_line "zeta" ]
      +:+ tpl_else +:+ Header.forwarding_block +:+ tpl_bottom.
Proof.
  assert (Hsafe : Forall (fun n => header_safe n = true)
                    ["zeta"; "alpha"; "_baplus"]).
  { repeat (apply list.Forall_cons; split; [reflexivity|]). apply Forall_nil. }
  destruct C4_init_names_and_forwarding_block
    as (_ & _ & _ & _ & _ & _ & _ & _ & Hgen).
  split; [exact Hsafe|]. split; [reflexivity|].
  exact (Hgen example_featuresets Hsafe).
Defined.

(** ** C5: the prefab library *)

(** C5: once [make] has built the library, it is copied into
    [<builddir>/prefablib] exactly when no [libballisticaplus.a] is there or
    the one there has a modification time strictly below that of the built
    one (none is copied at equal times); before a copy the directory is
    made when it is missing. *)
Theorem C5_prefab_lib_copied_iff_missing_or_older
    (E : Env) (w : World) (a0 a1 buildtype mode builddir platform out : string)
    (f1 : Fs.node) (time1 : Qc) :
  batch w = false →
  argv w = [a0; a1; buildtype; mode; builddir] →
  buildtype ∈ ["standard"; "server"] →
  mode ∈ ["debug"; "release"] →
  get_current_prefab_platform E w = Ok platform →
  let target := prefab_target platform buildtype mode in
  run_tool E ["make"; target] None w = Some (0%Z, out, f1) →
  let w1 := set_fs f1 (emit (EvRun ["make"; target] None) w) in
  os_path_getmtime E target w1 = (Ok time1, w1) →
  let libdir := os_path_join builddir "prefablib" in
  let libpath := os_path_join libdir "libballisticaplus.a" in
  let copy : M unit := subprocess_run E ["cp"; target; libdir] None true ;; ret tt in
  let needs_copy : bool :=
    match Fs.stat f1 (cwd w) libpath with
    | None => true
    | Some (pos, n) => bool_decide (node_mtime E pos n < time1)%Qc
    end in
  update_cmake_prefab_lib E w =
    (if needs_copy
     then if Fs.exists_ f1 (cwd w) libdir then copy w1
          else (os_makedirs libdir ;; copy) w1
     else (Ok tt, w1))
  ∧ (∀ w0, trace (snd (copy w0)) = trace w0 ++ [EvRun ["cp"; target; libdir] None])
  ∧ (∀ w2, os_makedirs libdir w1 = (Ok tt, w2) →
           Fs.isdir (fs w2) (cwd w2) libdir = true)
  ∧ (builddir ≠ "" → endswith builddir "/" = false →
     libpath = builddir +:+ "/prefablib/libballisticaplus.a").
Proof.
  intros Hb Hargv Hbt Hmode Hplat target Hmake w1 Htime libdir libpath copy needs_copy.
  split; [|split; [|split]].
  - unfold update_cmake_prefab_lib. step_guard Hb.
    rewrite bind_eq. unfold get_argv. rewrite Hargv.
    cbn [List.length Nat.eqb negb nth].
    rewrite (bool_decide_eq_true_2 _ Hbt), (bool_decide_eq_true_2 _ Hmode).
    cbn [negb]. rewrite bind_eq. unfold lift. rewrite Hplat.
    fold target. rewrite bind_eq.
    rewrite (subprocess_run_tool E _ _ _ _ 0%Z out f1) by exact Hmake.
    cbn [andb negb Z.eqb]. fold w1.
    unfold sync_prefab_lib. fold libdir. fold libpath.
    rewrite (bind_ok _ _ _ _ _ Htime).
    rewrite (bind_ok (os_path_exists libpath) _ w1 (Fs.exists_ f1 (cwd w) libpath) w1)
      by reflexivity.
    assert (Hcopy : ∀ w0,
      (dir_exists ← os_path_exists libdir;
       (if dir_exists : bool then ret tt else os_makedirs libdir) ;;
       subprocess_run E ["cp"; target; libdir] None true ;; ret tt) w0
      = if Fs.exists_ (fs w0) (cwd w0) libdir then copy w0
        else (os_makedirs libdir ;; copy) w0).
    { intros w0.
      rewrite (bind_ok (os_path_exists libdir) _ w0 (Fs.exists_ (fs w0) (cwd w0) libdir) w0)
        by reflexivity.
      by destruct (Fs.exists_ (fs w0) (cwd w0) libdir). }
    subst needs_copy. unfold Fs.exists_ at 1.
    destruct (Fs.stat f1 (cwd w) libpath) as [[pos n]|] eqn:Hstat.
    + assert (Hcmp : negb (bool_decide (time1 ≤ node_mtime E pos n)%Qc)
                     = bool_decide (node_mtime E pos n < time1)%Qc).
      { destruct (decide (node_mtime E pos n < time1)%Qc) as [Hlt|Hge].
        - rewrite (bool_decide_eq_true_2 _ Hlt).
          rewrite bool_decide_eq_false_2; [done|]. by apply Qclt_not_le.
        - rewrite (bool_decide_eq_false_2 _ Hge).
          rewrite bool_decide_eq_true_2; [done|]. by apply Qcnot_lt_le. }
      assert (Ht2 : os_path_getmtime E libpath w1 = (Ok (node_mtime E pos n), w1)).
      { unfold os_path_getmtime. change (fs w1) with f1. change (cwd w1) with (cwd w).
        rewrite Hstat. by destruct n. }
      erewrite bind_ok; [|erewrite bind_ok; [reflexivity|exact Ht2]].
      rewrite Hcmp.
      destruct (bool_decide (node_mtime E pos n < time1)%Qc); [|done].
      exact (Hcopy w1).
    + erewrite bind_ok; [|reflexivity]. exact (Hcopy w1).
  - intros w0. subst copy. rewrite bind_eq.
    pose proof (subprocess_run_trace E ["cp"; target; libdir] None true w0) as Ht.
    by destruct (subprocess_run E ["cp"; target; libdir] None true w0) as [[r|e|] w3].
  - intros w2. apply os_makedirs_is_dir.
  - apply prefab_paths.
Qed.

Lemma C5_prefab_lib_copied_iff_missing_or_older_witness :
  let w := Demo.sync_world Demo.old_archive in
  let target := "build/prefab/lib/linux_x86_64_gui/debug/libballisticaplus.a" in
  let w1 := emit (EvRun ["make"; target] None) w in
  batch w = false
  ∧ os_path_getmtime Demo.env target w1 =
      (Ok (Q2Qc (QArith_base.inject_Z 5)), w1)
  ∧ update_cmake_prefab_lib Demo.env w =
      (os_makedirs "out/prefablib" ;;
       (subprocess_run Demo.env ["cp"; target; "out/prefablib"] None true ;;
        ret tt)) w1.
Proof.
  intros w target w1.
  split; [reflexivity|]. split; [reflexivity|].
  exact (proj1
    (C5_prefab_lib_copied_iff_missing_or_older Demo.env w
       "pcommand" "update_cmake_prefab_lib" "standard" "debug" "out"
       "linux_x86_64" "" (fs w) (Q2Qc (QArith_base.inject_Z 5))
       eq_refl eq_refl
       ltac:(apply elem_of_cons; by left)
       ltac:(apply elem_of_cons; by left)
       eq_refl eq_refl eq_refl)).
Defined.

(** With a copy of the same age in place nothing is copied; an older copy
    is replaced. *)
Example prefab_lib_equal_times_not_copied :
  let target := "build/prefab/lib/linux_x86_64_gui/debug/libballisticaplus.a" in
  trace (snd (update_cmake_prefab_lib Demo.env
                (Demo.sync_world (Demo.copied_at 5)))) =
    [EvRun ["make"; target] None]
  ∧ trace (snd (update_cmake_prefab_lib Demo.env
                  (Demo.sync_world (Demo.copied_at 4)))) =
      [EvRun ["make"; target] None;
       EvRun ["cp"; target; "out/prefablib"] None].
Proof. split; vm_compute; reflexivity. Qed.

(** ** C6: the orphaned files *)

(** C6: in a project whose manifests are readable and whose [build/assets]
    is a tree of directories and regular files, the cleaner returns
    normally, and a regular file under [build/assets] is unlinked exactly
    when its walk path without its first 13 characters (the length of
    [build/assets/]) is in neither manifest; the files whose stripped path
    is in a manifest are afterwards where they were, with the same time and
    contents. *)
Theorem C6_orphaned_files_deleted (E : Env) (w : World) (root : Fs.path)
    (pub priv : list string) (es : list (string * Fs.node)) :
  orphan_setup E w root pub priv es →
  let manifest : gset string := list_to_set pub ∪ list_to_set priv in
  String.length "build/assets/" = 13
  ∧ ∃ (w' : World) (deleted : list string),
      clean_orphaned_assets E w = (Ok tt, w')
      ∧ trace w' =
          trace w
          ++ EvChdir (PROJROOT E) :: map EvUnlink deleted
          ++ [EvShell find_assets_cmd]
      ∧ ∀ (rel : Fs.path) (m : Qc) (d : string),
          Fs.lookup rel (Fs.Dir es) = Some (Fs.File m d) →
          let fpath := walk_path "build/assets" rel in
          (fpath ∈ deleted ↔ slice_from 13 fpath ∉ manifest)
          ∧ Fs.lookup (root ++ assets_dir ++ rel) (fs w') =
              (if bool_decide (slice_from 13 fpath ∈ manifest)
               then Some (Fs.File m d) else None)
          ∧ slice_from 13 fpath = join "/" rel.
Proof.
  intros Hsetup manifest. split; [done|].
  destruct (clean_run E w root pub priv es Hsetup) as (w' & Hrun & Hfs & Htr & _).
  fold manifest in Hfs, Htr.
  destruct Hsetup as (_ & Hassets & Hwf).
  exists w', (orphans manifest "build/assets" (Fs.Dir es)).
  split; [done|]. split; [done|].
  intros rel m d Hl fpath.
  assert (Hne : rel ≠ []) by (by intros ->).
  assert (Horph : orphaned manifest fpath = negb (bool_decide (slice_from 13 fpath ∈ manifest))).
  { unfold orphaned. by destruct (decide (slice_from 13 fpath ∈ manifest));
      [rewrite bool_decide_eq_false_2, bool_decide_eq_true_2
      |rewrite bool_decide_eq_true_2, bool_decide_eq_false_2]; auto. }
  split; [|split].
  - split.
    + intros Hin%orphans_all_orphaned. unfold orphaned in Hin.
      by apply bool_decide_eq_true in Hin.
    + intros Hnot. apply (orphans_complete manifest rel _ _ m d); [done..|].
      unfold orphaned. by apply bool_decide_eq_true.
  - rewrite app_assoc, Hfs. unfold swept_fs.
    pose proof (clean_lookup_file manifest rel _ "build/assets" m d Hwf Hne Hl) as Hc.
    fold fpath in Hc. rewrite Horph in Hc.
    pose proof (wf_clean_tree manifest _ "build/assets" Hwf) as Hwfc.
    destruct (bool_decide (slice_from 13 fpath ∈ manifest)); cbn [negb] in Hc.
    + destruct (prune_keeps_file _ _ _ _ Hc) as (n' & -> & Hl').
      by rewrite lookup_app, (lookup_modify_const _ _ _ _ Hassets).
    + destruct (Fs.prune _) as [n'|] eqn:Hp.
      * rewrite lookup_app, (lookup_modify_const _ _ _ _ Hassets). cbn.
        by apply (prune_no_new rel _ _ Hwfc Hp).
      * apply lookup_below_removed, assets_dir_nonempty.
  - by apply (stripped_walk_path rel (Fs.Dir es) (Fs.File m d)).
Qed.

Lemma C6_orphaned_files_deleted_witness :
  orphan_setup Demo.env Demo.cleaner_world ["proj"] ["a/x.png"] [] Demo.assets
  ∧ ∃ (w' : World) (deleted : list string),
      clean_orphaned_assets Demo.env Demo.cleaner_world = (Ok tt, w')
      ∧ ("build/assets/b/y.png" ∈ deleted)
      ∧ ("build/assets/a/x.png" ∉ deleted)
      ∧ Fs.lookup ["proj"; "build"; "assets"; "b"; "y.png"] (fs w') = None
      ∧ Fs.lookup ["proj"; "build"; "assets"; "a"; "x.png"] (fs w') =
          Some (Demo.file 2 "x").
Proof.
  assert (Hsetup : orphan_setup Demo.env Demo.cleaner_world ["proj"]
                     ["a/x.png"] [] Demo.assets).
  { repeat split; try reflexivity.
    - exists (Q2Qc (QArith_base.inject_Z 1)), "a/x.png". split; reflexivity.
    - exists (Q2Qc (QArith_base.inject_Z 1)), "". split; reflexivity. }
  split; [exact Hsetup|].
  destruct (C6_orphaned_files_deleted Demo.env Demo.cleaner_world ["proj"]
              ["a/x.png"] [] Demo.assets Hsetup)
    as (_ & w' & deleted & Hrun & _ & Hfiles).
  exists w', deleted. split; [exact Hrun|].
  destruct (Hfiles ["b"; "y.png"] _ _ eq_refl) as (Hy & Hy' & _).
  destruct (Hfiles ["a"; "x.png"] _ _ eq_refl) as (Hx & Hx' & _).
  split; [|split; [|split]].
  - apply Hy. by vm_compute.
  - intros Hin. apply Hx in Hin. apply Hin. by vm_compute.
  - etrans; [exact Hy'|]. reflexivity.
  - etrans; [exact Hx'|]. reflexivity.
Defined.

(** ** C7: a second run *)

(** C7, as the code has it: in such a project a second run, right after
    the first, unlinks no file, removes no directory and leaves the file
    system as the first run left it: it only changes directory and runs
    [find].  It returns normally when [build/assets] is still there, which
    is when some file under it is in a manifest.  Otherwise the first run
    has removed [build/assets] itself, which [find] does once nothing is
    left in it; the [find] of the second run then exits with status 1 and
    the command raises [CalledProcessError]. *)
Theorem C7_second_run_changes_nothing (E : Env) (w : World) (root : Fs.path)
    (pub priv : list string) (es : list (string * Fs.node)) :
  orphan_setup E w root pub priv es →
  let manifest : gset string := list_to_set pub ∪ list_to_set priv in
  ∃ w1 : World,
    clean_orphaned_assets E w = (Ok tt, w1)
    ∧ (Fs.exists_ (fs w1) (cwd w1) "build/assets" = true ↔
       ∃ (rel : Fs.path) (m : Qc) (d : string),
         Fs.lookup rel (Fs.Dir es) = Some (Fs.File m d)
         ∧ slice_from 13 (walk_path "build/assets" rel) ∈ manifest)
    ∧ ∃ w2 : World,
        clean_orphaned_assets E w1 =
          (if Fs.exists_ (fs w1) (cwd w1) "build/assets"
           then Ok tt
           else Raise (CalledProcessError 1 [find_assets_cmd]), w2)
        ∧ fs w2 = fs w1
        ∧ trace w2 = trace w1 ++ [EvChdir (PROJROOT E); EvShell find_assets_cmd].
Proof.
  intros Hsetup manifest.
  destruct (clean_run E w root pub priv es Hsetup) as (w1 & Hrun & Hfs & Htr & Hb1 & Hcwd1).
  destruct Hsetup as (Hready & Hassets & Hwf).
  fold manifest in Hfs, Htr.
  set (cleaned := clean_tree manifest "build/assets" (Fs.Dir es)).
  pose proof (wf_clean_tree manifest _ "build/assets" Hwf) as Hwfc.
  pose proof (tidy_clean_tree manifest (Fs.Dir es) "build/assets") as Htidy.
  fold cleaned in Hwfc, Htidy.
  exists w1. unfold swept_fs in Hfs. fold cleaned in Hfs.
  assert (Hexists : Fs.exists_ (fs w1) (cwd w1) "build/assets"
                    = match Fs.prune cleaned with Some _ => true | None => false end).
  { unfold Fs.exists_, Fs.stat. rewrite Hcwd1, resolve_assets, Hfs.
    destruct (Fs.prune cleaned) as [n'|] eqn:Hp.
    - destruct (prune_dir_is_dir _ _ ltac:(subst cleaned; rewrite clean_tree_dir in Hp; exact Hp))
        as [es' ->].
      by rewrite (stat_pos_dir _ _ _ _ (lookup_modify_const _ _ _ _ Hassets)).
    - assert (Fs.lookup (root ++ assets_dir)
                (Fs.remove (root ++ assets_dir)
                   (Fs.modify (root ++ assets_dir) (fun _ => cleaned) (fs w))) = None) as Hnone
        by apply lookup_remove, assets_dir_nonempty.
      unfold Fs.stat_pos. by rewrite Hnone. }
  split; [exact Hrun|]. split.
  { rewrite Hexists, <- (prune_clean_kept manifest es Hwf). fold cleaned.
    destruct (Fs.prune cleaned); split; first [done | by intros [? [=]]]. }
  rewrite Hexists.
  destruct (Fs.prune cleaned) as [n'|] eqn:Hp.
  - (* something is left: the second run finds a tidy tree *)
    destruct (prune_dir_is_dir _ _ ltac:(subst cleaned; rewrite clean_tree_dir in Hp; exact Hp))
      as [es' ->].
    assert (Hsetup1 : orphan_setup E w1 root pub priv es').
    { split; [|split].
      - eapply manifests_ready_kept; [done..|]. left. exact Hfs.
      - rewrite Hfs. by rewrite (lookup_modify_const _ _ _ _ Hassets).
      - by apply (wf_prune cleaned). }
    destruct (clean_run E w1 root pub priv es' Hsetup1) as (w2 & Hrun2 & Hfs2 & Htr2 & _).
    fold manifest in Hfs2, Htr2.
    pose proof (tidy_prune manifest _ _ _ Htidy Hp) as Htidy'.
    destruct (tidy_fixed manifest _ _ Htidy') as [Hfix Hnone].
    exists w2. split; [done|]. split.
    + rewrite Hfs2. unfold swept_fs. rewrite Hfix, (prune_idem _ _ Hp).
      apply modify_same. destruct Hsetup1 as (_ & Hl & _). exact Hl.
    + rewrite Htr2, Hnone. done.
  - (* nothing is left: the directory itself is gone *)
    assert (Hready1 : manifests_ready E w1 root pub priv).
    { eapply manifests_ready_kept; [done..|]. right. exact Hfs. }
    assert (Hgone : Fs.lookup (root ++ assets_dir) (fs w1) = None).
    { rewrite Hfs. apply lookup_remove, assets_dir_nonempty. }
    rewrite (clean_start E w1 root pub priv Hready1).
    set (wa := entered E root w1).
    assert (Hwalk : for_walk "build/assets" (walk_body manifest) wa = (Ok tt, wa)).
    { unfold for_walk. cbn [os_walk]. unfold scandir, Fs.stat.
      change (cwd wa) with root. change (fs wa) with (fs w1).
      rewrite resolve_assets. unfold Fs.stat_pos. by rewrite Hgone. }
    rewrite (bind_ok _ _ _ _ _ Hwalk). rewrite bind_eq.
    unfold subprocess_run_shell, run_shell_command.
    rewrite String.eqb_refl. change (cwd wa) with root. change (fs wa) with (fs w1).
    rewrite resolve_assets. unfold Fs.find_delete_empty. rewrite Hgone. cbn.
    eexists. split; [done|]. split; [done|].
    cbn. by rewrite <- app_assoc.
Qed.

Lemma C7_second_run_changes_nothing_witness :
  orphan_setup Demo.env Demo.cleaner_world ["proj"] ["a/x.png"] [] Demo.assets
  ∧ ∃ w1 w2 : World,
      clean_orphaned_assets Demo.env Demo.cleaner_world = (Ok tt, w1)
      ∧ Fs.exists_ (fs w1) (cwd w1) "build/assets" = true
      ∧ clean_orphaned_assets Demo.env w1 = (Ok tt, w2)
      ∧ fs w2 = fs w1.
Proof.
  assert (Hsetup : orphan_setup Demo.env Demo.cleaner_world ["proj"]
                     ["a/x.png"] [] Demo.assets).
  { repeat split; try reflexivity.
    - exists (Q2Qc (QArith_base.inject_Z 1)), "a/x.png". split; reflexivity.
    - exists (Q2Qc (QArith_base.inject_Z 1)), "". split; reflexivity. }
  split; [exact Hsetup|].
  destruct (C7_second_run_changes_nothing Demo.env Demo.cleaner_world ["proj"]
              ["a/x.png"] [] Demo.assets Hsetup)
    as (w1 & Hrun1 & Hleft & w2 & Hrun2 & Hfs & _).
  assert (Hthere : Fs.exists_ (fs w1) (cwd w1) "build/assets" = true).
  { apply Hleft. exists ["a"; "x.png"], (Q2Qc (QArith_base.inject_Z 2)), "x".
    split; [reflexivity|]. by vm_compute. }
  exists w1, w2. split; [exact Hrun1|]. split; [exact Hthere|].
  split; [|exact Hfs]. rewrite Hrun2, Hthere. reflexivity.
Defined.

(** C7, against the specification: when no file under [build/assets] is in a
    manifest, the first run removes [build/assets] with everything in it,
    and the second run raises [CalledProcessError]. *)
Lemma C7_second_run_raises_after_full_sweep :
  orphan_setup Demo.env Demo.stale_world ["proj"] ["a/x.png"] []
    Demo.stale_assets
  ∧ fst (clean_orphaned_assets Demo.env Demo.stale_world) = Ok tt
  ∧ Fs.exists_
      (fs (snd (clean_orphaned_assets Demo.env Demo.stale_world)))
      ["proj"] "build/assets" = false
  ∧ fst (clean_orphaned_assets Demo.env
           (snd (clean_orphaned_assets Demo.env Demo.stale_world))) =
      Raise (CalledProcessError 1
               ["find build/assets -depth -empty -type d -delete"]).
Proof.
  split; [|repeat split; vm_compute; reflexivity].
  repeat split; try reflexivity.
  - exists (Q2Qc (QArith_base.inject_Z 1)), "a/x.png". split; reflexivity.
  - exists (Q2Qc (QArith_base.inject_Z 1)), "". split; reflexivity.
Qed.

(** ** C8: the check of the Windows drive *)

(** C8: with [wslpath] found by [which], the check returns at once when
    [WSL_BUILD_CHECK_WIN_DRIVE_IGNORE] is [1]; otherwise it asks [wslpath]
    for the Windows form of the working directory and raises the clean
    error of four paragraphs exactly when that form, stripped, starts with
    two backslashes and [wsl$]. *)
Theorem C8_wsl_build_check_win_drive (E : Env) (w : World)
    (out1 : string) (f1 : Fs.node) :
  batch w = false →
  run_tool E ["which"; "wslpath"] None w = Some (0%Z, out1, f1) →
  let w1 := set_fs f1 (emit (EvRun ["which"; "wslpath"] None) w) in
  let translate := ["wslpath"; "-w"; "-a"; Fs.render (cwd w)] in
  (environ w !! "WSL_BUILD_CHECK_WIN_DRIVE_IGNORE" = Some "1" →
     wsl_build_check_win_drive E w = (Ok tt, w1))
  ∧ (environ w !! "WSL_BUILD_CHECK_WIN_DRIVE_IGNORE" ≠ Some "1" →
     ∀ (out2 : string) (f2 : Fs.node) (text : string),
       run_tool E translate None w1 = Some (0%Z, out2, f2) →
       bytes_decode E out2 = Some text →
       wsl_build_check_win_drive E w =
         if startswith (strip text) (bsl +:+ bsl +:+ "wsl$")
         then (Raise (CleanError (linux_filesystem_message E)),
               set_fs f2 (emit (EvRun translate None) w1))
         else (Ok tt, set_fs f2 (emit (EvRun translate None) w1)))
  ∧ (∃ paragraphs : list string,
       List.length paragraphs = 4
       ∧ linux_filesystem_message E =
           join (nl +:+ nl) (map (fun t => textwrap_fill E t 76) paragraphs)).
Proof.
  intros Hb Hwhich w1 translate.
  assert (Hstart : ∀ k : CompletedProcess → M unit,
    (disallow_in_batch E ;; which ← subprocess_run E ["which"; "wslpath"] None false; k which) w
    = k {| returncode := 0; proc_stdout := out1 |} w1).
  { intros k. step_guard Hb. rewrite bind_eq.
    rewrite (subprocess_run_tool E _ _ _ _ 0%Z out1 f1); [reflexivity|exact Hwhich]. }
  split; [|split].
  - intros Henv. unfold wsl_build_check_win_drive. rewrite Hstart. simpl.
    rewrite bind_eq. unfold os_environ_get. simpl. rewrite Henv.
    rewrite bool_decide_eq_true_2; done.
  - intros Henv out2 f2 text Hrun Hdec.
    unfold wsl_build_check_win_drive. rewrite Hstart. simpl.
    rewrite bind_eq. unfold os_environ_get. simpl.
    rewrite bool_decide_eq_false_2 by exact Henv.
    rewrite bind_eq. unfold os_getcwd. simpl. rewrite bind_eq.
    rewrite (subprocess_run_tool E _ _ _ _ 0%Z out2 f2); [|exact Hrun].
    simpl. rewrite bind_eq. rewrite Hdec. simpl.
    change (bsl +:+ bsl +:+ "wsl$") with wsl_prefix.
    by destruct (startswith (strip text) wsl_prefix).
  - eexists [_; _; _; _]. split; [reflexivity|]. reflexivity.
Qed.

Lemma C8_wsl_build_check_win_drive_witness :
  batch Demo.check_world = false
  ∧ environ Demo.check_world !! "WSL_BUILD_CHECK_WIN_DRIVE_IGNORE" = None
  ∧ fst (wsl_build_check_win_drive Demo.env Demo.check_world) =
      Raise (CleanError (linux_filesystem_message Demo.env)).
Proof.
  destruct (C8_wsl_build_check_win_drive Demo.env Demo.check_world
              ("/usr/bin/wslpath" +:+ nl) (fs Demo.check_world)
              eq_refl eq_refl)
    as (_ & Hcheck & _).
  split; [reflexivity|]. split; [reflexivity|].
  rewrite (Hcheck ltac:(discriminate) Demo.wsl_output (fs Demo.check_world)
             Demo.wsl_output eq_refl eq_refl).
  reflexivity.
Defined.

(** ** C9: the sentinel *)

(** C9: whenever the guarded part of [wsl_path_to_win] raises, the command
    returns normally; the exception is logged and standard output has
    grown by [wsl_to_escaped_win_path_error_occurred] and nothing else,
    no newline. *)
Theorem C9_wsl_path_to_win_sentinel (E : Env) (w w1 : World) (e : exn) :
  batch w = false →
  wsl_path_to_win_guarded E w = (Raise e, w1) →
  wsl_path_to_win E w = (Ok tt, sentinel_world e w1)
  ∧ stdout (sentinel_world e w1) = stdout w +:+ "wsl_to_escaped_win_path_error_occurred"
  ∧ logged (sentinel_world e w1) = logged w ++ [("wsl_to_escaped_win_path failed.", e)].
Proof.
  intros Hb Hg.
  destruct (wsl_guarded_raises E w w1 e Hg) as (He & Hs & Hl).
  split; [by apply wsl_path_to_win_caught|].
  unfold sentinel_world. simpl. by rewrite Hs, Hl.
Qed.

Lemma C9_wsl_path_to_win_sentinel_witness :
  batch Demo.missing_path_world = false
  ∧ wsl_path_to_win_guarded Demo.env Demo.missing_path_world =
      (Raise (CleanError "Path 'nowhere/' does not exist."),
       Demo.missing_path_world)
  ∧ wsl_path_to_win Demo.env Demo.missing_path_world =
      (Ok tt,
       sentinel_world (CleanError "Path 'nowhere/' does not exist.")
         Demo.missing_path_world)
  ∧ stdout (sentinel_world (CleanError "Path 'nowhere/' does not exist.")
              Demo.missing_path_world) =
      "wsl_to_escaped_win_path_error_occurred".
Proof.
  assert (Hraise :
    wsl_path_to_win_guarded Demo.env Demo.missing_path_world =
      (Raise (CleanError "Path 'nowhere/' does not exist."),
       Demo.missing_path_world)) by reflexivity.
  destruct (C9_wsl_path_to_win_sentinel Demo.env Demo.missing_path_world _ _
              eq_refl Hraise) as (Hrun & Hout & _).
  split; [reflexivity|]. split; [exact Hraise|]. split; [exact Hrun|].
  exact Hout.
Defined.

(** ** C10: the destination of the archive *)




(** * Further properties of the commands *)

(** ** The orphan cleaner on any file system *)

Lemma notices_app a b : notices (a ++ b) = notices a +:+ notices b.
Proof.
  induction a as [|e a IH]; [done|]. destruct e; cbn [app notices]; try done.
  unfold notice. rewrite IH. by rewrite <- !string_app_assoc.
Qed.

Lemma announced_silent ok {A} (m : M A) :
  (∀ w, trace (m w).2 = trace w ∧ stdout (m w).2 = stdout w) →
  announced ok m.
Proof.
  intros H w. exists []. destruct (H w) as [-> ->].
  rewrite app_nil_r. cbn [notices]. rewrite string_app_nil_r.
  split; [done|]. split; [done|]. intros p Hp. by apply elem_of_nil in Hp.
Qed.

Lemma announced_bind ok {A B} (m : M A) (k : A → M B) :
  announced ok m → (∀ a, announced ok (k a)) → announced ok (m ≫= k).
Proof.
  intros Hm Hk w. rewrite bind_eq.
  destruct (Hm w) as (evs & Ht & Hs & Hok).
  destruct (m w) as [[a| |] w1]; cbn [snd] in *; try by exists evs.
  destruct (Hk a w1) as (evs' & Ht' & Hs' & Hok').
  exists (evs ++ evs'). rewrite Ht', Ht, Hs', Hs, notices_app.
  rewrite <- app_assoc, string_app_assoc. split; [done|]. split; [done|].
  intros p [Hp|Hp]%elem_of_app; auto.
Qed.

Lemma announced_for_each ok {A} (l : list A) (body : A → M unit) :
  (∀ a, announced ok (body a)) → announced ok (for_each l body).
Proof.
  intros Hb. induction l as [|x l IH]; cbn [for_each].
  - by apply announced_silent.
  - apply announced_bind; [apply Hb|]. by intros _.
Qed.

Lemma announced_remove_if_orphaned manifest root fname :
  announced (fun p => slice_from 13 p ∉ manifest)
    (remove_if_orphaned manifest root fname).
Proof.
  unfold remove_if_orphaned.
  destruct (bool_decide _) eqn:Hd; [|by apply announced_silent].
  apply bool_decide_eq_true in Hd.
  intros w. exists [EvUnlink (os_path_join root fname)].
  rewrite bind_eq. unfold print. unfold os_unlink. cbn [fst snd].
  split; [|split].
  - by destruct (Fs.resolve _ _) as [pos|]; [destruct (Fs.lookup pos _) as [[| |]|]|].
  - cbn [notices]. unfold notice. rewrite string_app_nil_r.
    destruct (Fs.resolve _ _) as [pos|]; [destruct (Fs.lookup pos _) as [[| |]|]|];
      cbn; by rewrite <- ?string_app_assoc.
  - intros p Hp. apply list_elem_of_singleton in Hp. by injection Hp as ->.
Qed.

Lemma announced_os_walk manifest k :
  ∀ top, announced (fun p => slice_from 13 p ∉ manifest)
           (os_walk k top
              (fun root _dirs fnames =>
                 for_each fnames (remove_if_orphaned manifest root))).
Proof.
  induction k as [|k IH]; intros top; cbn [os_walk].
  - by apply announced_silent.
  - intros w. destruct (scandir w top) as [[pos es]|].
    + refine (announced_bind _ _ _ _ _ w).
      * apply announced_for_each. intros a. apply announced_remove_if_orphaned.
      * intros _. apply announced_for_each. intros d.
        apply announced_bind; [by apply announced_silent|].
        intros []; [by apply announced_silent|apply IH].
    + exists []. cbn. rewrite app_nil_r, string_app_nil_r. split; [done|].
      split; [done|]. intros p Hp. by apply elem_of_nil in Hp.
Qed.

Lemma read_json_pure E p w : (read_json E p w).2 = w.
Proof.
  unfold read_json. rewrite bind_eq. unfold read_text.
  destruct (Fs.stat _ _ _) as [[pos [m d| |]]|]; try done.
  unfold of_option. by destruct (json_loads E d).
Qed.

Lemma os_chdir_cases p w :
  (∃ pos, os_chdir p w = (Ok tt, emit (EvChdir p) (set_cwd pos w)))
  ∨ os_chdir p w = (Raise (OSError "chdir" p), w).
Proof.
  unfold os_chdir. destruct (Fs.stat _ _ _) as [[pos [| |]]|]; eauto.
Qed.

Lemma clean_orphaned_assets_announced E w :
  ∃ evs,
    trace (clean_orphaned_assets E w).2 = trace w ++ evs
    ∧ stdout (clean_orphaned_assets E w).2 = stdout w +:+ notices evs
    ∧ ∀ p, EvUnlink p ∈ evs →
        ∃ (w0 : World) (pub priv : list string),
          os_chdir (PROJROOT E) w = (Ok tt, w0)
          ∧ asset_manifests_read E w0 pub priv
          ∧ slice_from 13 p ∉ (list_to_set pub ∪ list_to_set priv : gset string).
Proof.
  pose (ok := fun p : string =>
    ∃ (w0 : World) (pub priv : list string),
      os_chdir (PROJROOT E) w = (Ok tt, w0)
      ∧ asset_manifests_read E w0 pub priv
      ∧ slice_from 13 p ∉ (list_to_set pub ∪ list_to_set priv : gset string)).
  change (∃ evs,
    trace (clean_orphaned_assets E w).2 = trace w ++ evs
    ∧ stdout (clean_orphaned_assets E w).2 = stdout w +:+ notices evs
    ∧ ∀ p, EvUnlink p ∈ evs → ok p).
  assert (Hnone : ∀ w' : World, trace w' = trace w → stdout w' = stdout w →
    ∃ evs, trace w' = trace w ++ evs ∧ stdout w' = stdout w +:+ notices evs
      ∧ ∀ p, EvUnlink p ∈ evs → ok p).
  { intros w' Ht Hs. exists []. rewrite app_nil_r. cbn [notices].
    rewrite string_app_nil_r. split; [done|]. split; [done|].
    intros p Hp. by apply elem_of_nil in Hp. }
  unfold clean_orphaned_assets. rewrite bind_eq. unfold disallow_in_batch.
  destruct (batch w); [by apply Hnone|].
  rewrite bind_eq.
  destruct (os_chdir_cases (PROJROOT E) w) as [[pos Hch] | Hch]; rewrite Hch;
    [|by apply Hnone].
  set (w0 := emit (EvChdir (PROJROOT E)) (set_cwd pos w)) in *.
  rewrite bind_eq.
  pose proof (read_json_pure E "src/assets/.asset_manifest_public.json" w0) as Hp1.
  destruct (read_json E "src/assets/.asset_manifest_public.json" w0)
    as [[pub| |] w1] eqn:Hpub; cbn [snd] in Hp1; subst w1.
  2,3: exists [EvChdir (PROJROOT E)]; cbn [notices]; rewrite string_app_nil_r;
    split; [done|]; split; [done|]; intros p Hp;
    apply list_elem_of_singleton in Hp; discriminate Hp.
  rewrite bind_eq.
  pose proof (read_json_pure E "src/assets/.asset_manifest_private.json" w0) as Hp2.
  destruct (read_json E "src/assets/.asset_manifest_private.json" w0)
    as [[priv| |] w1] eqn:Hpriv; cbn [snd] in Hp2; subst w1.
  2,3: exists [EvChdir (PROJROOT E)]; cbn [notices]; rewrite string_app_nil_r;
    split; [done|]; split; [done|]; intros p Hp;
    apply list_elem_of_singleton in Hp; discriminate Hp.
  set (manifest := (list_to_set pub ∪ list_to_set priv : gset string)).
  set (rest := (for_walk "build/assets"
      (λ (root : string) (_ fnames : list string),
         for_each fnames (remove_if_orphaned manifest root)) ;;
    subprocess_run_shell E find_assets_cmd true ;; ret tt)).
  assert (Hrest : announced (fun p => slice_from 13 p ∉ manifest) rest).
  { apply announced_bind.
    - intros w1. unfold for_walk. apply announced_os_walk.
    - intros _. apply announced_bind; [|intros _; by apply announced_silent].
      intros w1. exists [EvShell find_assets_cmd].
      unfold subprocess_run_shell. destruct (run_shell_command E _ w1) as [rc f].
      cbn [notices]. rewrite string_app_nil_r.
      split; [by destruct (_ && _)|]. split; [by destruct (_ && _)|].
      intros p Hp. apply list_elem_of_singleton in Hp. discriminate Hp. }
  destruct (Hrest w0) as (evs & Ht & Hs & Hok).
  exists (EvChdir (PROJROOT E) :: evs). rewrite Ht, Hs. cbn [notices].
  change (trace w0) with (trace w ++ [EvChdir (PROJROOT E)]).
  change (stdout w0) with (stdout w).
  split; [by rewrite <- app_assoc|]. split; [done|].
  intros p Hp. apply elem_of_cons in Hp as [Hp|Hp]; [discriminate Hp|].
  exists w0, pub, priv. split; [done|]. split; [done|]. by apply Hok.
Qed.

(** X1: whatever the file system looks like and however the run ends,
    [clean_orphaned_assets] prints exactly one line
    [Removing orphaned asset file: <path>] for each [os.unlink] it calls, in
    the order of the calls, and nothing else. *)
Theorem clean_orphaned_assets_announces_each_unlink (E : Env) (w : World) :
  let w' := snd (clean_orphaned_assets E w) in
  ∃ evs : list event,
    trace w' = trace w ++ evs ∧ stdout w' = stdout w +:+ notices evs.
Proof.
  intros w'. destruct (clean_orphaned_assets_announced E w) as (evs & Ht & Hs & _).
  by exists evs.
Qed.

(** X2: whatever the file system looks like, [clean_orphaned_assets] calls
    [os.unlink] only after it has changed to the project root and has
    read and parsed both manifests there, and only on paths whose part
    after the first 13 characters is in neither of them. *)
Theorem clean_orphaned_assets_unlinks_only_unlisted (E : Env) (w : World) :
  let w' := snd (clean_orphaned_assets E w) in
  ∃ evs : list event,
    trace w' = trace w ++ evs
    ∧ ∀ p, EvUnlink p ∈ evs →
        ∃ (w0 : World) (pub priv : list string),
          os_chdir (PROJROOT E) w = (Ok tt, w0)
          ∧ asset_manifests_read E w0 pub priv
          ∧ slice_from 13 p ∉ (list_to_set pub ∪ list_to_set priv : gset string).
Proof.
  intros w'. destruct (clean_orphaned_assets_announced E w) as (evs & Ht & _ & Hok).
  by exists evs.
Qed.

(** X3: in a project with readable manifests but no [build/assets], whose
    root is named without [..] and whose [build] is not a symbolic link
    (through which [os.walk] and [find] would reach another directory),
    the walk finds nothing, [find] exits with status 1 and the command
    raises [CalledProcessError]; the file system is unchanged and nothing
    is printed. *)
Theorem clean_orphaned_assets_without_assets_dir (E : Env) (w : World)
    (root : Fs.path) (pub priv : list string) :
  manifests_ready E w root pub priv →
  no_dotdot (PROJROOT E) = true →
  symlink_at (root ++ ["build"]) (fs w) = false →
  Fs.lookup (root ++ assets_dir) (fs w) = None →
  ∃ w' : World,
    clean_orphaned_assets E w =
      (Raise (CalledProcessError 1 [find_assets_cmd]), w')
    ∧ fs w' = fs w
    ∧ stdout w' = stdout w
    ∧ trace w' = trace w ++ [EvChdir (PROJROOT E); EvShell find_assets_cmd].
Proof.
  intros Hready _ _ Hgone.
  rewrite (clean_start E w root pub priv Hready).
  set (manifest := (list_to_set pub ∪ list_to_set priv : gset string)).
  set (wa := entered E root w).
  assert (Hwalk : for_walk "build/assets" (walk_body manifest) wa = (Ok tt, wa)).
  { unfold for_walk. cbn [os_walk]. unfold scandir, Fs.stat.
    change (cwd wa) with root. change (fs wa) with (fs w).
    rewrite resolve_assets. unfold Fs.stat_pos. by rewrite Hgone. }
  rewrite (bind_ok _ _ _ _ _ Hwalk). rewrite bind_eq.
  unfold subprocess_run_shell, run_shell_command.
  rewrite String.eqb_refl. change (cwd wa) with root. change (fs wa) with (fs w).
  rewrite resolve_assets. unfold Fs.find_delete_empty. rewrite Hgone. cbn.
  eexists. split; [done|]. split; [done|]. split; [done|].
  cbn. by rewrite <- app_assoc.
Qed.

Lemma clean_orphaned_assets_without_assets_dir_witness :
  manifests_ready Demo.env Demo.unbuilt_world ["proj"] ["a/x.png"] []
  ∧ no_dotdot (PROJROOT Demo.env) = true
  ∧ symlink_at (["proj"] ++ ["build"]) (fs Demo.unbuilt_world) = false
  ∧ Fs.lookup (["proj"] ++ assets_dir) (fs Demo.unbuilt_world) = None
  ∧ fst (clean_orphaned_assets Demo.env Demo.unbuilt_world) =
      Raise (CalledProcessError 1 [find_assets_cmd]).
Proof.
  assert (Hready : manifests_ready Demo.env Demo.unbuilt_world ["proj"]
                     ["a/x.png"] []).
  { repeat split; try reflexivity.
    - exists (Q2Qc (QArith_base.inject_Z 1)), "a/x.png". split; reflexivity.
    - exists (Q2Qc (QArith_base.inject_Z 1)), "". split; reflexivity. }
  destruct (clean_orphaned_assets_without_assets_dir Demo.env
              Demo.unbuilt_world ["proj"] ["a/x.png"] [] Hready eq_refl
              eq_refl eq_refl)
    as (w' & Hrun & _).
  split; [exact Hready|]. split; [reflexivity|]. split; [reflexivity|].
  split; [reflexivity|]. by rewrite Hrun.
Defined.

Lemma wf_lookup rel :
  ∀ n x, wf_tree n = true → Fs.lookup rel n = Some x → wf_tree x = true.
Proof.
  induction rel as [|k rest IH]; intros n x Hwf.
  - by intros [= <-].
  - cbn [Fs.lookup]. destruct n as [| |es]; try done.
    destruct (Fs.assoc k es) as [v|] eqn:Hk; [|done].
    apply wf_tree_dir in Hwf as [_ Hall]. rewrite Forall_forall in Hall.
    destruct (Hall _ (assoc_In _ _ _ Hk)) as [_ Hwfv]. by apply IH.
Qed.

Lemma prune_none_below rel :
  ∀ n x, wf_tree n = true → Fs.prune n = None →
    Fs.lookup rel n = Some x → Fs.prune x = None.
Proof.
  intros n x Hwf Hn Hl.
  destruct (Fs.prune x) as [x'|] eqn:Hx; [|done].
  destruct (prune_some_file x (wf_lookup _ _ _ Hwf Hl) _ Hx) as (rel' & m & d & Hf).
  assert (Hfile : Fs.lookup (rel ++ rel') n = Some (Fs.File m d)).
  { by rewrite lookup_app, Hl. }
  destruct (prune_keeps_file _ _ _ _ Hfile) as (n' & Hn' & _). congruence.
Qed.

Lemma lookup_prune rel :
  ∀ n n' x, wf_tree n = true → Fs.prune n = Some n' →
    Fs.lookup rel n = Some x → Fs.lookup rel n' = Fs.prune x.
Proof.
  induction rel as [|k rest IH]; intros n n' x Hwf Hp.
  - by intros [= <-].
  - cbn [Fs.lookup]. destruct n as [| |es]; try done.
    destruct (Fs.assoc k es) as [v|] eqn:Hk; [|done]. intros Hl.
    pose proof Hwf as Hwf'.
    apply wf_tree_dir in Hwf as [Hnd Hall]. rewrite Forall_forall in Hall.
    destruct (Hall _ (assoc_In _ _ _ Hk)) as [_ Hwfv]. cbn [snd] in Hwfv.
    rewrite prune_dir in Hp.
    destruct (Fs.prune_entries es) as [|e es'] eqn:Hes; [done|].
    injection Hp as <-. cbn [Fs.lookup].
    rewrite <- Hes, (assoc_prune_entries _ _ Hnd), Hk. cbn.
    destruct (Fs.prune v) as [v'|] eqn:Hv.
    + by apply (IH v).
    + symmetry. by apply (prune_none_below rest v).
Qed.

Lemma lookup_clean_dir manifest rel :
  ∀ n top sub,
    wf_tree n = true →
    Fs.lookup rel n = Some (Fs.Dir sub) →
    Fs.lookup rel (clean_tree manifest top n) =
      Some (clean_tree manifest (walk_path top rel) (Fs.Dir sub)).
Proof.
  induction rel as [|k rest IH]; intros n top sub Hwf.
  - by intros [= ->].
  - cbn [Fs.lookup]. destruct n as [| |es]; try done.
    destruct (Fs.assoc k es) as [v|] eqn:Hk; [|done]. intros Hl.
    apply wf_tree_dir in Hwf as [Hnd Hall]. rewrite Forall_forall in Hall.
    destruct (Hall _ (assoc_In _ _ _ Hk)) as [_ Hwfv]. cbn [snd] in Hwfv.
    rewrite clean_tree_dir. cbn [Fs.lookup].
    rewrite (assoc_clean_entries _ _ _ _ Hnd), Hk.
    unfold walk_path. cbn [fold_left].
    destruct v as [| |es']; [by destruct rest|done|].
    by apply (IH (Fs.Dir es')).
Qed.

Lemma walk_path_app top a b :
  walk_path top (a ++ b) = walk_path (walk_path top a) b.
Proof. unfold walk_path. by rewrite fold_left_app. Qed.

Lemma prune_clean_some manifest top es :
  wf_tree (Fs.Dir es) = true →
  (is_Some (Fs.prune (clean_tree manifest top (Fs.Dir es))) ↔
   ∃ rel m d, Fs.lookup rel (Fs.Dir es) = Some (Fs.File m d)
              ∧ slice_from 13 (walk_path top rel) ∈ manifest).
Proof.
  intros Hwf. split.
  - intros [n' Hp].
    destruct (prune_some_file _ (wf_clean_tree manifest _ top Hwf) _ Hp)
      as (rel & m & d & Hl).
    assert (Hne : rel ≠ []).
    { intros ->. by rewrite clean_tree_dir in Hl. }
    destruct (clean_file_inv _ _ _ _ _ _ Hwf Hne Hl) as [Hl' Ho].
    exists rel, m, d. split; [done|].
    unfold orphaned in Ho. apply bool_decide_eq_false in Ho.
    by apply dec_stable.
  - intros (rel & m & d & Hl & Hin).
    assert (Hne : rel ≠ []) by (by intros ->).
    pose proof (clean_lookup_file manifest rel _ top m d Hwf Hne Hl) as Hc.
    unfold orphaned in Hc. rewrite bool_decide_eq_false_2 in Hc by auto.
    destruct (prune_keeps_file _ _ _ _ Hc) as (n' & Hp & _). by exists n'.
Qed.

(** X4: after a run of the cleaner on a well-formed tree, a directory
    under [build/assets] (and [build/assets] itself) is still there exactly
    when some file below it, at any depth, is listed in a manifest; the
    other directories are gone, those that were empty from the start
    included. *)
Theorem clean_orphaned_assets_keeps_directories_with_listed_files
    (E : Env) (w : World) (root : Fs.path) (pub priv : list string)
    (es : list (string * Fs.node)) :
  orphan_setup E w root pub priv es →
  let manifest : gset string := list_to_set pub ∪ list_to_set priv in
  ∃ w' : World,
    clean_orphaned_assets E w = (Ok tt, w')
    ∧ ∀ (rel : Fs.path) (sub : list (string * Fs.node)),
        Fs.lookup rel (Fs.Dir es) = Some (Fs.Dir sub) →
        let listed_below :=
          ∃ (rel' : Fs.path) (m : Qc) (d : string),
            Fs.lookup rel' (Fs.Dir sub) = Some (Fs.File m d)
            ∧ join "/" (rel ++ rel') ∈ manifest in
        (listed_below →
           ∃ sub', Fs.lookup (root ++ assets_dir ++ rel) (fs w') = Some (Fs.Dir sub'))
        ∧ (¬ listed_below →
           Fs.lookup (root ++ assets_dir ++ rel) (fs w') = None).
Proof.
  intros Hsetup manifest.
  destruct (clean_run E w root pub priv es Hsetup) as (w' & Hrun & Hfs & _).
  fold manifest in Hfs. destruct Hsetup as (_ & Hassets & Hwf).
  exists w'. split; [exact Hrun|]. intros rel sub Hl listed_below.
  set (cleaned := clean_tree manifest "build/assets" (Fs.Dir es)).
  pose proof (wf_clean_tree manifest _ "build/assets" Hwf) as Hwfc.
  pose proof (lookup_clean_dir manifest rel _ "build/assets" sub Hwf Hl) as Hlc.
  fold cleaned in Hwfc, Hlc.
  pose proof (wf_lookup _ _ _ Hwf Hl) as Hwfsub.
  pose proof (prune_clean_some manifest (walk_path "build/assets" rel) sub Hwfsub)
    as Hiff.
  assert (Hlisted : listed_below ↔
    is_Some (Fs.prune (clean_tree manifest (walk_path "build/assets" rel) (Fs.Dir sub)))).
  { rewrite Hiff. unfold listed_below.
    assert (Hsame : ∀ rel' m d,
      Fs.lookup rel' (Fs.Dir sub) = Some (Fs.File m d) →
      slice_from 13 (walk_path (walk_path "build/assets" rel) rel')
      = join "/" (rel ++ rel')).
    { intros rel' m d Hf. rewrite <- walk_path_app.
      apply (stripped_walk_path _ (Fs.Dir es) (Fs.File m d) Hwf).
      - by rewrite lookup_app, Hl.
      - intros [_ ->]%app_eq_nil. discriminate Hf. }
    split; intros (rel' & m & d & Hf & Hin); exists rel', m, d;
      (split; [done|]); [by rewrite (Hsame _ _ _ Hf)|by rewrite <- (Hsame _ _ _ Hf)]. }
  assert (Hlook : Fs.lookup (root ++ assets_dir ++ rel) (fs w') =
                  Fs.prune (clean_tree manifest (walk_path "build/assets" rel) (Fs.Dir sub))).
  { rewrite Hfs. unfold swept_fs. fold cleaned.
    destruct (Fs.prune cleaned) as [n'|] eqn:Hp.
    - rewrite app_assoc, lookup_app, (lookup_modify_const _ _ _ _ Hassets). cbn.
      exact (lookup_prune rel cleaned n' _ Hwfc Hp Hlc).
    - rewrite app_assoc, lookup_below_removed by apply assets_dir_nonempty.
      symmetry. exact (prune_none_below rel cleaned _ Hwfc Hp Hlc). }
  rewrite Hlook. split.
  - intros [n' Hp]%Hlisted. rewrite Hp.
    rewrite clean_tree_dir in Hp.
    destruct (prune_dir_is_dir _ _ Hp) as [sub' ->]. by exists sub'.
  - intros Hnot. destruct (Fs.prune _) as [n'|] eqn:Hp; [|done].
    exfalso. apply Hnot, Hlisted. by exists n'.
Qed.

Lemma clean_orphaned_assets_keeps_directories_with_listed_files_witness :
  orphan_setup Demo.env Demo.cleaner_world ["proj"] ["a/x.png"] [] Demo.assets
  ∧ ∃ w' : World,
      clean_orphaned_assets Demo.env Demo.cleaner_world = (Ok tt, w')
      ∧ (∃ sub', Fs.lookup ["proj"; "build"; "assets"; "a"] (fs w')
                 = Some (Fs.Dir sub'))
      ∧ Fs.lookup ["proj"; "build"; "assets"; "b"] (fs w') = None.
Proof.
  assert (Hsetup : orphan_setup Demo.env Demo.cleaner_world ["proj"]
                     ["a/x.png"] [] Demo.assets).
  { repeat split; try reflexivity.
    - exists (Q2Qc (QArith_base.inject_Z 1)), "a/x.png". split; reflexivity.
    - exists (Q2Qc (QArith_base.inject_Z 1)), "". split; reflexivity. }
  split; [exact Hsetup|].
  destruct (clean_orphaned_assets_keeps_directories_with_listed_files
              Demo.env Demo.cleaner_world ["proj"] ["a/x.png"] []
              Demo.assets Hsetup) as (w' & Hrun & Hdirs).
  exists w'. split; [exact Hrun|].
  destruct (Hdirs ["a"] _ eq_refl) as [Ha _].
  destruct (Hdirs ["b"] _ eq_refl) as [_ Hb].
  split.
  - apply Ha. exists ["x.png"], (Q2Qc (QArith_base.inject_Z 2)), "x".
    split; [reflexivity|]. by vm_compute.
  - apply Hb. intros (rel' & m & d & Hfile & Hin).
    destruct rel' as [|k [|k' rest]]; [discriminate Hfile| |].
    + cbn [Fs.lookup Fs.assoc] in Hfile.
      destruct (String.eqb_spec k "y.png") as [->|_]; [|discriminate Hfile].
      revert Hin. by vm_compute.
    + cbn [Fs.lookup Fs.assoc] in Hfile.
      destruct (String.eqb k "y.png"); discriminate Hfile.
Defined.

(** ** The two generators *)

Lemma drop_until_slash_rev_app s acc :
  has_char "/" s = false →
  drop_until_slash (String.rev_app s acc) = drop_until_slash acc.
Proof.
  revert acc. induction s as [|c s IH]; intros acc; [done|].
  cbn [has_char String.rev_app]. intros [Hc Hs]%orb_false_elim.
  rewrite (IH _ Hs). cbn [drop_until_slash]. by rewrite Hc.
Qed.

Lemma dirname_no_slash p : has_char "/" p = false → os_path_dirname p = "".
Proof.
  intros H. unfold os_path_dirname.
  assert (drop_until_slash (String.rev p) = "") as ->; [|done].
  unfold String.rev. by rewrite (drop_until_slash_rev_app _ _ H).
Qed.

Lemma os_makedirs_empty w :
  os_makedirs "" w = (Raise (OSError "mkdir" ""), emit (EvMakedirs "") w).
Proof. reflexivity. Qed.

(** X5: given an output path without a slash, [os.path.dirname] yields the
    empty string and [os.makedirs('')] raises: both generators fail with
    that [OSError] and write nothing ([gen_monolithic_register_modules]
    after the feature sets have been fetched). *)
Theorem generators_fail_on_bare_filename (E : Env) (w : World)
    (a0 a1 out : string) :
  batch w = false →
  argv w = [a0; a1; out] →
  has_char "/" out = false →
  gen_python_init_module E w =
    (Raise (OSError "mkdir" ""), emit (EvMakedirs "") w)
  ∧ gen_monolithic_register_modules E w =
      match get_all_for_project E (PROJROOT E) w with
      | Ok _ => (Raise (OSError "mkdir" ""), emit (EvMakedirs "") w)
      | Raise e => (Raise e, w)
      | OutOfFuel => (OutOfFuel, w)
      end.
Proof.
  intros Hb Hargv Hbare. split.
  - unfold gen_python_init_module. step_guard Hb. rewrite bind_eq.
    unfold get_argv. rewrite Hargv. cbn [List.length Nat.eqb negb nth].
    rewrite (dirname_no_slash _ Hbare). rewrite bind_eq.
    by rewrite os_makedirs_empty.
  - unfold gen_monolithic_register_modules. step_guard Hb. rewrite bind_eq.
    unfold get_argv. rewrite Hargv. cbn [List.length Nat.eqb negb nth].
    rewrite bind_eq. unfold lift.
    destruct (get_all_for_project E (PROJROOT E) w) as [fsets| |]; try done.
    rewrite (dirname_no_slash _ Hbare). rewrite bind_eq.
    by rewrite os_makedirs_empty.
Qed.

Lemma generators_fail_on_bare_filename_witness :
  batch (Demo.init_world "__init__.py") = false
  ∧ has_char "/" "__init__.py" = false
  ∧ gen_python_init_module Demo.env (Demo.init_world "__init__.py") =
      (Raise (OSError "mkdir" ""),
       emit (EvMakedirs "") (Demo.init_world "__init__.py")).
Proof.
  split; [reflexivity|]. split; [reflexivity|].
  exact (proj1 (generators_fail_on_bare_filename Demo.env
                  (Demo.init_world "__init__.py")
                  "pcommand" "gen_python_init_module" "__init__.py"
                  eq_refl eq_refl eq_refl)).
Defined.

Lemma stat_pos_lookup k :
  ∀ root pos pos' n,
    Fs.stat_pos k root pos = Some (pos', n) → Fs.lookup pos' root = Some n.
Proof.
  induction k as [|k IH]; intros root pos pos' n; cbn [Fs.stat_pos].
  - destruct (Fs.lookup pos root) as [[| |]|] eqn:Hl; try done;
      by intros [= <- <-].
  - destruct (Fs.lookup pos root) as [[|t|]|] eqn:Hl; try done;
      try by intros [= <- <-].
    destruct (Fs.resolve _ t) as [pos''|]; [|done]. apply IH.
Qed.

Lemma assoc_set_entry k v es : Fs.assoc k (Fs.set_entry k v es) = Some v.
Proof.
  unfold Fs.set_entry. destruct (Fs.assoc k es) eqn:Hk.
  - by rewrite assoc_alter_eq, Hk.
  - by apply assoc_app_None.
Qed.

Lemma assoc_set_entry_ne k k' v es :
  k ≠ k' → Fs.assoc k' (Fs.set_entry k v es) = Fs.assoc k' es.
Proof.
  intros Hne. unfold Fs.set_entry. destruct (Fs.assoc k es) eqn:Hk.
  - by apply assoc_alter_ne.
  - induction es as [|[k0 v0] es IH]; cbn.
    + by assert (String.eqb k' k = false) as -> by (apply String.eqb_neq; congruence).
    + cbn in Hk. destruct (String.eqb k k0) eqn:Hk0; [done|].
      destruct (String.eqb k' k0); [done|]. by apply IH.
Qed.

Lemma lookup_put_file par k v root es :
  Fs.lookup par root = Some (Fs.Dir es) →
  Fs.lookup (par ++ [k]) (put_file par k v root) = Some v.
Proof.
  intros H. unfold put_file. rewrite lookup_app, lookup_modify, H. cbn.
  by rewrite assoc_set_entry.
Qed.

Lemma lookup_put_file_link par k v :
  ∀ root q t m d,
    Fs.lookup (par ++ [k]) root = Some (Fs.File m d) →
    Fs.lookup q root = Some (Fs.Symlink t) →
    Fs.lookup q (put_file par k v root) = Some (Fs.Symlink t).
Proof.
  unfold put_file. induction par as [|c par IH]; intros root q t m d Hf Hq.
  - cbn [app Fs.lookup Fs.modify] in *. destruct root as [| |es]; try done.
    destruct q as [|c' q']; [done|]. cbn [Fs.lookup Fs.on_entries] in *.
    destruct (decide (k = c')) as [<-|Hk].
    + destruct (Fs.assoc k es) as [x|]; [|done]. injection Hf as ->.
      by destruct q'.
    + by rewrite (assoc_set_entry_ne _ _ _ _ Hk).
  - cbn [app Fs.lookup Fs.modify] in *. destruct root as [| |es]; try done.
    destruct q as [|c' q']; [done|]. cbn [Fs.lookup] in *.
    destruct (decide (c = c')) as [<-|Hc].
    + rewrite assoc_alter_eq. destruct (Fs.assoc c es) as [sub|]; [|done].
      cbn. by apply (IH sub q' t m d).
    + by rewrite (assoc_alter_ne _ _ _ _ Hc).
Qed.

Lemma stat_pos_put_file par k v m d root fuel :
  Fs.lookup (par ++ [k]) root = Some (Fs.File m d) →
  (∀ t, v ≠ Fs.Symlink t) →
  ∀ pos, Fs.stat_pos fuel root pos = Some (par ++ [k], Fs.File m d) →
    Fs.stat_pos fuel (put_file par k v root) pos = Some (par ++ [k], v).
Proof.
  intros Hf Hv.
  destruct (lookup_prefix_dir par [k] root _ ltac:(done) Hf) as [es Hpar].
  pose proof (lookup_put_file par k v root es Hpar) as Hnew.
  induction fuel as [|fuel IH]; intros pos; cbn [Fs.stat_pos].
  - destruct (Fs.lookup pos root) as [[| |]|] eqn:Hl; try done;
      intros [= -> <-]; rewrite Hnew; destruct v; try done; by destruct (Hv target).
  - destruct (Fs.lookup pos root) as [[|t|]|] eqn:Hl; try done.
    + intros [= -> <-]. rewrite Hnew. destruct v; try done. by destruct (Hv target).
    + rewrite (lookup_put_file_link par k v root pos t m d Hf Hl).
      destruct (Fs.resolve _ t) as [pos''|]; [|done]. apply IH.
Qed.

Lemma removelast_snoc_last {A} (l : list A) d :
  l ≠ [] → removelast l ++ [List.last l d] = l.
Proof. intros H. symmetry. by apply app_removelast_last. Qed.

Lemma write_text_read_text p data w w' :
  write_text p data w = (Ok tt, w') →
  read_text p w' = (Ok data, w')
  ∧ trace w' = trace w ++ [EvWrite p data]
  ∧ stdout w' = stdout w ∧ cwd w' = cwd w.
Proof.
  unfold write_text, read_text, Fs.stat.
  destruct (Fs.resolve (cwd w) p) as [pos|] eqn:Hr; [|done].
  set (put := λ pos0 : Fs.path,
    match pos0, Fs.lookup (removelast pos0) (fs w) with
    | _ :: _, Some (Fs.Dir _) =>
        (Ok (),
         set_fs (Fs.modify (removelast pos0)
                   (Fs.on_entries (Fs.set_entry (List.last pos0 "") (Fs.File (now w) data)))
                   (fs w)) (emit (EvWrite p data) w))
    | _, _ => (Raise (OSError "open" p), emit (EvWrite p data) w)
    end).
  assert (Hshape : ∀ pos0, put pos0 = (Ok tt, w') →
    pos0 ≠ [] ∧ (∃ es, Fs.lookup (removelast pos0) (fs w) = Some (Fs.Dir es))
    ∧ w' = set_fs (put_file (removelast pos0) (List.last pos0 "")
                     (Fs.File (now w) data) (fs w)) (emit (EvWrite p data) w)).
  { intros pos0. unfold put. destruct pos0 as [|c pos0]; [done|].
    destruct (Fs.lookup _ _) as [[| |es]|]; try done.
    intros [= <-]. split; [done|]. split; [by exists es|done]. }
  destruct (Fs.stat_pos 40 (fs w) pos) as [[pos' n]|] eqn:Hs.
  - destruct n as [m d| |]; try done. intros Hw.
    destruct (Hshape pos' Hw) as (Hne & [es Hpar] & ->). cbn [cwd fs set_fs emit set_trace trace stdout].
    rewrite Hr.
    pose proof (stat_pos_lookup _ _ _ _ _ Hs) as Hl.
    rewrite <- (removelast_snoc_last pos' "" Hne) in Hl, Hs.
    rewrite (stat_pos_put_file _ _ (Fs.File (now w) data) m d _ _ Hl ltac:(done) _ Hs).
    done.
  - destruct (Fs.lookup pos (fs w)) eqn:Hl; [done|]. intros Hw.
    destruct (Hshape pos Hw) as (Hne & [es Hpar] & ->). cbn [cwd fs set_fs emit set_trace trace stdout].
    rewrite Hr.
    pose proof (lookup_put_file _ (List.last pos "") (Fs.File (now w) data) _ _ Hpar) as Hnew.
    rewrite (removelast_snoc_last pos "" Hne) in Hnew.
    by rewrite (stat_pos_file _ _ _ _ _ Hnew).
Qed.

(** X6: when [gen_python_init_module] returns, the output file reads back
    as exactly the two licence lines, whatever it held before; the command
    has printed one [Meta-building] line and has done nothing but
    [os.makedirs] of the directory part and the write. *)
Theorem gen_python_init_module_writes_header (E : Env) (w w' : World)
    (a0 a1 out : string) :
  batch w = false →
  argv w = [a0; a1; out] →
  gen_python_init_module E w = (Ok tt, w') →
  ∃ pretty : string,
    project_centric_path E (PROJROOT E) out = Ok pretty
    ∧ read_text out w' =
        (Ok ("# Released under the MIT License. See LICENSE for details."
             +:+ nl +:+ "#" +:+ nl), w')
    ∧ stdout w' =
        stdout w +:+ ("Meta-building " +:+ Clr_BLD E +:+ pretty +:+ Clr_RST E)
        +:+ nl
    ∧ trace w' =
        trace w
        ++ [EvMakedirs (os_path_dirname out);
            EvWrite out
              ("# Released under the MIT License. See LICENSE for details."
               +:+ nl +:+ "#" +:+ nl)].
Proof.
  intros Hb Hargv. unfold gen_python_init_module. step_guard Hb.
  rewrite bind_eq. unfold get_argv. rewrite Hargv.
  cbn [List.length Nat.eqb negb nth]. rewrite bind_eq.
  destruct (os_makedirs_cases (os_path_dirname out) w) as [[f ->] | ->]; [|done].
  rewrite bind_eq. unfold lift.
  destruct (project_centric_path E (PROJROOT E) out) as [pretty| |]; try done.
  rewrite bind_eq. unfold print.
  intros Hw. apply write_text_read_text in Hw as (Hread & Htr & Hout & _).
  exists pretty. split; [done|]. split; [done|]. split; [done|].
  rewrite Htr. cbn. by rewrite <- app_assoc.
Qed.

Lemma gen_python_init_module_writes_header_witness :
  let w := Demo.init_world "out/gen/__init__.py" in
  let w' := snd (gen_python_init_module Demo.env w) in
  batch w = false
  ∧ gen_python_init_module Demo.env w = (Ok tt, w')
  ∧ read_text "out/gen/__init__.py" w' =
      (Ok ("# Released under the MIT License. See LICENSE for details."
           +:+ nl +:+ "#" +:+ nl), w').
Proof.
  intros w w'.
  assert (Hrun : gen_python_init_module Demo.env w = (Ok tt, w'))
    by (vm_compute; reflexivity).
  destruct (gen_python_init_module_writes_header Demo.env w w' "pcommand"
              "gen_python_init_module" "out/gen/__init__.py"
              eq_refl eq_refl Hrun) as (pretty & _ & Hread & _).
  split; [reflexivity|]. split; [exact Hrun|exact Hread].
Defined.

(** X7: when [gen_monolithic_register_modules] returns, the output file
    reads back as exactly the header text of the feature sets of the
    project; nothing is printed, and nothing is done but [os.makedirs] of
    the directory part and the write. *)
Theorem gen_monolithic_register_modules_writes_header (E : Env)
    (w w' : World) (a0 a1 out : string) :
  batch w = false →
  argv w = [a0; a1; out] →
  gen_monolithic_register_modules E w = (Ok tt, w') →
  ∃ featuresets : list FeatureSet,
    get_all_for_project E (PROJROOT E) w = Ok featuresets
    ∧ read_text out w' = (Ok (Header.header_text featuresets), w')
    ∧ stdout w' = stdout w
    ∧ trace w' =
        trace w
        ++ [EvMakedirs (os_path_dirname out);
            EvWrite out (Header.header_text featuresets)].
Proof.
  intros Hb Hargv. unfold gen_monolithic_register_modules. step_guard Hb.
  rewrite bind_eq. unfold get_argv. rewrite Hargv.
  cbn [List.length Nat.eqb negb nth]. rewrite bind_eq. unfold lift.
  destruct (get_all_for_project E (PROJROOT E) w) as [featuresets| |]; try done.
  rewrite bind_eq.
  destruct (os_makedirs_cases (os_path_dirname out) w) as [[f ->] | ->]; [|done].
  intros Hw. apply write_text_read_text in Hw as (Hread & Htr & Hout & _).
  exists featuresets. split; [done|]. split; [done|]. split; [done|].
  rewrite Htr. cbn. by rewrite <- app_assoc.
Qed.

Lemma gen_monolithic_register_modules_writes_header_witness :
  let w := Demo.header_world "out/gen/mods.h" in
  let w' := snd (gen_monolithic_register_modules Demo.env w) in
  batch w = false
  ∧ gen_monolithic_register_modules Demo.env w = (Ok tt, w')
  ∧ read_text "out/gen/mods.h" w' =
      (Ok (Header.header_text example_featuresets), w').
Proof.
  intros w w'.
  assert (Hrun : gen_monolithic_register_modules Demo.env w = (Ok tt, w'))
    by (vm_compute; reflexivity).
  destruct (gen_monolithic_register_modules_writes_header Demo.env w w'
              "pcommand" "gen_monolithic_register_modules" "out/gen/mods.h"
              eq_refl eq_refl Hrun) as (featuresets & Hget & Hread & _).
  split; [reflexivity|]. split; [exact Hrun|].
  injection Hget as <-. exact Hread.
Defined.

(** ** The header text *)

(** X8: the header depends on nothing but the collection of module names
    of the feature sets that have a binary module: the order of the
    feature sets, their own names and the feature sets without a binary
    module make no difference. *)
Theorem header_text_depends_on_kept_names_only (a b : list FeatureSet) :
  map name_python_binary_module
    (filter (fun f => has_python_binary_module f = true) a)
  ≡ₚ map name_python_binary_module
       (filter (fun f => has_python_binary_module f = true) b) →
  Header.header_text a = Header.header_text b.
Proof.
  intros Hperm.
  assert (Hnames : Header.pymodulenames a = Header.pymodulenames b).
  { apply (Sorted_unique String.le); try apply _.
    - apply pymodulenames_sorted.
    - apply pymodulenames_sorted.
    - by rewrite !pymodulenames_perm. }
  unfold Header.header_text. by rewrite Hnames.
Qed.

Lemma header_text_depends_on_kept_names_only_witness :
  Header.header_text
    [featureset_named "zeta"; featureset_named "alpha";
     {| fs_name := "docs"; has_python_binary_module := false;
        name_python_binary_module := "docs" |}]
  = Header.header_text [featureset_named "alpha"; featureset_named "zeta"].
Proof.
  apply header_text_depends_on_kept_names_only.
  vm_compute. apply Permutation_swap.
Defined.

Lemma slice_from_length t :
  ∀ s, String.prefix t s = true →
    String.length (slice_from (String.length t) s) + String.length t
    = String.length s.
Proof.
  induction t as [|c t IH]; intros s; cbn [String.length slice_from].
  - intros _. lia.
  - destruct s as [|x s]; [done|].
    change (String.prefix (String c t) (String x s))
      with (if ascii_dec c x then String.prefix t s else false).
    destruct (ascii_dec c x); [|done]. intros H%IH. cbn [String.length]. lia.
Qed.

Lemma drop_token_shorter toks s r :
  Forall (fun t => t ≠ "") toks →
  drop_token toks s = Some r → (String.length r < String.length s)%nat.
Proof.
  induction toks as [|t toks IH]; [done|]. cbn [drop_token].
  intros [Ht Htoks]%list.Forall_cons.
  destruct (String.prefix t s) eqn:Hp; [|by apply IH].
  intros [= <-]. pose proof (slice_from_length _ _ Hp).
  destruct t; [done|]. cbn [String.length] in *. lia.
Qed.

Lemma lstrip_go_done toks :
  Forall (fun t => t ≠ "") toks →
  ∀ fuel s, (String.length s ≤ fuel)%nat →
    drop_token toks (lstrip_go toks fuel s) = None.
Proof.
  intros Htoks. induction fuel as [|fuel IH]; intros s Hlen; cbn [lstrip_go].
  - destruct s; [|cbn in Hlen; lia].
    clear Hlen. induction Htoks as [|t toks Ht _ IHt]; [done|].
    cbn [drop_token]. destruct t; [done|]. exact IHt.
  - destruct (drop_token toks s) as [r|] eqn:Hd; [|done].
    apply IH. pose proof (drop_token_shorter _ _ _ Htoks Hd). lia.
Qed.

Lemma drop_token_none toks s t :
  drop_token toks s = None → t ∈ toks → String.prefix t s = false.
Proof.
  induction toks as [|t' toks IH]; intros Hd Hin; [by apply elem_of_nil in Hin|].
  cbn [drop_token] in Hd.
  destruct (String.prefix t' s) eqn:Hp; [done|].
  apply elem_of_cons in Hin as [->|Hin]; [done|by apply IH].
Qed.

Lemma has_char_rev_app c s acc :
  has_char c (String.rev_app s acc) = has_char c s || has_char c acc.
Proof.
  revert acc. induction s as [|x s IH]; intros acc; [done|].
  cbn [String.rev_app has_char]. rewrite IH. cbn [has_char].
  destruct (Ascii.eqb x c), (has_char c s), (has_char c acc); done.
Qed.

Lemma rev_app_app a b acc :
  String.rev_app (a +:+ b) acc = String.rev_app b (String.rev_app a acc).
Proof.
  revert acc. induction a as [|x a IH]; intros acc; [done|].
  rewrite string_app_cons. cbn [String.rev_app]. apply IH.
Qed.

Lemma rstrip_no_trailing_newline s : endswith (rstrip s) nl = false.
Proof.
  unfold endswith, rstrip. rewrite rev_involutive.
  apply (drop_token_none (map String.rev whitespace)).
  - apply lstrip_go_done.
    + unfold whitespace. repeat (apply list.Forall_cons; split; [done|]).
      apply Forall_nil.
    + unfold String.rev. rewrite string_length_rev_app. cbn [String.length]. lia.
  - change (String.rev nl) with (String.rev (of_codes [10])).
    apply list_elem_of_fmap_2. unfold whitespace.
    apply list_elem_of_fmap_2. set_solver.
Qed.

Lemma string_prefix_cons c a b :
  String.prefix (String c a) (String c b) = String.prefix a b.
Proof.
  change (String.prefix (String c a) (String c b))
    with (if ascii_dec c c then String.prefix a b else false).
  by destruct (ascii_dec c c).
Qed.

Lemma endswith_snoc s c : endswith (s +:+ String c "") (String c "") = true.
Proof.
  unfold endswith, String.rev. rewrite rev_app_app.
  cbn [String.rev_app]. rewrite prefix_char. apply Ascii.eqb_refl.
Qed.

Lemma one_newline_after body :
  endswith body nl = false →
  endswith (body +:+ nl) nl = true
  ∧ endswith (body +:+ nl) (nl +:+ nl) = false.
Proof.
  intros H. split; [apply endswith_snoc|].
  unfold endswith in *. unfold String.rev at 2. rewrite rev_app_app.
  change (String.rev_app nl (String.rev_app body ""))
    with (String (ascii_of_nat 10) (String.rev body)).
  change (String.rev (nl +:+ nl)) with (String (ascii_of_nat 10) nl).
  by rewrite string_prefix_cons.
Qed.

(** X9: for every list of feature sets the header ends with a line feed
    and not with two: the text is stripped before the one line feed is
    added. *)
Theorem header_text_ends_with_one_newline (featuresets : list FeatureSet) :
  endswith (Header.header_text featuresets) nl = true
  ∧ endswith (Header.header_text featuresets) (nl +:+ nl) = false.
Proof.
  unfold Header.header_text, strip.
  apply one_newline_after, rstrip_no_trailing_newline.
Qed.

(** ** [py_examine] *)

Lemma sys_path_with_elem d l : d ∈ sys_path_with d l.
Proof.
  unfold sys_path_with. destruct (bool_decide (d ∈ l)) eqn:H.
  - by apply bool_decide_eq_true in H.
  - apply elem_of_app. right. by left.
Qed.

Lemma sys_path_with_prefix d l : l `prefix_of` sys_path_with d l.
Proof.
  unfold sys_path_with. destruct (bool_decide (d ∈ l)); [done|].
  by apply prefix_app_r.
Qed.

Lemma sys_path_with_NoDup d l : NoDup l → NoDup (sys_path_with d l).
Proof.
  unfold sys_path_with. destruct (bool_decide (d ∈ l)) eqn:H; [done|].
  apply bool_decide_eq_false in H. intros Hnd.
  apply list.NoDup_app. split; [done|]. split; [|apply NoDup_singleton].
  intros x Hx ->%list_elem_of_singleton. done.
Qed.

Lemma py_examine_run (E : Env) (w : World)
    (a0 a1 f l c sel op : string) (li ci : Z) (root : Fs.path)
    (es : list (string * Fs.node)) :
  batch w = false →
  argv w = [a0; a1; f; l; c; sel; op] →
  py_int E l = Some li →
  py_int E c = Some ci →
  Fs.stat (fs w) (cwd w) (PROJROOT E) = Some (root, Fs.Dir es) →
  let abspath p :=
    (if startswith p "//" && negb (startswith p "///") then "/" else "")
    +:+ Fs.render (default root (Fs.resolve root p)) in
  let scriptsdir :=
    abspath (os_path_join (os_path_dirname a0) "../src/assets/ba_data/python") in
  let toolsdir := abspath (os_path_join (os_path_dirname a0) "../tools") in
  let path' := sys_path_with toolsdir (sys_path_with scriptsdir (sys_path w)) in
  py_examine E w =
    collaborator E "efrotools.py_examine"
      [AStr (PROJROOT E); AStr (Path_str f); AInt li; AInt ci;
       (if String.eqb sel "" then ANone else AStr sel); AStr op]
      (emit (EvCall "efrotools.py_examine")
         (set_sys_path path' (emit (EvChdir (PROJROOT E)) (set_cwd root w)))).
Proof.
  intros Hb Hargv Hl Hc Hroot abspath scriptsdir toolsdir path'.
  unfold py_examine. step_guard Hb. rewrite bind_eq. unfold get_argv.
  rewrite Hargv. cbn [List.length Nat.eqb negb nth].
  rewrite Hl, Hc. cbn [of_option].
  rewrite (bind_ok (ret li) _ w li w eq_refl).
  rewrite (bind_ok (ret ci) _ w ci w eq_refl).
  set (w1 := emit (EvChdir (PROJROOT E)) (set_cwd root w)).
  assert (Hch : os_chdir (PROJROOT E) w = (Ok tt, w1)).
  { unfold os_chdir. by rewrite Hroot. }
  rewrite (bind_ok _ _ _ _ _ Hch).
  rewrite (bind_ok
    (os_path_abspath
       (os_path_join (os_path_dirname a0) "../src/assets/ba_data/python"))
    _ w1 scriptsdir w1 eq_refl).
  rewrite (bind_ok
    (os_path_abspath (os_path_join (os_path_dirname a0) "../tools"))
    _ w1 toolsdir w1 eq_refl).
  unfold path', sys_path_with. change (sys_path w) with (sys_path w1).
  rewrite bind_eq.
  destruct (bool_decide (scriptsdir ∈ sys_path w1)) eqn:H1;
    rewrite bind_eq; cbn [sys_path set_sys_path];
    destruct (bool_decide (toolsdir ∈ _)) eqn:H2; done.
Qed.

(** X10: with seven arguments, numerals for line and column and a project
    root that is a directory and is named without [..], [py_examine]
    changes to the project root and calls [efrotools.py_examine] with the
    root, the path, the two numbers, [None] for an empty selection, and
    the operation.  [sys.path] has by
    then both directories in it, as [os.path.abspath] names them from the
    project root (a path with exactly two leading slashes keeps both);
    they were appended only if missing, so the old entries keep their
    places, at most two are added, and no duplicate is introduced. *)
Theorem py_examine_extends_sys_path (E : Env) (w : World)
    (a0 a1 f l c sel op : string) (li ci : Z) (root : Fs.path)
    (es : list (string * Fs.node)) :
  batch w = false →
  argv w = [a0; a1; f; l; c; sel; op] →
  py_int E l = Some li →
  py_int E c = Some ci →
  no_dotdot (PROJROOT E) = true →
  Fs.stat (fs w) (cwd w) (PROJROOT E) = Some (root, Fs.Dir es) →
  let abspath p :=
    (if startswith p "//" && negb (startswith p "///") then "/" else "")
    +:+ Fs.render (default root (Fs.resolve root p)) in
  let scriptsdir :=
    abspath (os_path_join (os_path_dirname a0) "../src/assets/ba_data/python") in
  let toolsdir := abspath (os_path_join (os_path_dirname a0) "../tools") in
  let path' := sys_path_with toolsdir (sys_path_with scriptsdir (sys_path w)) in
  py_examine E w =
    collaborator E "efrotools.py_examine"
      [AStr (PROJROOT E); AStr (Path_str f); AInt li; AInt ci;
       (if String.eqb sel "" then ANone else AStr sel); AStr op]
      (emit (EvCall "efrotools.py_examine")
         (set_sys_path path' (emit (EvChdir (PROJROOT E)) (set_cwd root w))))
  ∧ scriptsdir ∈ path' ∧ toolsdir ∈ path'
  ∧ sys_path w `prefix_of` path'
  ∧ (List.length path' ≤ List.length (sys_path w) + 2)%nat
  ∧ (NoDup (sys_path w) → NoDup path')
  ∧ (scriptsdir ∈ sys_path w → toolsdir ∈ sys_path w → path' = sys_path w).
Proof.
  intros Hb Hargv Hl Hc _ Hroot abspath scriptsdir toolsdir path'.
  split; [|split; [|split; [|split; [|split; [|split]]]]].
  - by apply (py_examine_run E w a0 a1 f l c sel op li ci root es).
  - unfold path'. pose proof (sys_path_with_prefix toolsdir (sys_path_with scriptsdir (sys_path w))) as [k ->].
    apply elem_of_app. left. apply sys_path_with_elem.
  - apply sys_path_with_elem.
  - etrans; apply sys_path_with_prefix.
  - unfold path', sys_path_with. repeat case_match; rewrite ?length_app; cbn; lia.
  - intros Hnd. by apply sys_path_with_NoDup, sys_path_with_NoDup.
  - intros H1 H2. unfold path', sys_path_with.
    rewrite (bool_decide_eq_true_2 _ H1). by rewrite (bool_decide_eq_true_2 _ H2).
Qed.

Lemma py_examine_extends_sys_path_witness :
  let started_at a0 :=
    Demo.world [a0; "py_examine"; "src/x.py"; "3"; "7"; ""; "hover"] false
      (Demo.project Demo.assets Demo.old_archive) in
  batch Demo.examine_world = false
  ∧ no_dotdot (PROJROOT Demo.env_ints) = true
  ∧ py_int Demo.env_ints "3" = Some 3%Z
  ∧ sys_path (snd (py_examine Demo.env_ints Demo.examine_world)) =
      ["/proj/src/assets/ba_data/python"; "/proj/tools"]
  ∧ sys_path (snd (py_examine Demo.env_ints (started_at "//bin/pcommand"))) =
      ["//src/assets/ba_data/python"; "//tools"]
  ∧ sys_path (snd (py_examine Demo.env_ints (started_at "///bin/pcommand"))) =
      ["/src/assets/ba_data/python"; "/tools"].
Proof.
  intros started_at.
  destruct (py_examine_extends_sys_path Demo.env_ints Demo.examine_world
              "tools/pcommand" "py_examine" "src/x.py" "3" "7" "" "hover"
              3%Z 7%Z ["proj"] _ eq_refl eq_refl eq_refl eq_refl eq_refl
              eq_refl)
    as (Hrun & _).
  destruct (py_examine_extends_sys_path Demo.env_ints
              (started_at "//bin/pcommand")
              "//bin/pcommand" "py_examine" "src/x.py" "3" "7" "" "hover"
              3%Z 7%Z ["proj"] _ eq_refl eq_refl eq_refl eq_refl eq_refl
              eq_refl)
    as (Hrun2 & _).
  destruct (py_examine_extends_sys_path Demo.env_ints
              (started_at "///bin/pcommand")
              "///bin/pcommand" "py_examine" "src/x.py" "3" "7" "" "hover"
              3%Z 7%Z ["proj"] _ eq_refl eq_refl eq_refl eq_refl eq_refl
              eq_refl)
    as (Hrun3 & _).
  split; [reflexivity|]. split; [reflexivity|]. split; [reflexivity|].
  split; [rewrite Hrun; reflexivity|].
  split; [rewrite Hrun2; reflexivity|rewrite Hrun3; reflexivity].
Defined.

Lemma drop_slashes_no_slash s : has_char "/" s = false → drop_slashes s = s.
Proof. destruct s as [|x s]; [done|]. cbn. by intros [-> _]%orb_false_elim. Qed.

Lemma all_slashes_name d x :
  d ≠ "" → has_char "/" d = false → all_slashes (d +:+ x) = false.
Proof.
  destruct d as [|c d]; [done|]. intros _. rewrite string_app_cons. cbn.
  by intros [-> _]%orb_false_elim.
Qed.

Lemma dirname_of_child d name :
  d ≠ "" → has_char "/" d = false → has_char "/" name = false →
  os_path_dirname (d +:+ "/" +:+ name) = d.
Proof.
  intros Hne Hd Hname. unfold os_path_dirname.
  assert (Hhead : String.rev (drop_until_slash (String.rev (d +:+ "/" +:+ name)))
                  = d +:+ "/").
  { unfold String.rev at 2. rewrite <- string_app_assoc, rev_app_app.
    rewrite (drop_until_slash_rev_app _ _ Hname).
    rewrite rev_app_app.
    change (String.rev_app "/" (String.rev_app d ""))
      with (String "/"%char (String.rev d)).
    change (drop_until_slash (String "/"%char (String.rev d)))
      with (String "/"%char (String.rev d)).
    unfold String.rev at 1. cbn [String.rev_app].
    rewrite rev_app_spec. by rewrite rev_involutive. }
  rewrite Hhead. rewrite (all_slashes_name _ _ Hne Hd).
  unfold String.rev at 2. rewrite rev_app_app.
  change (String.rev_app "/" (String.rev_app d ""))
    with (String "/"%char (String.rev d)).
  change (drop_slashes (String "/"%char (String.rev d)))
    with (drop_slashes (String.rev d)).
  rewrite drop_slashes_no_slash.
  - apply rev_involutive.
  - unfold String.rev. rewrite has_char_rev_app, Hd. done.
Qed.

Lemma valid_name_parts d :
  valid_name d = true → d ≠ "" ∧ has_char "/" d = false.
Proof.
  unfold valid_name. intros [[[H1 _]%andb_prop _]%andb_prop H4]%andb_prop.
  apply negb_true_iff in H1, H4. split; [|done].
  intros ->. discriminate H1.
Qed.

Lemma endswith_no_slash d : has_char "/" d = false → endswith d "/" = false.
Proof.
  intros Hd. destruct (endswith d "/") eqn:He; [|done].
  destruct (endswith_slash_inv _ He) as [t ->].
  change "/" with (String "/"%char "") in Hd. by rewrite has_char_snoc in Hd.
Qed.

Lemma resolve_sibling root d x :
  valid_name d = true →
  startswith x "/" = false →
  Fs.resolve root (os_path_join d (".." +:+ "/" +:+ x)) =
    Some (fold_left Fs.norm_step (split "/"%char x) root).
Proof.
  intros Hd Hx. destruct (valid_name_parts _ Hd) as [Hne Hns].
  unfold os_path_join.
  change (startswith (".." +:+ "/" +:+ x) "/") with false. cbn match.
  apply String.eqb_neq in Hne as Hne'. rewrite Hne'.
  rewrite (endswith_no_slash _ Hns). cbn [orb].
  unfold Fs.resolve.
  assert (String.eqb (d +:+ "/" +:+ ".." +:+ "/" +:+ x) "" = false) as ->.
  { apply String.eqb_neq. by destruct d. }
  rewrite (startswith_app d _ "/"%char) by done.
  rewrite (valid_name_no_slash _ Hd).
  unfold split.
  change ("/" +:+ ".." +:+ "/" +:+ x) with (String "/"%char (".." +:+ String "/"%char x)).
  rewrite !split_go_app, !fold_left_app.
  fold (split "/"%char d). rewrite (split_no_sep _ _ Hns).
  change (split_go "/" "" "..") with [".."]. cbn [fold_left].
  rewrite (norm_step_valid _ _ Hd).
  change (Fs.norm_step (root ++ [d]) "..") with (removelast (root ++ [d])).
  by rewrite List.removelast_last.
Qed.

Lemma norm_steps_valid l :
  ∀ acc, Forall (fun k => valid_name k = true) l →
    fold_left Fs.norm_step l acc = acc ++ l.
Proof.
  induction l as [|k l IH]; intros acc Hl; cbn [fold_left].
  - by rewrite app_nil_r.
  - apply list.Forall_cons in Hl as [Hk Hl].
    rewrite (norm_step_valid _ _ Hk), (IH _ Hl). by rewrite <- app_assoc.
Qed.

Lemma single_slash_start s :
  startswith s "/" = false → startswith s "//" = false.
Proof.
  destruct s as [|c s]; [done|]. unfold startswith.
  change (String.prefix "/" (String c s))
    with (if ascii_dec "/" c then String.prefix "" s else false).
  change (String.prefix "//" (String c s))
    with (if ascii_dec "/" c then String.prefix "/" s else false).
  destruct (ascii_dec "/" c); [by destruct s|done].
Qed.

Lemma join_valid_single_slash d x :
  valid_name d = true → startswith x "/" = false →
  startswith (os_path_join d x) "//" = false.
Proof.
  intros Hd Hx. apply single_slash_start. unfold os_path_join. rewrite Hx.
  destruct (valid_name_parts _ Hd) as [Hne _].
  destruct (String.eqb d "" || endswith d "/");
    rewrite (startswith_app d _ "/"%char) by done;
    by apply valid_name_no_slash.
Qed.

(** X11: the two directories are taken relative to the project root, not
    to the directory the command was started in, since the working
    directory is changed first.  When [sys.argv[0]] is [<dir>/<name>] with
    one plain directory name, they are [src/assets/ba_data/python] and
    [tools] of the project root; when [sys.argv[0]] has no directory part,
    they are those of the parent of the project root. *)
Theorem py_examine_directories (E : Env) (w : World)
    (a0 a1 f l c sel op : string) (li ci : Z) (root : Fs.path)
    (es : list (string * Fs.node)) :
  batch w = false →
  argv w = [a0; a1; f; l; c; sel; op] →
  py_int E l = Some li →
  py_int E c = Some ci →
  Fs.stat (fs w) (cwd w) (PROJROOT E) = Some (root, Fs.Dir es) →
  let run (base : Fs.path) :=
    collaborator E "efrotools.py_examine"
      [AStr (PROJROOT E); AStr (Path_str f); AInt li; AInt ci;
       (if String.eqb sel "" then ANone else AStr sel); AStr op]
      (emit (EvCall "efrotools.py_examine")
         (set_sys_path
            (sys_path_with (Fs.render (base ++ ["tools"]))
               (sys_path_with
                  (Fs.render (base ++ ["src"; "assets"; "ba_data"; "python"]))
                  (sys_path w)))
            (emit (EvChdir (PROJROOT E)) (set_cwd root w)))) in
  (∀ d name : string,
     a0 = d +:+ "/" +:+ name → valid_name d = true →
     has_char "/" name = false →
     py_examine E w = run root)
  ∧ (has_char "/" a0 = false → py_examine E w = run (removelast root)).
Proof.
  intros Hb Hargv Hl Hc Hroot run.
  pose proof (py_examine_run E w a0 a1 f l c sel op li ci root es
                Hb Hargv Hl Hc Hroot) as Hrun.
  cbv zeta in Hrun. split.
  - intros d name -> Hd Hname. rewrite Hrun. unfold run.
    destruct (valid_name_parts _ Hd) as [Hne Hns].
    rewrite (dirname_of_child _ _ Hne Hns Hname).
    change "../src/assets/ba_data/python"
      with (".." +:+ "/" +:+ "src/assets/ba_data/python").
    change "../tools" with (".." +:+ "/" +:+ "tools").
    rewrite (join_valid_single_slash d _ Hd
               (eq_refl : startswith (".." +:+ "/" +:+ "tools") "/" = false)).
    rewrite (join_valid_single_slash d _ Hd
               (eq_refl : startswith
                            (".." +:+ "/" +:+ "src/assets/ba_data/python") "/"
                          = false)).
    cbn [andb].
    repeat match goal with
           | |- context [ "" +:+ ?x ] => change ("" +:+ x) with x
           end.
    rewrite (resolve_sibling root d "src/assets/ba_data/python" Hd eq_refl).
    rewrite (resolve_sibling root d "tools" Hd eq_refl).
    change (split "/" "tools") with ["tools"].
    change (split "/" "src/assets/ba_data/python")
      with ["src"; "assets"; "ba_data"; "python"].
    by rewrite !norm_steps_valid by (repeat constructor).
  - intros Hbare. rewrite Hrun. unfold run.
    rewrite (dirname_no_slash _ Hbare).
    change (startswith (os_path_join "" "../tools") "//") with false.
    change (startswith (os_path_join "" "../src/assets/ba_data/python") "//")
      with false.
    cbn [andb].
    repeat match goal with
           | |- context [ "" +:+ ?x ] => change ("" +:+ x) with x
           end.
    change (Fs.resolve root (os_path_join "" "../tools"))
      with (Some (fold_left Fs.norm_step ["tools"] (removelast root))).
    change (Fs.resolve root (os_path_join "" "../src/assets/ba_data/python"))
      with (Some (fold_left Fs.norm_step
                    ["src"; "assets"; "ba_data"; "python"] (removelast root))).
    by rewrite !norm_steps_valid by (repeat constructor).
Qed.

Lemma py_examine_directories_witness :
  batch Demo.examine_world = false
  ∧ valid_name "tools" = true
  ∧ py_examine Demo.env_ints Demo.examine_world =
      (Ok tt,
       emit (EvCall "efrotools.py_examine")
         (set_sys_path ["/proj/src/assets/ba_data/python"; "/proj/tools"]
            (emit (EvChdir "/proj") (set_cwd ["proj"] Demo.examine_world)))).
Proof.
  destruct (py_examine_directories Demo.env_ints Demo.examine_world
              "tools/pcommand" "py_examine" "src/x.py" "3" "7" "" "hover"
              3%Z 7%Z ["proj"] _ eq_refl eq_refl eq_refl eq_refl eq_refl)
    as (Hrel & _).
  split; [reflexivity|]. split; [reflexivity|].
  rewrite (Hrel "tools" "pcommand" eq_refl eq_refl eq_refl). reflexivity.
Defined.

(** ** [wsl_path_to_win] *)

Lemma wsl_parse_flags args :
  ∀ c e o w, path_args args = [] →
    wsl_parse_args args c e o w =
      (Ok (c || has_flag "--create" args, e || has_flag "--escape" args, o), w).
Proof.
  induction args as [|a args IH]; intros c e o w; cbn [wsl_parse_args].
  - intros _. cbn. by rewrite !orb_false_r.
  - unfold path_args. cbn [List.filter]. unfold is_flag.
    destruct (String.eqb a "--create") eqn:H1.
    + apply String.eqb_eq in H1 as ->. cbn. intros H.
      rewrite (IH true e o w H). by rewrite orb_true_r.
    + destruct (String.eqb a "--escape") eqn:H2; [|done].
      apply String.eqb_eq in H2 as ->. cbn. intros H.
      rewrite (IH c true o w H). by rewrite orb_true_r.
Qed.

Lemma wsl_parse_one args p :
  ∀ c e w, path_args args = [p] →
    wsl_parse_args args c e None w =
      (Ok (c || has_flag "--create" args, e || has_flag "--escape" args,
           Some p), w).
Proof.
  induction args as [|a args IH]; intros c e w; cbn [wsl_parse_args]; [done|].
  unfold path_args. cbn [List.filter]. unfold is_flag.
  destruct (String.eqb a "--create") eqn:H1.
  - apply String.eqb_eq in H1 as ->. cbn. intros H.
    rewrite (IH true e w H). by rewrite orb_true_r.
  - destruct (String.eqb a "--escape") eqn:H2.
    + apply String.eqb_eq in H2 as ->. cbn. intros H.
      rewrite (IH c true w H). by rewrite orb_true_r.
    + cbn [negb orb]. intros [= -> H].
      rewrite (wsl_parse_flags args c e (Some p) w H).
      unfold has_flag. cbn [existsb].
      rewrite (String.eqb_sym "--create"), H1.
      by rewrite (String.eqb_sym "--escape"), H2.
Qed.

(** X12: outside of batch dispatch, [wsl_path_to_win] given fewer than
    three arguments, flags only, or two or more paths logs the clean error
    [Expected at least 1 path arg.], [No path provided.] or
    [More than one path provided.] respectively, prints the sentinel and
    returns, having touched nothing; the flags may stand anywhere. *)
Theorem wsl_path_to_win_argument_errors (E : Env) (w : World) :
  batch w = false →
  let args := drop 2 (argv w) in
  let failed (msg : string) := (Ok tt, sentinel_world (CleanError msg) w) in
  ((List.length (argv w) < 3)%nat →
     wsl_path_to_win E w = failed "Expected at least 1 path arg.")
  ∧ ((3 ≤ List.length (argv w))%nat → path_args args = [] →
     wsl_path_to_win E w = failed "No path provided.")
  ∧ ((2 ≤ List.length (path_args args))%nat →
     wsl_path_to_win E w = failed "More than one path provided.").
Proof.
  intros Hb args failed. split; [|split].
  - intros Hlen. apply wsl_path_to_win_caught; [done| |done].
    unfold wsl_path_to_win_guarded. rewrite bind_eq. unfold get_argv.
    apply Nat.ltb_lt in Hlen. by rewrite Hlen.
  - intros Hlen Hnone. apply wsl_path_to_win_caught; [done| |done].
    unfold wsl_path_to_win_guarded. rewrite bind_eq. unfold get_argv.
    apply Nat.ltb_ge in Hlen. rewrite Hlen. rewrite bind_eq.
    fold args. by rewrite (wsl_parse_flags args false false None w Hnone).
  - intros Hmany. apply wsl_path_to_win_caught; [done| |done].
    unfold wsl_path_to_win_guarded. rewrite bind_eq. unfold get_argv.
    assert (Hlen : (List.length (argv w) <? 3)%nat = false).
    { apply Nat.ltb_ge. unfold args in Hmany.
      destruct (argv w) as [|x [|y [|z l]]]; cbn in *; lia. }
    rewrite Hlen. rewrite bind_eq. fold args.
    rewrite (wsl_parse_many args false false None w); [done|lia].
Qed.

Lemma wsl_path_to_win_argument_errors_witness :
  batch Demo.no_args_world = false
  ∧ wsl_path_to_win Demo.env Demo.no_args_world =
      (Ok tt,
       sentinel_world (CleanError "Expected at least 1 path arg.")
         Demo.no_args_world).
Proof.
  split; [reflexivity|].
  apply (proj1 (wsl_path_to_win_argument_errors Demo.env Demo.no_args_world
                  eq_refl)).
  vm_compute. lia.
Defined.

Lemma isdir_exists root cwd p : Fs.isdir root cwd p = true → Fs.exists_ root cwd p = true.
Proof. unfold Fs.isdir, Fs.exists_. by destruct (Fs.stat root cwd p). Qed.

(** X13: with [--create] and one path, the path is made first and the
    check that it exists cannot fail: the guarded part is [os.makedirs]
    followed by [wslpath], and it never raises a clean error. *)
Theorem wsl_path_to_win_create_makes_path_exist (E : Env) (w : World)
    (p : string) :
  path_args (drop 2 (argv w)) = [p] →
  has_flag "--create" (drop 2 (argv w)) = true →
  wsl_path_to_win_guarded E w =
    (os_makedirs p ;;
     results ← subprocess_run E ["wslpath"; "-w"; "-a"; p] None true;
     ret (results, p, has_flag "--escape" (drop 2 (argv w)))) w
  ∧ ∀ (e : exn) (w' : World),
      wsl_path_to_win_guarded E w = (Raise e, w') →
      ∀ msg, e ≠ CleanError msg.
Proof.
  intros Hone Hcreate.
  assert (Hrun : wsl_path_to_win_guarded E w =
    (os_makedirs p ;;
     results ← subprocess_run E ["wslpath"; "-w"; "-a"; p] None true;
     ret (results, p, has_flag "--escape" (drop 2 (argv w)))) w).
  { unfold wsl_path_to_win_guarded. rewrite bind_eq. unfold get_argv.
    assert (Hlen : (List.length (argv w) <? 3)%nat = false).
    { apply Nat.ltb_ge. destruct (argv w) as [|x [|y [|z l]]]; cbn in *; try done; lia. }
    rewrite Hlen. rewrite bind_eq.
    rewrite (wsl_parse_one _ p false false w Hone), Hcreate. cbn [orb].
    rewrite !bind_eq.
    destruct (os_makedirs p w) as [[[]| |] w2] eqn:Hmk; try done.
    rewrite bind_eq. unfold os_path_exists.
    by rewrite (isdir_exists _ _ _ (os_makedirs_is_dir _ _ _ Hmk)). }
  split; [exact Hrun|].
  intros e w'. rewrite Hrun, bind_eq.
  destruct (os_makedirs_cases p w) as [[f ->] | ->]; [|by intros [= <- <-]].
  rewrite bind_eq.
  destruct (subprocess_run_cases E ["wslpath"; "-w"; "-a"; p] None true
              (set_fs f (emit (EvMakedirs p) w)))
    as [(r & f' & ->) | [(rc & f' & ->) | ->]]; by intros [= <- <-].
Qed.

Lemma wsl_path_to_win_create_makes_path_exist_witness :
  path_args (drop 2 (argv Demo.create_world)) = ["out/new"]
  ∧ has_flag "--create" (drop 2 (argv Demo.create_world)) = true
  ∧ Fs.exists_ (fs Demo.create_world) (cwd Demo.create_world) "out/new" = false
  ∧ fst (wsl_path_to_win_guarded Demo.env Demo.create_world) =
      Ok ({| returncode := 0; proc_stdout := Demo.wsl_output |},
          "out/new", false).
Proof.
  destruct (wsl_path_to_win_create_makes_path_exist Demo.env
              Demo.create_world "out/new" eq_refl eq_refl) as [Hrun _].
  split; [reflexivity|]. split; [reflexivity|]. split; [reflexivity|].
  rewrite Hrun. reflexivity.
Defined.

Lemma replace_backslashes s :
  replace s bsl (bsl +:+ bsl) = double_backslashes s.
Proof.
  unfold replace. change bsl with (String (ascii_of_nat 92) "") at 1.
  cbv iota.
  induction s as [|c s IH]; [done|].
  cbn [replace_go double_backslashes].
  change bsl with (String (ascii_of_nat 92) "") at 1.
  rewrite prefix_char.
  change (String.length bsl - 1) with 0.
  destruct (Ascii.eqb c (ascii_of_nat 92)) eqn:Hc.
  - apply Ascii.eqb_eq in Hc as ->. by rewrite IH.
  - by rewrite IH.
Qed.

Lemma wsl_guarded_ok E w w1 results p escape :
  wsl_path_to_win_guarded E w = (Ok (results, p, escape), w1) →
  path_args (drop 2 (argv w)) = [p]
  ∧ escape = has_flag "--escape" (drop 2 (argv w))
  ∧ stdout w1 = stdout w.
Proof.
  unfold wsl_path_to_win_guarded. rewrite bind_eq. unfold get_argv.
  case_match; [unfold raise; intros [=]|]. rewrite bind_eq.
  destruct (path_args (drop 2 (argv w))) as [|p' [|p'' l]] eqn:Hp.
  - rewrite (wsl_parse_flags _ false false None w Hp). unfold raise. intros [=].
  - rewrite (wsl_parse_one _ p' false false w Hp). cbn [orb]. rewrite bind_eq.
    assert (∀ w2, stdout w2 = stdout w →
      (present ← os_path_exists p';
       if negb present
       then raise (CleanError ("Path '" +:+ p' +:+ "' does not exist."))
       else results ← subprocess_run E ["wslpath"; "-w"; "-a"; p'] None true;
            ret (results, p', has_flag "--escape" (drop 2 (argv w)))) w2
      = (Ok (results, p, escape), w1) →
      [p'] = [p] ∧ escape = has_flag "--escape" (drop 2 (argv w))
      ∧ stdout w1 = stdout w) as Hrest.
    { intros w2 Hs. rewrite bind_eq. unfold os_path_exists.
      case_match; [unfold raise; intros [=]|]. rewrite bind_eq.
      destruct (subprocess_run_cases E ["wslpath"; "-w"; "-a"; p'] None true w2)
        as [(r & f & ->) | [(rc & f & ->) | ->]]; try (intros [=]; fail).
      unfold ret. by intros [= <- <- <- <-]. }
    destruct (has_flag "--create" _).
    + destruct (os_makedirs_cases p' w) as [[f ->] | ->]; [|intros [=]].
      by apply Hrest.
    + by apply Hrest.
  - rewrite (wsl_parse_many _ false false None w); [intros [=]|].
    rewrite Hp. cbn. lia.
Qed.

(** X14: when the guarded part has succeeded and the output of [wslpath]
    decodes, [wsl_path_to_win] prints, without a newline, the stripped
    output, with a backslash added when the path argument ends with a
    slash and the output does not already end with a backslash, and with
    every backslash doubled when [--escape] is among the arguments.  So
    for a path that ends with a slash the text before escaping ends with a
    backslash. *)
Theorem wsl_path_to_win_output (E : Env) (w w1 : World)
    (results : CompletedProcess) (p : string) (escape : bool) (text : string) :
  batch w = false →
  wsl_path_to_win_guarded E w = (Ok (results, p, escape), w1) →
  bytes_decode E (proc_stdout results) = Some text →
  let base := strip text in
  let slashed :=
    if endswith p "/" && negb (endswith base bsl) then base +:+ bsl else base in
  let printed := if escape then double_backslashes slashed else slashed in
  wsl_path_to_win E w = (Ok tt, set_stdout (stdout w +:+ printed) w1)
  ∧ path_args (drop 2 (argv w)) = [p]
  ∧ escape = has_flag "--escape" (drop 2 (argv w))
  ∧ (endswith p "/" = true → endswith slashed bsl = true).
Proof.
  intros Hb Hg Hdec base slashed printed.
  destruct (wsl_guarded_ok _ _ _ _ _ _ Hg) as (Hp & He & Hs).
  split; [|split; [done|split; [done|]]].
  - unfold wsl_path_to_win. step_guard Hb.
    rewrite bind_eq. unfold try_except. rewrite bind_eq, Hg.
    cbn [ret]. rewrite bind_eq, Hdec. cbn [of_option ret].
    unfold print_end. rewrite Hs. fold base. fold slashed.
    unfold printed. destruct escape; [|done].
    by rewrite replace_backslashes.
  - intros Hend. unfold slashed. rewrite Hend. cbn [andb].
    destruct (endswith base bsl) eqn:Hb'; [done|]. cbn [negb].
    apply endswith_snoc.
Qed.

Lemma wsl_path_to_win_output_witness :
  batch Demo.escape_world = false
  ∧ fst (wsl_path_to_win_guarded Demo.env Demo.escape_world) =
      Ok ({| returncode := 0; proc_stdout := Demo.wsl_output |}, "out/", true)
  ∧ stdout (snd (wsl_path_to_win Demo.env Demo.escape_world)) =
      double_backslashes
        (bsl +:+ bsl +:+ "wsl$" +:+ bsl +:+ "Ubuntu" +:+ bsl +:+ "proj"
         +:+ bsl).
Proof.
  assert (Hg : wsl_path_to_win_guarded Demo.env Demo.escape_world =
    (Ok ({| returncode := 0; proc_stdout := Demo.wsl_output |}, "out/", true),
     snd (wsl_path_to_win_guarded Demo.env Demo.escape_world)))
    by (vm_compute; reflexivity).
  destruct (wsl_path_to_win_output Demo.env Demo.escape_world _ _ _ _
              Demo.wsl_output eq_refl Hg eq_refl) as (Hrun & _).
  split; [reflexivity|]. split; [by rewrite Hg|]. rewrite Hrun. reflexivity.
Defined.

(** X15: outside of batch dispatch [wsl_path_to_win] returns normally,
    whatever goes wrong inside the guarded part; the one exception it can
    raise comes from decoding the output of [wslpath], which happens after
    the handler. *)
Theorem wsl_path_to_win_only_decoding_escapes (E : Env) (w : World) :
  batch w = false →
  (∃ w', wsl_path_to_win E w = (Ok tt, w'))
  ∨ (∃ w', wsl_path_to_win E w = (Raise (ValueError "decode"), w')).
Proof.
  intros Hb.
  destruct (wsl_path_to_win_guarded E w) as [[[[results p] escape]|e|] w1] eqn:Hg.
  - unfold wsl_path_to_win. step_guard Hb.
    rewrite bind_eq. unfold try_except. rewrite bind_eq, Hg.
    cbn [ret]. rewrite bind_eq.
    destruct (bytes_decode E (proc_stdout results)) as [text|].
    + left. by eexists.
    + right. by eexists.
  - left. destruct (wsl_guarded_raises E w w1 e Hg) as (He & _).
    rewrite (wsl_path_to_win_caught E w w1 e Hb Hg He). by eexists.
  - exfalso. revert Hg. unfold wsl_path_to_win_guarded.
    rewrite bind_eq. unfold get_argv. case_match; [by unfold raise|].
    rewrite bind_eq.
    destruct (wsl_parse_cases (drop 2 (argv w)) false false None w)
      as [[v Hv] | Hv]; rewrite Hv; [|done].
    destruct v as [[cr es] [p|]]; [|by unfold raise].
    rewrite bind_eq.
    assert (∀ w2,
      (present ← os_path_exists p;
       if negb present
       then raise (CleanError ("Path '" +:+ p +:+ "' does not exist."))
       else results ← subprocess_run E ["wslpath"; "-w"; "-a"; p] None true;
            ret (results, p, es)) w2 ≠ (OutOfFuel, w1)) as Hrest.
    { intros w2. rewrite bind_eq. unfold os_path_exists.
      case_match; [by unfold raise|]. rewrite bind_eq.
      destruct (subprocess_run_cases E ["wslpath"; "-w"; "-a"; p] None true w2)
        as [(r & f & ->) | [(rc & f & ->) | ->]]; by unfold ret. }
    destruct cr.
    + destruct (os_makedirs_cases p w) as [[f ->] | ->]; [apply Hrest|done].
    + apply Hrest.
Qed.

Lemma wsl_path_to_win_only_decoding_escapes_witness :
  batch Demo.missing_path_world = false
  ∧ ((∃ w', wsl_path_to_win Demo.env Demo.missing_path_world = (Ok tt, w'))
     ∨ (∃ w', wsl_path_to_win Demo.env Demo.missing_path_world =
                (Raise (ValueError "decode"), w'))).
Proof.
  split; [reflexivity|].
  exact (wsl_path_to_win_only_decoding_escapes Demo.env
           Demo.missing_path_world eq_refl).
Defined.

(** ** The other checks *)

(** X16: when [which wslpath] exits with a status other than 0,
    [wsl_build_check_win_drive] raises the clean error [wslpath not found]
    whatever [WSL_BUILD_CHECK_WIN_DRIVE_IGNORE] is, and [wslpath] is not
    run; when the translation itself exits with a status other than 0, the
    command raises [CalledProcessError], not a clean error. *)
Theorem wsl_build_check_win_drive_helper_failures (E : Env) (w : World)
    (rc : Z) (out : string) (f : Fs.node) :
  batch w = false →
  run_tool E ["which"; "wslpath"] None w = Some (rc, out, f) →
  let w1 := set_fs f (emit (EvRun ["which"; "wslpath"] None) w) in
  let translate := ["wslpath"; "-w"; "-a"; Fs.render (cwd w)] in
  (rc ≠ 0%Z →
     wsl_build_check_win_drive E w =
       (Raise (CleanError
                 "wslpath not found; you must run this from a WSL environment"),
        w1))
  ∧ (rc = 0%Z →
     environ w !! "WSL_BUILD_CHECK_WIN_DRIVE_IGNORE" ≠ Some "1" →
     ∀ (rc2 : Z) (out2 : string) (f2 : Fs.node),
       run_tool E translate None w1 = Some (rc2, out2, f2) → rc2 ≠ 0%Z →
       wsl_build_check_win_drive E w =
         (Raise (CalledProcessError rc2 translate),
          set_fs f2 (emit (EvRun translate None) w1))).
Proof.
  intros Hb Hwhich w1 translate.
  assert (Hstart : ∀ k : CompletedProcess → M unit,
    (disallow_in_batch E ;; which ← subprocess_run E ["which"; "wslpath"] None false; k which) w
    = k {| returncode := rc; proc_stdout := out |} w1).
  { intros k. step_guard Hb. rewrite bind_eq.
    rewrite (subprocess_run_tool E _ _ _ _ rc out f); [reflexivity|exact Hwhich]. }
  split.
  - intros Hrc. unfold wsl_build_check_win_drive. rewrite Hstart.
    cbn [returncode]. apply Z.eqb_neq in Hrc. by rewrite Hrc.
  - intros -> Henv rc2 out2 f2 Hrun Hrc2.
    unfold wsl_build_check_win_drive. rewrite Hstart. cbn [returncode].
    change (negb (0 =? 0)%Z) with false. cbv iota.
    rewrite bind_eq. unfold os_environ_get. cbn [environ w1 set_fs emit set_trace].
    rewrite bool_decide_eq_false_2 by exact Henv.
    rewrite bind_eq. unfold os_getcwd. cbn [cwd w1 set_fs emit set_trace].
    rewrite bind_eq.
    rewrite (subprocess_run_tool E _ _ _ _ rc2 out2 f2); [|exact Hrun].
    apply Z.eqb_neq in Hrc2. by rewrite Hrc2.
Qed.

Lemma wsl_build_check_win_drive_helper_failures_witness :
  batch Demo.check_world = false
  ∧ run_tool Demo.env_no_wslpath ["which"; "wslpath"] None Demo.check_world =
      Some (1%Z, "", fs Demo.check_world)
  ∧ fst (wsl_build_check_win_drive Demo.env_no_wslpath Demo.check_world) =
      Raise (CleanError
               "wslpath not found; you must run this from a WSL environment").
Proof.
  destruct (wsl_build_check_win_drive_helper_failures Demo.env_no_wslpath
              Demo.check_world 1%Z "" (fs Demo.check_world) eq_refl eq_refl)
    as [Hmissing _].
  split; [reflexivity|]. split; [reflexivity|].
  rewrite Hmissing; [reflexivity|lia].
Defined.

(** X17: [update_cmake_prefab_lib] checks the build type, then the mode,
    and raises the clean error for the first one that is not allowed
    before anything is run; when [make] exits with a status other than 0
    it raises [CalledProcessError], and nothing is created or copied. *)
Theorem update_cmake_prefab_lib_builds_only_valid_requests (E : Env)
    (w : World) (a0 a1 buildtype mode builddir : string) :
  batch w = false →
  argv w = [a0; a1; buildtype; mode; builddir] →
  (buildtype ∉ ["standard"; "server"] →
     update_cmake_prefab_lib E w =
       (Raise (CleanError ("Invalid buildtype: " +:+ buildtype)), w))
  ∧ (buildtype ∈ ["standard"; "server"] → mode ∉ ["debug"; "release"] →
     update_cmake_prefab_lib E w =
       (Raise (CleanError ("Invalid mode: " +:+ mode)), w))
  ∧ (buildtype ∈ ["standard"; "server"] → mode ∈ ["debug"; "release"] →
     ∀ (platform : string) (rc : Z) (out : string) (f : Fs.node),
       get_current_prefab_platform E w = Ok platform →
       let target := prefab_target platform buildtype mode in
       run_tool E ["make"; target] None w = Some (rc, out, f) → rc ≠ 0%Z →
       update_cmake_prefab_lib E w =
         (Raise (CalledProcessError rc ["make"; target]),
          set_fs f (emit (EvRun ["make"; target] None) w))).
Proof.
  intros Hb Hargv.
  assert (Hstart : ∀ k : M unit,
    update_cmake_prefab_lib E w =
      (if negb (bool_decide (buildtype ∈ ["standard"; "server"])) then
         raise (CleanError ("Invalid buildtype: " +:+ buildtype))
       else if negb (bool_decide (mode ∈ ["debug"; "release"])) then
         raise (CleanError ("Invalid mode: " +:+ mode))
       else
         platform ← lift (get_current_prefab_platform E);
         let target := prefab_target platform buildtype mode in
         subprocess_run E ["make"; target] None true ;;
         sync_prefab_lib E target builddir) w).
  { intros _. unfold update_cmake_prefab_lib. step_guard Hb.
    rewrite bind_eq. unfold get_argv. rewrite Hargv. done. }
  rewrite (Hstart (ret tt)). clear Hstart.
  split; [|split].
  - intros Hbt. by rewrite bool_decide_eq_false_2.
  - intros Hbt Hmode. rewrite (bool_decide_eq_true_2 _ Hbt).
    by rewrite bool_decide_eq_false_2.
  - intros Hbt Hmode platform rc out f Hplat target Hmake Hrc.
    rewrite (bool_decide_eq_true_2 _ Hbt), (bool_decide_eq_true_2 _ Hmode).
    cbn [negb]. rewrite bind_eq. unfold lift. rewrite Hplat.
    fold target. rewrite bind_eq.
    rewrite (subprocess_run_tool E _ _ _ _ rc out f); [|exact Hmake].
    apply Z.eqb_neq in Hrc. by rewrite Hrc.
Qed.

Lemma update_cmake_prefab_lib_builds_only_valid_requests_witness :
  batch Demo.bad_build_world = false
  ∧ update_cmake_prefab_lib Demo.env Demo.bad_build_world =
      (Raise (CleanError "Invalid buildtype: fancy"), Demo.bad_build_world).
Proof.
  split; [reflexivity|].
  apply (proj1 (update_cmake_prefab_lib_builds_only_valid_requests Demo.env
                  Demo.bad_build_world "pcommand" "update_cmake_prefab_lib"
                  "fancy" "debug" "out" eq_refl eq_refl)).
  intros H. repeat (apply elem_of_cons in H as [H|H]; [discriminate H|]).
  by apply elem_of_nil in H.
Defined.

(** X18: outside of batch dispatch [spinoff_check_submodule_parent] only
    looks: the state is left as it was.  It returns normally exactly when
    [tools/spinoff] exists and is a symbolic link and
    [submodules/ballistica] is a directory; a [tools/spinoff] that is a
    symbolic link to nothing counts as missing. *)
Theorem spinoff_check_submodule_parent_verdict (E : Env) (w : World) :
  batch w = false →
  let spinoff_exists := Fs.exists_ (fs w) (cwd w) "tools/spinoff" in
  let spinoff_is_link := Fs.islink (fs w) (cwd w) "tools/spinoff" in
  let has_submodule := Fs.isdir (fs w) (cwd w) "submodules/ballistica" in
  snd (spinoff_check_submodule_parent E w) = w
  ∧ (fst (spinoff_check_submodule_parent E w) = Ok tt ↔
     spinoff_exists = true ∧ spinoff_is_link = true ∧ has_submodule = true)
  ∧ (spinoff_exists = false →
     fst (spinoff_check_submodule_parent E w) =
       Raise (CleanError
                "This does not appear to be a spinoff-enabled project."))
  ∧ (spinoff_exists = true → spinoff_is_link = false →
     fst (spinoff_check_submodule_parent E w) =
       Raise (CleanError
                "This project is a spinoff parent; we require a dst."))
  ∧ (∀ t, Fs.lstat (fs w) (cwd w) "tools/spinoff" = Some (Fs.Symlink t) →
          Fs.stat (fs w) (cwd w) "tools/spinoff" = None →
          fst (spinoff_check_submodule_parent E w) =
            Raise (CleanError
                     "This does not appear to be a spinoff-enabled project.")).
Proof.
  intros Hb spinoff_exists spinoff_is_link has_submodule.
  assert (Hrun : spinoff_check_submodule_parent E w =
    (if negb spinoff_exists then
       Raise (CleanError "This does not appear to be a spinoff-enabled project.")
     else if negb spinoff_is_link then
       Raise (CleanError "This project is a spinoff parent; we require a dst.")
     else if negb has_submodule then
       Raise (CleanError
                ("This project is not using a submodule for its parent."
                 +:+ nl
                 +:+ "To set one up, run `tools/spinoff add-submodule-parent`"))
     else Ok tt, w)).
  { unfold spinoff_check_submodule_parent. step_guard Hb.
    rewrite bind_eq. unfold os_path_exists. fold spinoff_exists.
    destruct spinoff_exists; [|done]. cbn [negb].
    rewrite bind_eq. unfold os_path_islink. fold spinoff_is_link.
    destruct spinoff_is_link; [|done]. cbn [negb].
    rewrite bind_eq. unfold os_path_isdir. fold has_submodule.
    by destruct has_submodule. }
  rewrite Hrun. cbn [fst snd]. split; [done|]. split; [|split; [|split]].
  - destruct spinoff_exists, spinoff_is_link, has_submodule; cbn; split;
      try done; intros (? & ? & ?); done.
  - by intros ->.
  - by intros -> ->.
  - intros t _ Hstat. subst spinoff_exists. unfold Fs.exists_. by rewrite Hstat.
Qed.

Lemma spinoff_check_submodule_parent_verdict_witness :
  batch Demo.cleaner_world = false
  ∧ spinoff_check_submodule_parent Demo.env Demo.cleaner_world =
      (Raise (CleanError
                "This does not appear to be a spinoff-enabled project."),
       Demo.cleaner_world).
Proof.
  destruct (spinoff_check_submodule_parent_verdict Demo.env Demo.cleaner_world
              eq_refl) as (Hsame & _ & Hmissing & _).
  split; [reflexivity|].
  rewrite (surjective_pairing (spinoff_check_submodule_parent Demo.env
                                 Demo.cleaner_world)).
  rewrite Hsame, Hmissing; reflexivity.
Defined.

(** ** The archive of the unstripped libraries *)

Lemma traced_silent allowed {A} (m : M A) :
  (∀ w, trace (snd (m w)) = trace w) → traced allowed m.
Proof.
  intros H w. exists []. rewrite H, app_nil_r. split; [done|].
  apply list_subseteq_nil.
Qed.

Lemma traced_bind allowed {A B} (m : M A) (k : A → M B) :
  traced allowed m → (∀ a, traced allowed (k a)) → traced allowed (m ≫= k).
Proof.
  intros Hm Hk w. rewrite bind_eq.
  destruct (Hm w) as (evs & Ht & Hok).
  destruct (m w) as [[a| |] w1]; cbn [snd] in *; try by exists evs.
  destruct (Hk a w1) as (evs' & Ht' & Hok').
  exists (evs ++ evs'). rewrite Ht', Ht, <- app_assoc. split; [done|].
  intros e [He|He]%elem_of_app; auto.
Qed.

Lemma traced_for_each allowed {A} (l : list A) (body : A → M unit) :
  (∀ a, a ∈ l → traced allowed (body a)) → traced allowed (for_each l body).
Proof.
  induction l as [|x l IH]; intros Hb; cbn [for_each].
  - by apply traced_silent.
  - apply traced_bind; [apply Hb; by left|].
    intros _. apply IH. intros a Ha. apply Hb. by right.
Qed.

Lemma traced_run E allowed args c chk :
  EvRun args c ∈ allowed → traced allowed (subprocess_run E args c chk).
Proof.
  intros Hin w. exists [EvRun args c]. rewrite subprocess_run_trace.
  split; [done|]. by intros e ->%list_elem_of_singleton.
Qed.

Lemma traced_makedirs allowed p :
  EvMakedirs p ∈ allowed → traced allowed (os_makedirs p).
Proof.
  intros Hin w. exists [EvMakedirs p].
  split; [|by intros e ->%list_elem_of_singleton].
  by destruct (os_makedirs_cases p w) as [[f ->] | ->].
Qed.

Lemma traced_archive_abi E src dst abi :
  abi ∈ [ ("armeabi-v7a", "arm"); ("arm64-v8a", "arm64"); ("x86", "x86");
          ("x86_64", "x86-64") ] →
  traced (archive_events src dst) (archive_abi E src dst abi).
Proof.
  intros Habi.
  assert (Hstep : archive_step_events src dst abi ⊆ archive_events src dst).
  { intros e He. unfold archive_events. apply elem_of_app. right.
    apply list_elem_of_In, in_flat_map. exists abi.
    split; by apply list_elem_of_In. }
  destruct abi as [abi abishort]. unfold archive_abi.
  apply traced_bind; [by apply traced_silent|]. intros [|]; [|by apply traced_silent].
  apply traced_bind; [by apply traced_silent|]. intros _.
  apply traced_bind.
  { apply traced_run, Hstep. unfold archive_step_events. cbn [fst snd]. by left. }
  intros _. apply traced_bind.
  { apply traced_run, Hstep. unfold archive_step_events. cbn [fst snd].
    right. by left. }
  intros _. apply traced_bind.
  { apply traced_run, Hstep. unfold archive_step_events. cbn [fst snd].
    right. right. by left. }
  intros _. by apply traced_silent.
Qed.

(** X19: with two arguments, whatever the file system and the programs
    do, [android_archive_unstripped_libs] performs no side effect but
    these: [rm -rf] of the destination, [os.makedirs] of the destination,
    and for the four ABIs the copy of [<src>/<abi>/libmain.so] to
    [<dst>/libmain_<short>.so], [tar -zcf libmain_<short>.so.tgz
    libmain_<short>.so] run in the destination, and [rm] of that copy.  It
    removes nothing else. *)
Theorem android_archive_unstripped_libs_runs_only_its_own_steps (E : Env)
    (w : World) (a0 a1 s d : string) :
  batch w = false →
  argv w = [a0; a1; s; d] →
  ∃ evs : list event,
    trace (snd (android_archive_unstripped_libs E w)) = trace w ++ evs
    ∧ evs ⊆ archive_events (Path_str s) (Path_str d).
Proof.
  intros Hb Hargv.
  set (src := Path_str s). set (dst := Path_str d).
  assert (Hrun : android_archive_unstripped_libs E w =
    (dst_exists ← os_path_exists dst;
     (if dst_exists : bool
      then subprocess_run E ["rm"; "-rf"; dst] None true ;; ret tt
      else ret tt) ;;
     os_makedirs dst ;;
     src_is_dir ← os_path_isdir src;
     if negb src_is_dir then
       raise (CleanError ("Source dir not found: '" +:+ src +:+ "'"))
     else
       for_each
         [ ("armeabi-v7a", "arm"); ("arm64-v8a", "arm64"); ("x86", "x86");
           ("x86_64", "x86-64") ]
         (archive_abi E src dst)) w).
  { unfold android_archive_unstripped_libs. step_guard Hb.
    rewrite bind_eq. unfold get_argv. by rewrite Hargv. }
  rewrite Hrun. clear Hrun. revert w Hb Hargv.
  assert (Htr : traced (archive_events src dst)
    (dst_exists ← os_path_exists dst;
     (if dst_exists : bool
      then subprocess_run E ["rm"; "-rf"; dst] None true ;; ret tt
      else ret tt) ;;
     os_makedirs dst ;;
     src_is_dir ← os_path_isdir src;
     if negb src_is_dir then
       raise (CleanError ("Source dir not found: '" +:+ src +:+ "'"))
     else
       for_each
         [ ("armeabi-v7a", "arm"); ("arm64-v8a", "arm64"); ("x86", "x86");
           ("x86_64", "x86-64") ]
         (archive_abi E src dst))).
  { apply traced_bind; [by apply traced_silent|]. intros present.
    apply traced_bind.
    { destruct present; [|by apply traced_silent].
      apply traced_bind; [|intros _; by apply traced_silent].
      apply traced_run. unfold archive_events. by left. }
    intros _. apply traced_bind.
    { apply traced_makedirs. unfold archive_events. right. by left. }
    intros _. apply traced_bind; [by apply traced_silent|]. intros isdir.
    destruct (negb isdir); [by apply traced_silent|].
    apply traced_for_each. intros abi Habi. by apply traced_archive_abi. }
  intros w _ _. apply Htr.
Qed.

Lemma android_archive_unstripped_libs_runs_only_its_own_steps_witness :
  batch Demo.archive_world = false
  ∧ ∃ evs : list event,
      trace (snd (android_archive_unstripped_libs Demo.env Demo.archive_world))
      = trace Demo.archive_world ++ evs
      ∧ evs ⊆ archive_events "nosrc" "out".
Proof.
  split; [reflexivity|].
  exact (android_archive_unstripped_libs_runs_only_its_own_steps Demo.env
           Demo.archive_world "pcommand" "android_archive_unstripped_libs"
           "nosrc" "out" eq_refl eq_refl).
Defined.
